(** * VFIO device migration (hw/vfio/migration.c) and qdev run-state
      handlers (hw/core/vm-change-state-handler.c)

    A shallow embedding of the migration state machine, the framed stream
    protocol, the precopy save path, the load path, the lifecycle teardown
    and the device-tree depth walk, together with the properties the
    specification states about them.

    C [int]s, [int64_t]s and [uint64_t]s are integers in [Z] with their
    wrap-around written out (QEMU is built with -fwrapv); nullable pointers
    are [option]s; the process state the functions mutate is the record
    [World], threaded through a small state-and-abort monad. *)

From Stdlib Require Import ZArith Lia List String Strings.Byte HexString.
From stdpp Require Import base option list gmap strings.

Local Open Scope Z_scope.

(** ** Machine integers *)

Definition wrap_u64 (z : Z) : Z := z mod 2 ^ 64.

Definition wrap_s64 (z : Z) : Z := (z + 2 ^ 63) mod 2 ^ 64 - 2 ^ 63.

Definition wrap_s32 (z : Z) : Z := (z + 2 ^ 31) mod 2 ^ 32 - 2 ^ 31.

(** errno values of the Linux ABI. *)
Definition EIO : Z := 5.
Definition EBADF : Z := 9.
Definition EINVAL : Z := 22.

(** ** Stream delimiters (migration.c, lines 42-47) *)

Definition VFIO_MIG_FLAG_END_OF_STATE : Z := 0xffffffffef100001.
Definition VFIO_MIG_FLAG_DEV_CONFIG_STATE : Z := 0xffffffffef100002.
Definition VFIO_MIG_FLAG_DEV_SETUP_STATE : Z := 0xffffffffef100003.
Definition VFIO_MIG_FLAG_DEV_DATA_STATE : Z := 0xffffffffef100004.

Definition VFIO_MIG_DATA_BUFFER_SIZE : Z := 1024 * 1024.

(** ** Device migration states ([enum vfio_device_mig_state]) *)

Inductive vfio_device_mig_state : Set :=
| VFIO_DEVICE_STATE_ERROR
| VFIO_DEVICE_STATE_STOP
| VFIO_DEVICE_STATE_RUNNING
| VFIO_DEVICE_STATE_STOP_COPY
| VFIO_DEVICE_STATE_RESUMING
| VFIO_DEVICE_STATE_RUNNING_P2P.

Definition mig_state_to_str (state : vfio_device_mig_state) : string :=
  match state with
  | VFIO_DEVICE_STATE_ERROR => "ERROR"
  | VFIO_DEVICE_STATE_STOP => "STOP"
  | VFIO_DEVICE_STATE_RUNNING => "RUNNING"
  | VFIO_DEVICE_STATE_STOP_COPY => "STOP_COPY"
  | VFIO_DEVICE_STATE_RESUMING => "RESUMING"
  | VFIO_DEVICE_STATE_RUNNING_P2P => "RUNNING_P2P"
  end.

(** ** The migration stream ([QEMUFile])

    Modelled from the spec: the stream transport (migration/qemu-file.c) is
    not part of the sources; section 3 and section 6 of the specification
    fix what travels on it: 64-bit big-endian tags, and for a data section
    a 64-bit length followed by that many raw bytes.  A stream has the bytes
    still to be read, the bytes written so far, and the latched error code
    that [qemu_file_get_error] reports.  Writes on a stream whose error is
    latched are dropped; a read past the end yields zero bytes and latches
    -EIO. *)

Record QEMUFile : Type := mkQEMUFile {
  rd : list byte;
  wr : list byte;
  last_error : Z
}.

Definition byte_of_Z (z : Z) : byte :=
  match Byte.of_N (Z.to_N (z mod 256)) with
  | Some b => b
  | None => x00
  end.

Definition Z_of_byte (b : byte) : Z := Z.of_N (Byte.to_N b).

(** The eight bytes of a 64-bit value, most significant first. *)
Definition be64 (v : Z) : list byte :=
  map (fun sh => byte_of_Z (Z.shiftr (wrap_u64 v) sh)) [56; 48; 40; 32; 24; 16; 8; 0].

Definition qemu_file_get_error (f : QEMUFile) : Z := last_error f.

Definition qemu_file_set_error (f : QEMUFile) (ret : Z) : QEMUFile :=
  if last_error f =? 0 then mkQEMUFile (rd f) (wr f) ret else f.

Definition qemu_put_buffer (f : QEMUFile) (buf : list byte) : QEMUFile :=
  if last_error f =? 0 then mkQEMUFile (rd f) (wr f ++ buf) (last_error f) else f.

Definition qemu_put_be64 (f : QEMUFile) (v : Z) : QEMUFile :=
  qemu_put_buffer f (be64 v).

Definition qemu_get_byte (f : QEMUFile) : Z * QEMUFile :=
  match rd f with
  | b :: rest => (Z_of_byte b, mkQEMUFile rest (wr f) (last_error f))
  | [] => (0, qemu_file_set_error f (- EIO))
  end.

Fixpoint qemu_get_be (n : nat) (acc : Z) (f : QEMUFile) : Z * QEMUFile :=
  match n with
  | O => (acc, f)
  | S n' => let '(b, f') := qemu_get_byte f in qemu_get_be n' (acc * 256 + b) f'
  end.

Definition qemu_get_be64 (f : QEMUFile) : Z * QEMUFile := qemu_get_be 8 0 f.

(** ** Device and process state *)

(** Device-specific hooks ([VFIODeviceOps]); each may be absent.  A hook
    acts on the stream it is handed; what it does to the device's own
    configuration space is opaque to this file. *)
Record VFIODeviceOps : Type := mkOps {
  vfio_save_config : option (QEMUFile -> QEMUFile);
  vfio_load_config : option (QEMUFile -> Z * QEMUFile)
}.

(** [VFIOMigration]: the per-device migration context. *)
Record VFIOMigration : Type := mkMigration {
  vm_state : Z;
  device_state : vfio_device_mig_state;
  data_fd : Z;
  data_buffer : list byte;
  data_buffer_size : Z
}.

(** [VFIODevice]: [migration] and [migration_blocker] are nullable. *)
Record VFIODevice : Type := mkDevice {
  name : string;
  fd : Z;
  ops : option VFIODeviceOps;
  migration : option VFIOMigration;
  migration_blocker : option string
}.

(** What one [read] on a descriptor yields: some bytes, or a failure. *)
Inductive read_outcome : Type :=
| RdData (bs : list byte)
| RdError.

(** The kernel's answer to a VFIO_DEVICE_FEATURE state-set request: the
    ioctl's return value, the value found in the [data_fd] field of the
    argument afterwards, and what can be read from that descriptor when it
    is a new one. *)
Record ioctl_reply : Type := mkReply {
  io_ret : Z;
  io_data_fd : Z;
  io_chan : list read_outcome
}.

(** The kernel side of a device: its answer to a state-set request and to a
    reset request, given how many calls the process has made before. *)
Record Kernel : Type := mkKernel {
  k_set_state : nat -> vfio_device_mig_state -> ioctl_reply;
  k_reset : nat -> Z
}.

(** Calls made on the collaborators outside this file, in program order. *)
Inductive extcall : Type :=
| CallSetState (dev_fd : Z) (st : vfio_device_mig_state)
| CallReset (dev_fd : Z)
| CallRead (from_fd count : Z)
| CallWrite (to_fd : Z) (bs : list byte)   (* the bytes one qemu_file_get_to_fd forwards *)
| CallClose (the_fd : Z)
| CallRemoveMigrationStateChangeNotifier
| CallDelVmChangeStateHandler (entry : Z)
| CallUnregisterSavevm (idstr : string)
| CallFreeDataBuffer
| CallFreeMigration
| CallMigrateDelBlocker (reason : string)
| CallErrorFree (reason : string).

Record World : Type := mkWorld {
  bytes_transferred : Z;
  vbasedev : VFIODevice;
  stream : QEMUFile;
  fds : gmap Z (list read_outcome);
  kernel : Kernel;
  calls : list extcall;
  reports : list string
}.

Definition set_bytes_transferred (n : Z) (w : World) : World :=
  mkWorld n (vbasedev w) (stream w) (fds w) (kernel w) (calls w) (reports w).

Definition set_vbasedev (d : VFIODevice) (w : World) : World :=
  mkWorld (bytes_transferred w) d (stream w) (fds w) (kernel w) (calls w) (reports w).

Definition set_stream (f : QEMUFile) (w : World) : World :=
  mkWorld (bytes_transferred w) (vbasedev w) f (fds w) (kernel w) (calls w) (reports w).

Definition set_fds (t : gmap Z (list read_outcome)) (w : World) : World :=
  mkWorld (bytes_transferred w) (vbasedev w) (stream w) t (kernel w) (calls w) (reports w).

Definition log_call (c : extcall) (w : World) : World :=
  mkWorld (bytes_transferred w) (vbasedev w) (stream w) (fds w) (kernel w)
          (calls w ++ [c]) (reports w).

Definition log_report (s : string) (w : World) : World :=
  mkWorld (bytes_transferred w) (vbasedev w) (stream w) (fds w) (kernel w)
          (calls w) (reports w ++ [s]).

Definition set_migration (m : option VFIOMigration) (d : VFIODevice) : VFIODevice :=
  mkDevice (name d) (fd d) (ops d) m (migration_blocker d).

Definition set_migration_blocker (b : option string) (d : VFIODevice) : VFIODevice :=
  mkDevice (name d) (fd d) (ops d) (migration d) b.

(** ** The monad: state passing with the ways a call does not return

    [HwError] is [hw_error] aborting the process, [NullDeref] a dereference
    of [vbasedev->migration] while it is NULL.  [OutOfFuel] is how the two
    loops of this file are made structurally recursive; [save_total] and
    [load_total] below show that no run ever ends there. *)

Inductive result (A : Type) : Type :=
| Ret (a : A) (w : World)
| HwError (msg : string) (w : World)
| NullDeref (w : World)
| OutOfFuel (w : World).

Arguments Ret {A} a w.
Arguments HwError {A} msg w.
Arguments NullDeref {A} w.
Arguments OutOfFuel {A} w.

Definition M (A : Type) : Type := World -> result A.

Definition ret {A} (a : A) : M A := fun w => Ret a w.

Definition bind {A B} (m : M A) (k : A -> M B) : M B :=
  fun w =>
    match m w with
    | Ret a w' => k a w'
    | HwError msg w' => HwError msg w'
    | NullDeref w' => NullDeref w'
    | OutOfFuel w' => OutOfFuel w'
    end.

Notation "x <- m ;; k" := (bind m (fun x => k))
  (at level 20, m at level 99, k at level 200, format "x  <-  m ;;  '/' k").
Notation "m ;; k" := (bind m (fun _ => k))
  (at level 100, k at level 200, right associativity, format "m ;;  '/' k").

Definition modify (g : World -> World) : M unit := fun w => Ret tt (g w).

Definition gets {A} (g : World -> A) : M A := fun w => Ret (g w) w.

(** The world a call leaves behind, however it ended. *)
Definition world_of {A} (r : result A) : World :=
  match r with
  | Ret _ w => w
  | HwError _ w => w
  | NullDeref w => w
  | OutOfFuel w => w
  end.

Definition out_of_fuel {A} : M A := fun w => OutOfFuel w.

(** [hw_error]: reports and aborts the process. *)
Definition hw_error {A} (msg : string) : M A := fun w => HwError msg w.

Definition error_report (msg : string) : M unit := modify (log_report msg).

(** [vbasedev->migration], dereferenced. *)
Definition get_migration : M VFIOMigration :=
  fun w =>
    match migration (vbasedev w) with
    | Some m => Ret m w
    | None => NullDeref w
    end.

Definition put_migration (m : VFIOMigration) : M unit :=
  modify (fun w => set_vbasedev (set_migration (Some m) (vbasedev w)) w).

(** [migration->device_state = st] *)
Definition set_device_state (st : vfio_device_mig_state) : M unit :=
  m <- get_migration;;
  put_migration (mkMigration (vm_state m) st (data_fd m) (data_buffer m) (data_buffer_size m)).

(** [migration->data_fd = d] *)
Definition set_data_fd (d : Z) : M unit :=
  m <- get_migration;;
  put_migration (mkMigration (vm_state m) (device_state m) d (data_buffer m) (data_buffer_size m)).

(** [migration->data_buffer] after a read stored [bs] at its start. *)
Definition store_data_buffer (bs : list byte) : M unit :=
  m <- get_migration;;
  put_migration (mkMigration (vm_state m) (device_state m) (data_fd m)
                             (bs ++ drop (length bs) (data_buffer m)) (data_buffer_size m)).

(** ** System calls on the device and on the data channel *)

(** [ioctl(vbasedev->fd, VFIO_DEVICE_FEATURE, feature)] with
    [VFIO_DEVICE_FEATURE_SET | VFIO_DEVICE_FEATURE_MIG_DEVICE_STATE] and
    [mig_state->device_state = st].  When the kernel accepts and hands back
    a descriptor, that descriptor is open in the process from then on. *)
Definition install_fd (r : ioctl_reply) (w : World) : World :=
  if (io_ret r =? 0) && negb (io_data_fd r =? -1)
  then set_fds (<[io_data_fd r := io_chan r]> (fds w)) w
  else w.

Definition ioctl_mig_device_state (st : vfio_device_mig_state) : M ioctl_reply :=
  fun w =>
    let r := k_set_state (kernel w) (length (calls w)) st in
    Ret r (install_fd r (log_call (CallSetState (fd (vbasedev w)) st) w)).

(** [ioctl(vbasedev->fd, VFIO_DEVICE_RESET)] *)
Definition ioctl_device_reset : M Z :=
  fun w =>
    Ret (k_reset (kernel w) (length (calls w)))
        (log_call (CallReset (fd (vbasedev w))) w).

(** [close(d)] *)
Definition sys_close (d : Z) : M unit :=
  modify (fun w => set_fds (delete d (fds w)) (log_call (CallClose d) w)).

(** [read(d, buf, count)]: the byte count returned (-1 on failure) and the
    bytes stored.  A descriptor that is not open fails; an exhausted
    channel reads as end of stream; an outcome longer than [count] is
    handed over in pieces. *)
Definition sys_read (d count : Z) : M (Z * list byte) :=
  fun w =>
    let w1 := log_call (CallRead d count) w in
    match fds w !! d with
    | None => Ret (-1, []) w1
    | Some [] => Ret (0, []) w1
    | Some (RdError :: rest) => Ret (-1, []) (set_fds (<[d := rest]> (fds w1)) w1)
    | Some (RdData bs :: rest) =>
        if Z.of_nat (length bs) <=? count
        then Ret (Z.of_nat (length bs), bs) (set_fds (<[d := rest]> (fds w1)) w1)
        else
          let n := Z.to_nat count in
          Ret (Z.of_nat n, take n bs)
              (set_fds (<[d := RdData (drop n bs) :: rest]> (fds w1)) w1)
    end.

(** ** The state machine: [vfio_migration_set_state] (lines 71-130) *)

Definition vfio_migration_set_state
    (new_state recover_state : vfio_device_mig_state) : M Z :=
  nm <- gets (fun w => name (vbasedev w));;
  r <- ioctl_mig_device_state new_state;;
  if negb (io_ret r =? 0) then
    (* Try to put the device in some good state *)
    r2 <- ioctl_mig_device_state recover_state;;
    if negb (io_ret r2 =? 0) then
      rr <- ioctl_device_reset;;
      if negb (rr =? 0) then
        hw_error (nm +:+ ": Device in error state, can't recover")
      else
        error_report
          (nm +:+ ": Device was reset due to failure in changing device state to recover state "
              +:+ mig_state_to_str recover_state);;
        ret (-1)
    else
      error_report (nm +:+ ": Failed changing device state to "
                       +:+ mig_state_to_str new_state);;
      set_device_state recover_state;;
      ret (-1)
  else
    if negb (io_data_fd r =? -1) then
      m <- get_migration;;
      if negb (data_fd m =? -1) then
        (* the device was asynchronously reset and terminated a transfer *)
        error_report (nm +:+ ": data_fd out of sync");;
        sys_close (io_data_fd r);;
        ret (-1)
      else
        set_data_fd (io_data_fd r);;
        set_device_state new_state;;
        ret 0
    else
      set_device_state new_state;;
      ret 0.

(** ** Stream operations on the migration stream [f] of the world *)

Definition put_be64 (v : Z) : M unit :=
  modify (fun w => set_stream (qemu_put_be64 (stream w) v) w).

Definition put_buffer (buf : list byte) : M unit :=
  modify (fun w => set_stream (qemu_put_buffer (stream w) buf) w).

Definition get_be64 : M Z :=
  fun w => let '(v, f') := qemu_get_be64 (stream w) in Ret v (set_stream f' w).

Definition file_get_error : M Z := gets (fun w => qemu_file_get_error (stream w)).

(** ** The save path (lines 200-279) *)

Definition vfio_save_setup : M Z :=
  put_be64 VFIO_MIG_FLAG_DEV_SETUP_STATE;;
  put_be64 VFIO_MIG_FLAG_END_OF_STATE;;
  file_get_error.

Definition vfio_migration_cleanup : M unit :=
  m <- get_migration;;
  sys_close (data_fd m);;
  set_data_fd (-1).

Definition vfio_save_cleanup : M unit := vfio_migration_cleanup.

(** Returns 1 if end-of-stream is reached, 0 if more data and -1 if error *)
Definition vfio_save_block : M Z :=
  m <- get_migration;;
  got <- sys_read (data_fd m) (data_buffer_size m);;
  store_data_buffer (snd got);;
  let data_size := fst got in
  if data_size <? 0 then ret (-1)
  else if data_size =? 0 then ret 1
  else
    put_be64 VFIO_MIG_FLAG_DEV_DATA_STATE;;
    put_be64 data_size;;
    m' <- get_migration;;
    put_buffer (take (Z.to_nat data_size) (data_buffer m'));;
    modify (fun w => set_bytes_transferred (wrap_s64 (bytes_transferred w + data_size)) w);;
    file_get_error.

(** The [do ... while (!ret)] loop of [vfio_save_complete_precopy]: it ends
    with the last [ret]; a negative one makes the caller return it. *)
Fixpoint save_blocks (fuel : nat) : M Z :=
  match fuel with
  | O => out_of_fuel
  | S fuel' =>
      r <- vfio_save_block;;
      if r <? 0 then ret r
      else if r =? 0 then save_blocks fuel'
      else ret r
  end.

(** What is left to read on a channel bounds the number of reads. *)
Definition chan_weight (ch : list read_outcome) : nat :=
  fold_right (fun o n => match o with
                         | RdData bs => S (length bs + n)
                         | RdError => S n
                         end) O ch.

Definition save_fuel (w : World) : nat :=
  match migration (vbasedev w) with
  | Some m => match fds w !! data_fd m with
              | Some ch => S (chan_weight ch)
              | None => 1%nat
              end
  | None => 1%nat
  end.

Definition vfio_save_complete_precopy : M Z :=
  (* We reach here with device state STOP only *)
  r <- vfio_migration_set_state VFIO_DEVICE_STATE_STOP_COPY VFIO_DEVICE_STATE_STOP;;
  if negb (r =? 0) then ret r
  else
    fuel <- gets save_fuel;;
    r <- save_blocks fuel;;
    if r <? 0 then ret r
    else
      put_be64 VFIO_MIG_FLAG_END_OF_STATE;;
      r <- file_get_error;;
      if negb (r =? 0) then ret r
      else vfio_migration_set_state VFIO_DEVICE_STATE_STOP VFIO_DEVICE_STATE_ERROR.

Definition vfio_save_device_config_state : M Z :=
  put_be64 VFIO_MIG_FLAG_DEV_CONFIG_STATE;;
  o <- gets (fun w => ops (vbasedev w));;
  match o with
  | Some (mkOps (Some save_config) _) =>
      modify (fun w => set_stream (save_config (stream w)) w)
  | _ => ret tt
  end;;
  put_be64 VFIO_MIG_FLAG_END_OF_STATE;;
  file_get_error.

Definition vfio_save_state : M unit :=
  nm <- gets (fun w => name (vbasedev w));;
  r <- vfio_save_device_config_state;;
  if negb (r =? 0) then
    error_report (nm +:+ ": Failed to save device config space");;
    modify (fun w => set_stream (qemu_file_set_error (stream w) r) w)
  else ret tt.

(** ** The load path (lines 132-188, 294-364) *)

(** Modelled from the spec: [qemu_file_get_to_fd] (migration/qemu-file.c)
    is not part of the sources; section 4.4 of the specification has a data
    section's bytes read, exactly as many as its length says, and forwarded
    to the device's data-channel sink.  It returns 0 on success; a
    descriptor that is not open fails with -EBADF, and a stream that ends
    early forwards what there is, latches -EIO and returns it. *)
Definition qemu_file_get_to_fd (d size : Z) : M Z :=
  fun w =>
    let f := stream w in
    match fds w !! d with
    | None => Ret (- EBADF) w
    | Some _ =>
        if size <=? Z.of_nat (length (rd f)) then
          let n := Z.to_nat size in
          Ret 0 (log_call (CallWrite d (take n (rd f)))
                   (set_stream (mkQEMUFile (drop n (rd f)) (wr f) (last_error f)) w))
        else
          Ret (- EIO)
              (log_call (CallWrite d (rd f))
                 (set_stream (qemu_file_set_error (mkQEMUFile [] (wr f) (last_error f)) (- EIO)) w))
    end.

Definition vfio_load_buffer (data_size : Z) : M Z :=
  m <- get_migration;;
  qemu_file_get_to_fd (data_fd m) data_size.

Definition vfio_load_device_config_state : M Z :=
  nm <- gets (fun w => name (vbasedev w));;
  o <- gets (fun w => ops (vbasedev w));;
  r <- match o with
       | Some (mkOps _ (Some load_config)) =>
           fun w => let '(r, f') := load_config (stream w) in Ret r (set_stream f' w)
       | _ => ret 0
       end;;
  if negb (r =? 0) then
    error_report (nm +:+ ": Failed to load device config space");;
    ret r
  else
    data <- get_be64;;
    if negb (data =? VFIO_MIG_FLAG_END_OF_STATE) then
      error_report (nm +:+ ": Failed loading device config space, end flag incorrect "
                       +:+ HexString.of_Z data);;
      ret (- EINVAL)
    else file_get_error.

Definition vfio_load_setup : M Z :=
  m <- get_migration;;
  vfio_migration_set_state VFIO_DEVICE_STATE_RESUMING (device_state m).

Definition vfio_load_cleanup : M Z :=
  vfio_migration_cleanup;;
  ret 0.

(** The [while (data != VFIO_MIG_FLAG_END_OF_STATE)] loop of
    [vfio_load_state], entered with the tag just read in [data] and the
    current value of [ret]. *)
Fixpoint load_sections (fuel : nat) (data r : Z) : M Z :=
  if data =? VFIO_MIG_FLAG_END_OF_STATE then ret r
  else
    match fuel with
    | O => out_of_fuel
    | S fuel' =>
        nm <- gets (fun w => name (vbasedev w));;
        if data =? VFIO_MIG_FLAG_DEV_CONFIG_STATE then
          vfio_load_device_config_state
        else if data =? VFIO_MIG_FLAG_DEV_SETUP_STATE then
          data' <- get_be64;;
          if data' =? VFIO_MIG_FLAG_END_OF_STATE then ret r
          else
            error_report (nm +:+ ": SETUP STATE: EOS not found " +:+ HexString.of_Z data');;
            ret (- EINVAL)
        else if data =? VFIO_MIG_FLAG_DEV_DATA_STATE then
          data_size <- get_be64;;
          r1 <- (if negb (data_size =? 0) then vfio_load_buffer data_size else ret r);;
          if negb (data_size =? 0) && (r1 <? 0) then ret r1
          else
            data' <- get_be64;;
            r2 <- file_get_error;;
            if negb (r2 =? 0) then ret r2
            else load_sections fuel' data' r2
        else
          error_report (nm +:+ ": Unknown tag " +:+ HexString.of_Z data);;
          ret (- EINVAL)
    end.

(** The loop with the fuel it needs: every section that lets it go on
    takes bytes off the stream. *)
Definition load_loop (data r : Z) : M Z :=
  fuel <- gets (fun w => S (length (rd (stream w))));;
  load_sections fuel data r.

Definition vfio_load_state : M Z :=
  data <- get_be64;;
  load_loop data 0.

(** ** Reaction to the migration status (lines 406-424) *)

(** Modelled from the spec: [MigrationStatus] is declared in a generated
    header that is not part of the sources; section 6 of the specification
    names the three statuses the core reacts to (cancelling, cancelled,
    failed); the other members are the remaining statuses of a migration. *)
Inductive MigrationStatus : Set :=
| MIGRATION_STATUS_NONE
| MIGRATION_STATUS_SETUP
| MIGRATION_STATUS_CANCELLING
| MIGRATION_STATUS_CANCELLED
| MIGRATION_STATUS_ACTIVE
| MIGRATION_STATUS_POSTCOPY_ACTIVE
| MIGRATION_STATUS_POSTCOPY_PAUSED
| MIGRATION_STATUS_POSTCOPY_RECOVER
| MIGRATION_STATUS_COMPLETED
| MIGRATION_STATUS_FAILED
| MIGRATION_STATUS_COLO
| MIGRATION_STATUS_PRE_SWITCHOVER
| MIGRATION_STATUS_DEVICE
| MIGRATION_STATUS_WAIT_UNPLUG.

(** The notifier lives inside the [VFIOMigration] it is recovered from
    with [container_of]; [migration->vbasedev] is read before the switch. *)
Definition vfio_migration_state_notifier (s_state : MigrationStatus) : M unit :=
  get_migration;;
  match s_state with
  | MIGRATION_STATUS_CANCELLING
  | MIGRATION_STATUS_CANCELLED
  | MIGRATION_STATUS_FAILED =>
      modify (set_bytes_transferred 0);;
      vfio_migration_set_state VFIO_DEVICE_STATE_RUNNING VFIO_DEVICE_STATE_ERROR;;
      ret tt
  | _ => ret tt
  end.

Definition vfio_mig_bytes_transferred (w : World) : Z := bytes_transferred w.

(** ** Teardown (lines 426-431, 543-559) *)

Definition vfio_migration_exit : M unit :=
  get_migration;;
  modify (log_call CallFreeDataBuffer);;
  modify (log_call CallFreeMigration);;
  modify (fun w => set_vbasedev (set_migration None (vbasedev w)) w).

Definition vfio_migration_finalize : M unit :=
  mo <- gets (fun w => migration (vbasedev w));;
  match mo with
  | Some m =>
      modify (log_call CallRemoveMigrationStateChangeNotifier);;
      modify (log_call (CallDelVmChangeStateHandler (vm_state m)));;
      modify (log_call (CallUnregisterSavevm "vfio"));;
      vfio_migration_exit
  | None => ret tt
  end;;
  bo <- gets (fun w => migration_blocker (vbasedev w));;
  match bo with
  | Some reason =>
      modify (log_call (CallMigrateDelBlocker reason));;
      modify (log_call (CallErrorFree reason));;
      modify (fun w => set_vbasedev (set_migration_blocker None (vbasedev w)) w)
  | None => ret tt
  end.

(** ** Device tree depth and run-state handlers
       (hw/core/vm-change-state-handler.c) *)

Module Qdev.

(** A device and the chain above it: [dev->parent_bus] and [bus->parent]
    are nullable pointers into a tree, so the chain is finite. *)
Inductive DeviceState : Type :=
| mkDeviceState (parent_bus : option BusState)
with BusState : Type :=
| mkBusState (parent : option DeviceState).

(** The body of the [for] loop, entered with a non-NULL [dev]. *)
Fixpoint depth_from (dev : DeviceState) (depth : Z) : Z :=
  match dev with
  | mkDeviceState None => depth
  | mkDeviceState (Some (mkBusState None)) => wrap_s32 (depth + 1)
  | mkDeviceState (Some (mkBusState (Some dev'))) => depth_from dev' (wrap_s32 (depth + 1))
  end.

Definition qdev_get_dev_tree_depth (dev : option DeviceState) : Z :=
  match dev with
  | None => 0
  | Some d => depth_from d 0
  end.

(** The buses met walking up from a device: one per hop. *)
Fixpoint ancestor_buses (dev : DeviceState) : list BusState :=
  match dev with
  | mkDeviceState None => []
  | mkDeviceState (Some (mkBusState None as bus)) => [bus]
  | mkDeviceState (Some (mkBusState (Some dev') as bus)) => bus :: ancestor_buses dev'
  end.

Definition hops (dev : option DeviceState) : nat :=
  match dev with
  | None => O
  | Some d => length (ancestor_buses d)
  end.

(** Modelled from the spec: the run-state callback registry
    ([qemu_add_vm_change_state_handler_prio_full], softmmu/runstate.c) is
    not part of the sources; section 4.2 of the specification has
    [register] insert an entry keeping the collection in ascending priority
    order, after the entries of the same priority. *)
Record VMChangeStateEntry : Type := mkEntry {
  cb : Z;
  prepare_cb : option Z;
  opaque : Z;
  priority : Z
}.

Fixpoint insert_by_priority (e : VMChangeStateEntry) (reg : list VMChangeStateEntry)
  : list VMChangeStateEntry :=
  match reg with
  | [] => [e]
  | other :: rest =>
      if priority e <? priority other then e :: other :: rest
      else other :: insert_by_priority e rest
  end.

Definition qemu_add_vm_change_state_handler_prio_full
    (cb : Z) (prepare_cb : option Z) (opaque : Z) (priority : Z)
    (reg : list VMChangeStateEntry) : VMChangeStateEntry * list VMChangeStateEntry :=
  let e := mkEntry cb prepare_cb opaque priority in
  (e, insert_by_priority e reg).

Definition qdev_add_vm_change_state_handler_full
    (dev : option DeviceState) (cb : Z) (pre_change_cb : option Z) (opaque : Z)
    (reg : list VMChangeStateEntry) : VMChangeStateEntry * list VMChangeStateEntry :=
  let depth := qdev_get_dev_tree_depth dev in
  qemu_add_vm_change_state_handler_prio_full cb pre_change_cb opaque depth reg.

Definition qdev_add_vm_change_state_handler
    (dev : option DeviceState) (cb : Z) (opaque : Z)
    (reg : list VMChangeStateEntry) : VMChangeStateEntry * list VMChangeStateEntry :=
  qdev_add_vm_change_state_handler_full dev cb None opaque reg.

End Qdev.

(** ** Reading the world after an update *)

Definition with_migration (m : VFIOMigration) (w : World) : World :=
  set_vbasedev (set_migration (Some m) (vbasedev w)) w.

Definition with_device_state (st : vfio_device_mig_state) (m : VFIOMigration) : VFIOMigration :=
  mkMigration (vm_state m) st (data_fd m) (data_buffer m) (data_buffer_size m).

Definition with_data_fd (d : Z) (m : VFIOMigration) : VFIOMigration :=
  mkMigration (vm_state m) (device_state m) d (data_buffer m) (data_buffer_size m).

(** The replies the kernel gives to the (up to) three calls of one
    [vfio_migration_set_state]. *)
Definition reply_target (w : World) (new_state : vfio_device_mig_state) : ioctl_reply :=
  k_set_state (kernel w) (length (calls w)) new_state.

Definition reply_recover (w : World) (recover_state : vfio_device_mig_state) : ioctl_reply :=
  k_set_state (kernel w) (S (length (calls w))) recover_state.

Definition reply_reset (w : World) : Z :=
  k_reset (kernel w) (S (S (length (calls w)))).

(** ** The claims about [vfio_migration_set_state], as predicates *)

(** The recorded state after a call is the target or the recovery state,
    or the call ended in [hw_error]. *)
Definition lands_on_target_or_recovery
    (w : World) (new_state recover_state : vfio_device_mig_state) : Prop :=
  match vfio_migration_set_state new_state recover_state w with
  | Ret _ w' =>
      exists m', migration (vbasedev w') = Some m'
                 /\ (device_state m' = new_state \/ device_state m' = recover_state)
  | HwError _ _ => True
  | NullDeref _ | OutOfFuel _ => False
  end.

(** ** Example kernels, devices and worlds *)

Definition accepts : ioctl_reply := mkReply 0 (-1) [].

Definition accepts_with (d : Z) (ch : list read_outcome) : ioctl_reply := mkReply 0 d ch.

Definition rejects : ioctl_reply := mkReply (-1) 0 [].

Definition example_device (st : vfio_device_mig_state) (d : Z) : VFIODevice :=
  mkDevice "0000:3b:00.0" 7 None (Some (mkMigration 1 st d (repeat x00 4) 4)) None.

Definition empty_stream : QEMUFile := mkQEMUFile [] [] 0.

(** A kernel that rejects every state-set request and resets the device
    when asked. *)
Definition kernel_rejecting : Kernel := mkKernel (fun _ _ => rejects) (fun _ => 0).

(** A kernel that rejects every request, the reset included. *)
Definition kernel_dead : Kernel := mkKernel (fun _ _ => rejects) (fun _ => -1).

(** A kernel that accepts every state-set request, with no descriptor. *)
Definition kernel_accepting : Kernel := mkKernel (fun _ _ => accepts) (fun _ => 0).

(** A kernel that accepts only [VFIO_DEVICE_STATE_STOP]. *)
Definition kernel_stop_only : Kernel :=
  mkKernel (fun _ st => match st with
                        | VFIO_DEVICE_STATE_STOP => accepts
                        | _ => rejects
                        end)
           (fun _ => 0).

(** A kernel that hands back descriptor 9 with every accepted request. *)
Definition kernel_new_fd : Kernel :=
  mkKernel (fun _ _ => accepts_with 9 [RdData [x2a]]) (fun _ => 0).

(** A running device, no data channel open, in front of [kernel_rejecting]. *)
Definition world_reset : World :=
  mkWorld 0 (example_device VFIO_DEVICE_STATE_RUNNING (-1)) empty_stream ∅
          kernel_rejecting [] [].

(** A stopped device with data channel 5 open, in front of a kernel that
    hands back another descriptor. *)
Definition world_desync : World :=
  mkWorld 0 (example_device VFIO_DEVICE_STATE_STOP 5) empty_stream {[ 5 := [RdData [x01]] ]}
          kernel_new_fd [] [].

(** A stopped device in front of [kernel_stop_only]. *)
Definition world_stop_only : World :=
  mkWorld 0 (example_device VFIO_DEVICE_STATE_STOP (-1)) empty_stream ∅
          kernel_stop_only [] [].

(** A device in STOP_COPY with 4096 bytes already counted, in front of
    [kernel_accepting]. *)
Definition world_stop_copy : World :=
  mkWorld 4096 (example_device VFIO_DEVICE_STATE_STOP_COPY 5) empty_stream
          {[ 5 := [] ]} kernel_accepting [] [].

(** Whether the notifier reacts to a status. *)
Definition abandons (s : MigrationStatus) : bool :=
  match s with
  | MIGRATION_STATUS_CANCELLING
  | MIGRATION_STATUS_CANCELLED
  | MIGRATION_STATUS_FAILED => true
  | _ => false
  end.

(** A call whose value is dropped. *)
Definition discard {A} (r : result A) : result unit :=
  match r with
  | Ret _ w => Ret tt w
  | HwError msg w => HwError msg w
  | NullDeref w => NullDeref w
  | OutOfFuel w => OutOfFuel w
  end.

(** A device on a bus whose parent device sits on a root bus: two hops. *)
Definition device_two_up : Qdev.DeviceState :=
  Qdev.mkDeviceState (Some (Qdev.mkBusState (Some
    (Qdev.mkDeviceState (Some (Qdev.mkBusState None)))))).

(** A device that has no parent bus. *)
Definition device_alone : Qdev.DeviceState := Qdev.mkDeviceState None.

(** A resuming device with data channel 5 open, about to load the given
    bytes. *)
Definition world_loading (bytes : list byte) : World :=
  mkWorld 0 (example_device VFIO_DEVICE_STATE_RESUMING 5) (mkQEMUFile bytes [] 0)
          {[ 5 := [] ]} kernel_accepting [] [].

Definition world_bad_tag : World := world_loading (be64 0xdeadbeef ++ [x01; x02; x03]).

(** ** The load loop, one section at a time *)

(** The body of the loop for a data section: [inl] carries the value
    [vfio_load_state] returns from inside the body, [inr] the next tag, with
    which the loop goes on. *)
Definition data_section (r : Z) : M (Z + Z) :=
  data_size <- get_be64;;
  r1 <- (if negb (data_size =? 0) then vfio_load_buffer data_size else ret r);;
  if negb (data_size =? 0) && (r1 <? 0) then ret (inl r1)
  else
    data' <- get_be64;;
    r2 <- file_get_error;;
    if negb (r2 =? 0) then ret (inl r2)
    else ret (inr data').

(** The body of the loop for a setup section. *)
Definition setup_section (r : Z) : M Z :=
  nm <- gets (fun w => name (vbasedev w));;
  data' <- get_be64;;
  if data' =? VFIO_MIG_FLAG_END_OF_STATE then ret r
  else
    error_report (nm +:+ ": SETUP STATE: EOS not found " +:+ HexString.of_Z data');;
    ret (- EINVAL).




(** Two data sections (2 bytes and 1 byte) and the end marker, followed by
    a config section. *)
Definition world_two_sections : World :=
  world_loading (be64 VFIO_MIG_FLAG_DEV_DATA_STATE ++ be64 2 ++ [x0a; x0b]
                   ++ be64 VFIO_MIG_FLAG_DEV_DATA_STATE ++ be64 1 ++ [x0c]
                   ++ be64 VFIO_MIG_FLAG_END_OF_STATE
                   ++ be64 VFIO_MIG_FLAG_DEV_CONFIG_STATE).

(** ** The save path, one block at a time *)

(** A data section as it appears on the stream. *)
Definition data_frame (bs : list byte) : list byte :=
  be64 VFIO_MIG_FLAG_DEV_DATA_STATE ++ be64 (Z.of_nat (length bs)) ++ bs.

Definition data_frames (blocks : list (list byte)) : list byte :=
  concat (map data_frame blocks).

Definition total_size (blocks : list (list byte)) : Z :=
  fold_right (fun bs n => Z.of_nat (length bs) + n) 0 blocks.

(** Two worlds that show the same device to the save loop: same kernel,
    same device identity, and a migration context that differs at most in
    the contents of its buffer. *)
Definition same_device (w w' : World) : Prop :=
  kernel w' = kernel w
  /\ name (vbasedev w') = name (vbasedev w)
  /\ fd (vbasedev w') = fd (vbasedev w)
  /\ exists m m',
       migration (vbasedev w) = Some m
       /\ migration (vbasedev w') = Some m'
       /\ device_state m' = device_state m
       /\ data_fd m' = data_fd m
       /\ data_buffer_size m' = data_buffer_size m.

(** The counter after the blocks have been added one by one, as
    [bytes_transferred += data_size] does in 64-bit arithmetic. *)
Definition count_blocks (start : Z) (blocks : list (list byte)) : Z :=
  fold_left (fun n bs => wrap_s64 (n + Z.of_nat (length bs))) blocks start.

(** The world after [vfio_save_block] has read the block [bs] from a
    channel that then holds [rest], on a stream without error. *)
Definition after_block (bs : list byte) (rest : list read_outcome)
    (m : VFIOMigration) (w : World) : World :=
  mkWorld (wrap_s64 (bytes_transferred w + Z.of_nat (length bs)))
          (set_migration
             (Some (mkMigration (vm_state m) (device_state m) (data_fd m)
                      (bs ++ drop (length bs) (data_buffer m)) (data_buffer_size m)))
             (vbasedev w))
          (mkQEMUFile (rd (stream w)) (wr (stream w) ++ data_frame bs) (last_error (stream w)))
          (<[data_fd m := rest]> (fds w))
          (kernel w)
          (calls w ++ [CallRead (data_fd m) (data_buffer_size m)])
          (reports w).

(** The world after a [read] that stored nothing. *)
Definition after_empty_read (t : gmap Z (list read_outcome))
    (m : VFIOMigration) (w : World) : World :=
  mkWorld (bytes_transferred w)
          (set_migration
             (Some (mkMigration (vm_state m) (device_state m) (data_fd m)
                      (drop 0 (data_buffer m)) (data_buffer_size m)))
             (vbasedev w))
          (stream w) t (kernel w)
          (calls w ++ [CallRead (data_fd m) (data_buffer_size m)])
          (reports w).

(** Three blocks of 2, 1 and 4 bytes. *)
Definition three_blocks : list (list byte) := [[x01; x02]; [x03]; [x04; x05; x06; x07]].

(** A kernel that accepts every request and hands back descriptor 5, from
    which the three blocks can be read, when asked for STOP_COPY. *)
Definition kernel_three_blocks : Kernel :=
  mkKernel (fun _ st => match st with
                        | VFIO_DEVICE_STATE_STOP_COPY =>
                            accepts_with 5 (map RdData three_blocks)
                        | _ => accepts
                        end)
           (fun _ => 0).

(** A stopped device with 10 bytes already counted and no channel open. *)
Definition world_three_blocks : World :=
  mkWorld 10 (example_device VFIO_DEVICE_STATE_STOP (-1)) empty_stream ∅
          kernel_three_blocks [] [].

(** ** More example kernels and worlds *)

(** A kernel that rejects STOP_COPY and accepts every other request,
    handing back descriptor 11 each time. *)
Definition kernel_recovery_fd : Kernel :=
  mkKernel (fun _ st => match st with
                        | VFIO_DEVICE_STATE_STOP_COPY => rejects
                        | _ => accepts_with 11 [RdData [x55]]
                        end)
           (fun _ => 0).

(** A stopped device with no channel open in front of [kernel_recovery_fd]. *)
Definition world_recovery_fd : World :=
  mkWorld 0 (example_device VFIO_DEVICE_STATE_STOP (-1)) empty_stream ∅
          kernel_recovery_fd [] [].

(** The calls one [vfio_migration_set_state] can make. *)
Definition set_state_calls (dev_fd : Z) (new_state recover_state : vfio_device_mig_state)
    (l : list extcall) : Prop :=
  l = [CallSetState dev_fd new_state]
  \/ (exists d, l = [CallSetState dev_fd new_state; CallClose d])
  \/ l = [CallSetState dev_fd new_state; CallSetState dev_fd recover_state]
  \/ l = [CallSetState dev_fd new_state; CallSetState dev_fd recover_state; CallReset dev_fd].

(** A device whose configuration hooks write, and read back, two bytes. *)
Definition example_ops : VFIODeviceOps :=
  mkOps (Some (fun f => qemu_put_buffer f [x10; x20]))
        (Some (fun f => (0, mkQEMUFile (drop 2 (rd f)) (wr f) (last_error f)))).

Definition example_device_with_ops (st : vfio_device_mig_state) (d : Z) : VFIODevice :=
  mkDevice "0000:3b:00.0" 7 (Some example_ops) (Some (mkMigration 1 st d (repeat x00 4) 4)) None.

(** A stopped device with hooks, about to save its configuration. *)
Definition world_config_save : World :=
  mkWorld 0 (example_device_with_ops VFIO_DEVICE_STATE_STOP (-1)) empty_stream ∅
          kernel_accepting [] [].

(** A resuming device with hooks, about to load the given bytes. *)
Definition world_config_load (bytes : list byte) : World :=
  mkWorld 0 (example_device_with_ops VFIO_DEVICE_STATE_RESUMING 5) (mkQEMUFile bytes [] 0)
          {[ 5 := [] ]} kernel_accepting [] [].

(** A kernel that accepts STOP_COPY, handing back descriptor 5 with the
    three blocks, then refuses STOP and accepts every other request. *)
Definition kernel_stop_refused : Kernel :=
  mkKernel (fun _ st => match st with
                        | VFIO_DEVICE_STATE_STOP_COPY =>
                            accepts_with 5 (map RdData three_blocks)
                        | VFIO_DEVICE_STATE_STOP => rejects
                        | _ => accepts
                        end)
           (fun _ => 0).

Definition world_stop_refused : World :=
  mkWorld 10 (example_device VFIO_DEVICE_STATE_STOP (-1)) empty_stream ∅
          kernel_stop_refused [] [].

(** ** What the load path leaves alone *)

(** Calls that forward bytes to the data channel of the device of [w]. *)
Definition forwards_only (w : World) (l : list extcall) : Prop :=
  Forall (fun c => exists m bs, migration (vbasedev w) = Some m
                                /\ c = CallWrite (data_fd m) bs) l.

(** [w'] differs from [w] at most in the stream, in the reports, and in
    forwarding calls made since. *)
Definition load_frame (w w' : World) : Prop :=
  bytes_transferred w' = bytes_transferred w
  /\ vbasedev w' = vbasedev w
  /\ fds w' = fds w
  /\ kernel w' = kernel w
  /\ exists l, calls w' = calls w ++ l /\ forwards_only w l.

(** The device has no [vfio_load_config] hook.  The hook is code outside
    this file that is handed the device itself; what it does besides
    reading the stream is not modelled, so the frame is stated for devices
    without one. *)
Definition no_load_hook (w : World) : Prop :=
  forall o ld, ops (vbasedev w) = Some o -> vfio_load_config o <> Some ld.

Definition keeps {A} (m : M A) : Prop :=
  forall w, no_load_hook w -> load_frame w (world_of (m w)).

(** ** Reaction to the VM run state (migration.c, lines 378-404)

    [running] is the handler's argument; [state] is only traced.
    [to_dst_file] tells whether [migrate_get_current()->to_dst_file] is
    set; when it is, it is the stream of the world. *)
Definition vfio_vmstate_change (running : bool) (to_dst_file : bool) : M unit :=
  let new_state := if running then VFIO_DEVICE_STATE_RUNNING else VFIO_DEVICE_STATE_STOP in
  r <- vfio_migration_set_state new_state VFIO_DEVICE_STATE_ERROR;;
  if negb (r =? 0) then
    (* Migration should be aborted in this case, but vm_state_notify()
       currently does not support reporting failures. *)
    if to_dst_file then
      modify (fun w => set_stream (qemu_file_set_error (stream w) r) w)
    else ret tt
  else ret tt.

(** The state a run-state change asks the device for. *)
Definition run_state_target (running : bool) : vfio_device_mig_state :=
  if running then VFIO_DEVICE_STATE_RUNNING else VFIO_DEVICE_STATE_STOP.

(** The device that sits on a bus whose parent is [parent]. *)
Definition child_of (parent : Qdev.DeviceState) : Qdev.DeviceState :=
  Qdev.mkDeviceState (Some (Qdev.mkBusState (Some parent))).

(** A registry with entries of priorities 0, 3 and 1, in that order. *)
Definition example_registry : list Qdev.VMChangeStateEntry :=
  [Qdev.mkEntry 10 None 1 0; Qdev.mkEntry 11 None 2 3; Qdev.mkEntry 12 None 3 1].

(** ** Probing a device (migration.c, lines 433-541) *)

(** errno value of the Linux ABI. *)
Definition EOPNOTSUPP : Z := 95.

(** Modelled from the spec: [<linux/vfio.h>] is not part of the sources;
    section 6 of the specification has the capability query return a flag
    set of which the core needs the stop-copy bit, which the kernel ABI
    numbers bit 0. *)
Definition VFIO_MIGRATION_STOP_COPY : Z := 1.

(** What [vfio_migration_probe] finds around the device: the fields of
    [VFIODevice] that the other functions of the file do not read, and the
    answers of the collaborators it calls. *)
Record Host : Type := mkHost {
  (* vbasedev->enable_migration *)
  enable_migration : bool;
  (* vbasedev->ops->vfio_get_object: absent; or present, returning NULL or
     an object, with what vmstate_if_get_id gives for that object *)
  vfio_get_object : option (option (option string));
  (* the VFIO_DEVICE_FEATURE_MIGRATION query: the ioctl's return value and
     mig->flags afterwards *)
  feature_migration : Z * Z;
  (* vbasedev->dev *)
  host_dev : option Qdev.DeviceState;
  (* the addresses of vfio_vmstate_change and of vbasedev *)
  vmstate_change_cb : Z;
  vbasedev_opaque : Z;
  (* the pointer qdev_add_vm_change_state_handler returns *)
  entry_address : Z;
  (* the value migrate_add_blocker returns *)
  migrate_add_blocker : Z
}.

(** Calls made while probing, besides those on the run-state registry. *)
Inductive setup_call : Type :=
| CallVfioGetObject
| CallFeatureMigration (dev_fd : Z)
| CallRegisterSavevmLive (idstr : string) (version_id : Z)
| CallAddMigrationStateChangeNotifier
| CallMigrateAddBlocker (reason : string)
| CallErrorFreeBlocker (reason : string).

Record Setup : Type := mkSetup {
  s_world : World;
  s_handlers : list Qdev.VMChangeStateEntry;
  s_calls : list setup_call
}.

Definition log_setup (c : setup_call) (s : Setup) : Setup :=
  mkSetup (s_world s) (s_handlers s) (s_calls s ++ [c]).

Definition set_world (w : World) (s : Setup) : Setup :=
  mkSetup w (s_handlers s) (s_calls s).

(** How probing ends: with a return value, or in one of the three ways the
    C code has no defined continuation: [vbasedev->ops] dereferenced while
    NULL; [id] filled to its last byte by [strpadcpy], so that it reaches
    [register_savevm_live] without terminator; [error_setg] called on a
    [migration_blocker] that is already set, which it asserts against. *)
Inductive outcome : Type :=
| Done (r : Z) (s : Setup)
| NullOps (s : Setup)
| IdOverrun (s : Setup)
| BlockerAlreadySet (s : Setup).

(** [inl] is the error returned, [inr] the flags stored through
    [mig_flags] when 0 is returned. *)
Definition vfio_migration_query_flags (h : Host) (s : Setup) : (Z + Z) * Setup :=
  let s1 := log_setup (CallFeatureMigration (fd (vbasedev (s_world s)))) s in
  if negb (fst (feature_migration h) =? 0) then (inl (- EOPNOTSUPP), s1)
  else (inr (wrap_u64 (snd (feature_migration h))), s1).

Definition vfio_migration_init (h : Host) (s : Setup) : outcome :=
  match ops (vbasedev (s_world s)) with
  | None => NullOps s
  | Some _ =>
      match vfio_get_object h with
      | None => Done (- EINVAL) s
      | Some get_object =>
          let s1 := log_setup CallVfioGetObject s in
          match get_object with
          | None => Done (- EINVAL) s1
          | Some oid =>
              match vfio_migration_query_flags h s1 with
              | (inl r, s2) => Done r s2
              | (inr mig_flags, s2) =>
                  (* Basic migration functionality must be supported *)
                  if Z.land mig_flags VFIO_MIGRATION_STOP_COPY =? 0
                  then Done (- EOPNOTSUPP) s2
                  else
                    (* g_new0, then the three assignments *)
                    let m := mkMigration 0 VFIO_DEVICE_STATE_ERROR (-1)
                               (repeat x00 (Z.to_nat VFIO_MIG_DATA_BUFFER_SIZE))
                               VFIO_MIG_DATA_BUFFER_SIZE in
                    let s3 := set_world (with_migration m (s_world s2)) s2 in
                    let path := match oid with
                                | Some o => o +:+ "/vfio"
                                | None => "vfio"
                                end in
                    if 256 <=? Z.of_nat (String.length path) then IdOverrun s3
                    else
                      let s4 := log_setup (CallRegisterSavevmLive path 1) s3 in
                      let '(_, reg) :=
                        Qdev.qdev_add_vm_change_state_handler
                          (host_dev h) (vmstate_change_cb h) (vbasedev_opaque h)
                          (s_handlers s4) in
                      let m' := mkMigration (entry_address h) (device_state m) (data_fd m)
                                  (data_buffer m) (data_buffer_size m) in
                      let s5 := mkSetup (with_migration m' (s_world s4)) reg (s_calls s4) in
                      Done 0 (log_setup CallAddMigrationStateChangeNotifier s5)
              end
          end
      end
  end.

Definition blocker_reason : string := "VFIO device doesn't support migration".

(** The [add_blocker:] label of [vfio_migration_probe]; the value [ret]
    holds on arrival is overwritten there. *)
Definition add_blocker (h : Host) (s : Setup) : outcome :=
  match migration_blocker (vbasedev (s_world s)) with
  | Some _ => BlockerAlreadySet s
  | None =>
      let dev1 := set_migration_blocker (Some blocker_reason) (vbasedev (s_world s)) in
      let s1 := log_setup (CallMigrateAddBlocker blocker_reason)
                  (set_world (set_vbasedev dev1 (s_world s)) s) in
      let r := migrate_add_blocker h in
      if r <? 0 then
        let s2 := log_setup (CallErrorFreeBlocker blocker_reason) s1 in
        Done r (set_world
                  (set_vbasedev (set_migration_blocker None (vbasedev (s_world s2)))
                     (s_world s2)) s2)
      else Done r s1
  end.

Definition vfio_migration_probe (h : Host) (s : Setup) : outcome :=
  if negb (enable_migration h) then add_blocker h s
  else
    match vfio_migration_init h s with
    | Done r s' => if negb (r =? 0) then add_blocker h s' else Done 0 s'
    | stuck => stuck
    end.

(** Whether the device can migrate, as [vfio_migration_probe] finds out. *)
Definition can_migrate (h : Host) : bool :=
  enable_migration h
  && match vfio_get_object h with
     | Some (Some _) =>
         (fst (feature_migration h) =? 0) && Z.testbit (snd (feature_migration h)) 0
     | _ => false
     end.

(** The name under which the device's handlers are registered. *)
Definition savevm_id (h : Host) : string :=
  match vfio_get_object h with
  | Some (Some (Some o)) => o +:+ "/vfio"
  | _ => "vfio"
  end.

(** A device never probed: hooks in place, no context, no blocker. *)
Definition world_unprobed : World :=
  mkWorld 0 (mkDevice "0000:3b:00.0" 7 (Some example_ops) None None) empty_stream ∅
          kernel_accepting [] [].

Definition setup_unprobed : Setup := mkSetup world_unprobed example_registry [].

(** A host on which migration is enabled and the kernel reports stop-copy
    (and one more capability bit); the device sits two hops below the root
    and the blocker registry would answer 0. *)
Definition host_capable : Host :=
  mkHost true (Some (Some (Some "0000:3b:00.0"))) (0, 3) (Some device_two_up)
         4096 8192 12288 0.

(** The same host with a kernel that does not know the migration feature. *)
Definition host_no_feature : Host :=
  mkHost true (Some (Some (Some "0000:3b:00.0"))) (-1, 0) (Some device_two_up)
         4096 8192 12288 0.

(** * Properties *)

Ltac run_step :=
  unfold vfio_migration_set_state, ioctl_mig_device_state, ioctl_device_reset,
    set_device_state, set_data_fd, put_migration, get_migration, error_report,
    sys_close, hw_error, bind, gets, modify, ret.

Ltac steps tac := repeat (progress (simpl; tac)).

Ltac by_compute := vm_compute; first [reflexivity | discriminate | lia].

Ltac open_reply r :=
  let io := fresh "io" in let d := fresh "d" in let ch := fresh "ch" in
  destruct r as [io d ch]; unfold install_fd; simpl in *; subst; simpl.

(** The target is accepted and no descriptor comes back. *)
Lemma set_state_accepted (new_state recover_state : vfio_device_mig_state)
    (w : World) (m : VFIOMigration) :
  migration (vbasedev w) = Some m ->
  io_ret (reply_target w new_state) = 0 ->
  io_data_fd (reply_target w new_state) = -1 ->
  vfio_migration_set_state new_state recover_state w =
    Ret 0 (with_migration (with_device_state new_state m)
             (log_call (CallSetState (fd (vbasedev w)) new_state) w)).
Proof.
  unfold reply_target. intros Hm Hr Hd. run_step. cbv beta zeta.
  open_reply (k_set_state (kernel w) (length (calls w)) new_state).
  rewrite Hm. reflexivity.
Qed.

(** The target is accepted, a descriptor comes back and none is open. *)
Lemma set_state_accepted_fd (new_state recover_state : vfio_device_mig_state)
    (w : World) (m : VFIOMigration) :
  migration (vbasedev w) = Some m ->
  io_ret (reply_target w new_state) = 0 ->
  io_data_fd (reply_target w new_state) <> -1 ->
  data_fd m = -1 ->
  let r := reply_target w new_state in
  let w1 := log_call (CallSetState (fd (vbasedev w)) new_state) w in
  vfio_migration_set_state new_state recover_state w =
    Ret 0 (with_migration (with_device_state new_state (with_data_fd (io_data_fd r) m))
             (set_fds (<[io_data_fd r := io_chan r]> (fds w1)) w1)).
Proof.
  unfold reply_target. intros Hm Hr Hd Hfd. run_step. cbv beta zeta.
  open_reply (k_set_state (kernel w) (length (calls w)) new_state).
  apply Z.eqb_neq in Hd.
  steps ltac:(rewrite ?Hd, ?Hm, ?Hfd). reflexivity.
Qed.

(** The target is accepted, a descriptor comes back while one is open. *)
Lemma set_state_desync (new_state recover_state : vfio_device_mig_state)
    (w : World) (m : VFIOMigration) :
  migration (vbasedev w) = Some m ->
  io_ret (reply_target w new_state) = 0 ->
  io_data_fd (reply_target w new_state) <> -1 ->
  data_fd m <> -1 ->
  let r := reply_target w new_state in
  let w1 := log_report (name (vbasedev w) +:+ ": data_fd out of sync")
              (log_call (CallSetState (fd (vbasedev w)) new_state) w) in
  vfio_migration_set_state new_state recover_state w =
    Ret (-1) (set_fds (delete (io_data_fd r) (<[io_data_fd r := io_chan r]> (fds w)))
                (log_call (CallClose (io_data_fd r)) w1)).
Proof.
  unfold reply_target. intros Hm Hr Hd Hfd. run_step. cbv beta zeta.
  open_reply (k_set_state (kernel w) (length (calls w)) new_state).
  apply Z.eqb_neq in Hd. apply Z.eqb_neq in Hfd.
  steps ltac:(rewrite ?Hd, ?Hm, ?Hfd). reflexivity.
Qed.

(** The target is rejected, the recovery state accepted. *)
Lemma set_state_recovered (new_state recover_state : vfio_device_mig_state)
    (w : World) (m : VFIOMigration) :
  migration (vbasedev w) = Some m ->
  io_ret (reply_target w new_state) <> 0 ->
  io_ret (reply_recover w recover_state) = 0 ->
  let w1 := log_call (CallSetState (fd (vbasedev w)) new_state) w in
  let w2 := install_fd (reply_recover w recover_state)
              (log_call (CallSetState (fd (vbasedev w)) recover_state) w1) in
  vfio_migration_set_state new_state recover_state w =
    Ret (-1) (with_migration (with_device_state recover_state m)
                (log_report (name (vbasedev w) +:+ ": Failed changing device state to "
                               +:+ mig_state_to_str new_state) w2)).
Proof.
  unfold reply_target, reply_recover. intros Hm Hr Hr2. run_step. cbv beta zeta.
  open_reply (k_set_state (kernel w) (length (calls w)) new_state).
  apply Z.eqb_neq in Hr. steps ltac:(rewrite ?Hr).
  rewrite length_app. simpl. rewrite Nat.add_1_r.
  open_reply (k_set_state (kernel w) (S (length (calls w))) recover_state).
  destruct (d0 =? -1); steps ltac:(rewrite ?Hm); reflexivity.
Qed.

(** Both are rejected and the reset succeeds. *)
Lemma set_state_reset (new_state recover_state : vfio_device_mig_state) (w : World) :
  io_ret (reply_target w new_state) <> 0 ->
  io_ret (reply_recover w recover_state) <> 0 ->
  reply_reset w = 0 ->
  vfio_migration_set_state new_state recover_state w =
    Ret (-1)
      (log_report
         (name (vbasedev w)
            +:+ ": Device was reset due to failure in changing device state to recover state "
            +:+ mig_state_to_str recover_state)
         (log_call (CallReset (fd (vbasedev w)))
            (log_call (CallSetState (fd (vbasedev w)) recover_state)
               (log_call (CallSetState (fd (vbasedev w)) new_state) w)))).
Proof.
  unfold reply_target, reply_recover, reply_reset. intros Hr Hr2 Hrr.
  run_step. cbv beta zeta.
  open_reply (k_set_state (kernel w) (length (calls w)) new_state).
  apply Z.eqb_neq in Hr. steps ltac:(rewrite ?Hr).
  rewrite length_app. simpl. rewrite Nat.add_1_r.
  open_reply (k_set_state (kernel w) (S (length (calls w))) recover_state).
  apply Z.eqb_neq in Hr2. steps ltac:(rewrite ?Hr2).
  rewrite !length_app. simpl. rewrite !Nat.add_1_r. rewrite Hrr. reflexivity.
Qed.

(** Both are rejected and the reset fails too. *)
Lemma set_state_fatal (new_state recover_state : vfio_device_mig_state) (w : World) :
  io_ret (reply_target w new_state) <> 0 ->
  io_ret (reply_recover w recover_state) <> 0 ->
  reply_reset w <> 0 ->
  vfio_migration_set_state new_state recover_state w =
    HwError (name (vbasedev w) +:+ ": Device in error state, can't recover")
      (log_call (CallReset (fd (vbasedev w)))
         (log_call (CallSetState (fd (vbasedev w)) recover_state)
            (log_call (CallSetState (fd (vbasedev w)) new_state) w))).
Proof.
  unfold reply_target, reply_recover, reply_reset. intros Hr Hr2 Hrr.
  run_step. cbv beta zeta.
  open_reply (k_set_state (kernel w) (length (calls w)) new_state).
  apply Z.eqb_neq in Hr. steps ltac:(rewrite ?Hr).
  rewrite length_app. simpl. rewrite Nat.add_1_r.
  open_reply (k_set_state (kernel w) (S (length (calls w))) recover_state).
  apply Z.eqb_neq in Hr2. steps ltac:(rewrite ?Hr2).
  rewrite !length_app. simpl. rewrite !Nat.add_1_r.
  apply Z.eqb_neq in Hrr. rewrite Hrr. reflexivity.
Qed.

(** ** The state machine *)

(** C1, as stated, fails: a running device whose kernel rejects both
    STOP_COPY and STOP and then resets it comes back from the call with
    -1 and still records RUNNING, which is neither the target nor the
    recovery state, and no [hw_error] was raised. *)
Lemma set_state_keeps_previous_state :
  vfio_migration_set_state VFIO_DEVICE_STATE_STOP_COPY VFIO_DEVICE_STATE_STOP world_reset
    = Ret (-1)
        (mkWorld 0 (example_device VFIO_DEVICE_STATE_RUNNING (-1)) empty_stream ∅
           kernel_rejecting
           [CallSetState 7 VFIO_DEVICE_STATE_STOP_COPY;
            CallSetState 7 VFIO_DEVICE_STATE_STOP;
            CallReset 7]
           ["0000:3b:00.0: Device was reset due to failure in changing device state to recover state STOP"])
  /\ ~ lands_on_target_or_recovery world_reset
         VFIO_DEVICE_STATE_STOP_COPY VFIO_DEVICE_STATE_STOP.
Proof.
  split; [reflexivity |].
  unfold lands_on_target_or_recovery. simpl.
  intros (m' & Hm' & [H | H]); inversion Hm'; subst; discriminate H.
Qed.

(** C1, amended: with a migration context in place, a call either returns
    0 with the target recorded (the kernel accepted it), or returns -1
    with the recovery state recorded (target rejected, recovery accepted),
    or returns -1 with the recorded state as it was before the call (a
    second descriptor arrived while one was open, or both requests were
    rejected and the reset succeeded), or ends in [hw_error] (the reset
    failed too).  No other outcome exists. *)
Theorem set_state_outcomes
    (new_state recover_state : vfio_device_mig_state) (w : World) (m : VFIOMigration) :
  migration (vbasedev w) = Some m ->
  let r1 := reply_target w new_state in
  let r2 := reply_recover w recover_state in
  match vfio_migration_set_state new_state recover_state w with
  | Ret r w' =>
      exists m', migration (vbasedev w') = Some m' /\
        ((r = 0 /\ device_state m' = new_state /\ io_ret r1 = 0)
         \/ (r = -1 /\ device_state m' = recover_state
             /\ io_ret r1 <> 0 /\ io_ret r2 = 0)
         \/ (r = -1 /\ device_state m' = device_state m
             /\ ((io_ret r1 = 0 /\ io_data_fd r1 <> -1 /\ data_fd m <> -1)
                 \/ (io_ret r1 <> 0 /\ io_ret r2 <> 0 /\ reply_reset w = 0))))
  | HwError _ _ => io_ret r1 <> 0 /\ io_ret r2 <> 0 /\ reply_reset w <> 0
  | NullDeref _ | OutOfFuel _ => False
  end.
Proof.
  intros Hm r1 r2.
  destruct (Z.eq_dec (io_ret r1) 0) as [Ha | Hrej].
  - destruct (Z.eq_dec (io_data_fd r1) (-1)) as [Hno | Hnew].
    + rewrite (set_state_accepted _ _ _ _ Hm Ha Hno).
      eexists; split; [reflexivity | left; auto].
    + destruct (Z.eq_dec (data_fd m) (-1)) as [Hclosed | Hopen].
      * rewrite (set_state_accepted_fd _ _ _ _ Hm Ha Hnew Hclosed).
        eexists; split; [reflexivity | left; auto].
      * rewrite (set_state_desync _ _ _ _ Hm Ha Hnew Hopen).
        exists m; split; [exact Hm | right; right; auto 6].
  - destruct (Z.eq_dec (io_ret r2) 0) as [Hrec | Hrej2].
    + rewrite (set_state_recovered _ _ _ _ Hm Hrej Hrec).
      eexists; split; [reflexivity | right; left; auto].
    + destruct (Z.eq_dec (reply_reset w) 0) as [Hok | Hbad].
      * rewrite (set_state_reset _ _ _ Hrej Hrej2 Hok).
        exists m; split; [exact Hm | right; right; auto 6].
      * rewrite (set_state_fatal _ _ _ Hrej Hrej2 Hbad). auto.
Qed.

Lemma set_state_outcomes_witness :
  migration (vbasedev world_stop_only)
    = Some (mkMigration 1 VFIO_DEVICE_STATE_STOP (-1) (repeat x00 4) 4)
  /\ exists m', migration (vbasedev (world_of
                   (vfio_migration_set_state VFIO_DEVICE_STATE_STOP_COPY
                      VFIO_DEVICE_STATE_STOP world_stop_only))) = Some m'
                 /\ device_state m' = VFIO_DEVICE_STATE_STOP.
Proof.
  split; [reflexivity |].
  pose proof (set_state_outcomes VFIO_DEVICE_STATE_STOP_COPY VFIO_DEVICE_STATE_STOP
                world_stop_only _ eq_refl) as H.
  simpl in H. destruct H as (m' & Hm' & _).
  exists m'. split; [exact Hm' |].
  inversion Hm'; reflexivity.
Defined.


(** A kernel that rejects both requests and the reset: the call does not
    return, it ends in [hw_error]. *)
Example set_state_hw_error :
  vfio_migration_set_state VFIO_DEVICE_STATE_STOP_COPY VFIO_DEVICE_STATE_STOP
    (mkWorld 0 (example_device VFIO_DEVICE_STATE_RUNNING (-1)) empty_stream ∅
       kernel_dead [] [])
  = HwError "0000:3b:00.0: Device in error state, can't recover"
      (mkWorld 0 (example_device VFIO_DEVICE_STATE_RUNNING (-1)) empty_stream ∅
         kernel_dead
         [CallSetState 7 VFIO_DEVICE_STATE_STOP_COPY;
          CallSetState 7 VFIO_DEVICE_STATE_STOP;
          CallReset 7]
         []).
Proof. reflexivity. Qed.

(** C2: when the kernel accepts the target and hands back a descriptor
    while a data channel is already open, the call returns -1, closes the
    descriptor it was handed (the only calls made are the state-set request
    and that [close]), and leaves the migration context, hence the channel
    it holds, as it was; every other descriptor of the process is
    untouched. *)
Theorem set_state_second_channel
    (new_state recover_state : vfio_device_mig_state) (w : World) (m : VFIOMigration) :
  migration (vbasedev w) = Some m ->
  io_ret (reply_target w new_state) = 0 ->
  io_data_fd (reply_target w new_state) <> -1 ->
  data_fd m <> -1 ->
  exists w',
    vfio_migration_set_state new_state recover_state w = Ret (-1) w'
    /\ migration (vbasedev w') = Some m
    /\ calls w' = calls w ++ [CallSetState (fd (vbasedev w)) new_state;
                              CallClose (io_data_fd (reply_target w new_state))]
    /\ fds w' !! io_data_fd (reply_target w new_state) = None
    /\ (forall d, d <> io_data_fd (reply_target w new_state) -> fds w' !! d = fds w !! d).
Proof.
  intros Hm Ha Hnew Hopen.
  rewrite (set_state_desync _ _ _ _ Hm Ha Hnew Hopen).
  eexists; split; [reflexivity |]. simpl.
  repeat split.
  - exact Hm.
  - rewrite <- app_assoc. reflexivity.
  - apply lookup_delete_eq.
  - intros d Hd. rewrite lookup_delete_ne by congruence.
    apply lookup_insert_ne. congruence.
Qed.

Lemma set_state_second_channel_witness :
  (migration (vbasedev world_desync)
     = Some (mkMigration 1 VFIO_DEVICE_STATE_STOP 5 (repeat x00 4) 4)
   /\ io_ret (reply_target world_desync VFIO_DEVICE_STATE_STOP_COPY) = 0
   /\ io_data_fd (reply_target world_desync VFIO_DEVICE_STATE_STOP_COPY) <> -1
   /\ (5 : Z) <> -1)
  /\ exists w',
       vfio_migration_set_state VFIO_DEVICE_STATE_STOP_COPY VFIO_DEVICE_STATE_STOP
         world_desync = Ret (-1) w'
       /\ migration (vbasedev w')
            = Some (mkMigration 1 VFIO_DEVICE_STATE_STOP 5 (repeat x00 4) 4)
       /\ calls w' = [CallSetState 7 VFIO_DEVICE_STATE_STOP_COPY; CallClose 9]
       /\ fds w' !! (9 : Z) = None
       /\ fds w' !! (5 : Z) = Some [RdData [x01]].
Proof.
  split; [repeat split; by_compute |].
  destruct (set_state_second_channel VFIO_DEVICE_STATE_STOP_COPY VFIO_DEVICE_STATE_STOP
              world_desync _ eq_refl eq_refl ltac:(by_compute) ltac:(by_compute))
    as (w' & Hrun & Hmig & Hcalls & Hclosed & Hrest).
  exists w'. repeat split; try assumption.
  rewrite (Hrest 5) by (simpl; lia). reflexivity.
Defined.

(** C3: when the kernel rejects the target and accepts the recovery state,
    the call records the recovery state, reports the failed change and
    returns -1 (it does not abort); the only calls made are the two
    state-set requests. *)
Theorem set_state_rejected_recovers
    (new_state recover_state : vfio_device_mig_state) (w : World) (m : VFIOMigration) :
  migration (vbasedev w) = Some m ->
  io_ret (reply_target w new_state) <> 0 ->
  io_ret (reply_recover w recover_state) = 0 ->
  exists w',
    vfio_migration_set_state new_state recover_state w = Ret (-1) w'
    /\ migration (vbasedev w') = Some (with_device_state recover_state m)
    /\ calls w' = calls w ++ [CallSetState (fd (vbasedev w)) new_state;
                              CallSetState (fd (vbasedev w)) recover_state]
    /\ reports w' = reports w ++ [name (vbasedev w) +:+ ": Failed changing device state to "
                                    +:+ mig_state_to_str new_state].
Proof.
  intros Hm Hrej Hrec.
  rewrite (set_state_recovered _ _ _ _ Hm Hrej Hrec).
  eexists; split; [reflexivity |].
  unfold install_fd.
  destruct ((io_ret _ =? 0) && negb (io_data_fd _ =? -1)); simpl;
    rewrite <- app_assoc; auto.
Qed.

(** C3, the scenario of the specification: STOP_COPY is rejected, STOP is
    accepted; the device is left in STOP and the call returns -1. *)
Lemma set_state_rejected_recovers_witness :
  (migration (vbasedev world_stop_only)
     = Some (mkMigration 1 VFIO_DEVICE_STATE_STOP (-1) (repeat x00 4) 4)
   /\ io_ret (reply_target world_stop_only VFIO_DEVICE_STATE_STOP_COPY) <> 0
   /\ io_ret (reply_recover world_stop_only VFIO_DEVICE_STATE_STOP) = 0)
  /\ exists w',
       vfio_migration_set_state VFIO_DEVICE_STATE_STOP_COPY VFIO_DEVICE_STATE_STOP
         world_stop_only = Ret (-1) w'
       /\ migration (vbasedev w')
            = Some (mkMigration 1 VFIO_DEVICE_STATE_STOP (-1) (repeat x00 4) 4)
       /\ calls w' = [CallSetState 7 VFIO_DEVICE_STATE_STOP_COPY;
                      CallSetState 7 VFIO_DEVICE_STATE_STOP]
       /\ reports w' = ["0000:3b:00.0: Failed changing device state to STOP_COPY"].
Proof.
  split; [repeat split; by_compute |].
  exact (set_state_rejected_recovers VFIO_DEVICE_STATE_STOP_COPY VFIO_DEVICE_STATE_STOP
           world_stop_only _ eq_refl ltac:(by_compute) eq_refl).
Defined.

(** C10: on the two error paths that record no recovery state -- the
    target is accepted but a second descriptor arrives while one is open;
    both requests are rejected and the reset succeeds -- the call returns
    -1 and the migration context, its [device_state] in particular, is what
    it was before the call. *)
Theorem set_state_error_paths_keep_state
    (new_state recover_state : vfio_device_mig_state) (w : World) (m : VFIOMigration) :
  migration (vbasedev w) = Some m ->
  (io_ret (reply_target w new_state) = 0
   /\ io_data_fd (reply_target w new_state) <> -1 /\ data_fd m <> -1)
  \/ (io_ret (reply_target w new_state) <> 0
      /\ io_ret (reply_recover w recover_state) <> 0 /\ reply_reset w = 0) ->
  exists w' m',
    vfio_migration_set_state new_state recover_state w = Ret (-1) w'
    /\ migration (vbasedev w') = Some m'
    /\ device_state m' = device_state m.
Proof.
  intros Hm [(Ha & Hnew & Hopen) | (Hrej & Hrej2 & Hok)].
  - rewrite (set_state_desync _ _ _ _ Hm Ha Hnew Hopen).
    eexists; exists m. split; [reflexivity | split; [exact Hm | reflexivity]].
  - rewrite (set_state_reset _ _ _ Hrej Hrej2 Hok).
    eexists; exists m. split; [reflexivity | split; [exact Hm | reflexivity]].
Qed.

Lemma set_state_error_paths_keep_state_witness :
  (migration (vbasedev world_reset)
     = Some (mkMigration 1 VFIO_DEVICE_STATE_RUNNING (-1) (repeat x00 4) 4)
   /\ io_ret (reply_target world_reset VFIO_DEVICE_STATE_STOP_COPY) <> 0
   /\ io_ret (reply_recover world_reset VFIO_DEVICE_STATE_STOP) <> 0
   /\ reply_reset world_reset = 0)
  /\ exists w' m',
       vfio_migration_set_state VFIO_DEVICE_STATE_STOP_COPY VFIO_DEVICE_STATE_STOP
         world_reset = Ret (-1) w'
       /\ migration (vbasedev w') = Some m'
       /\ device_state m' = VFIO_DEVICE_STATE_RUNNING.
Proof.
  split; [repeat split; by_compute |].
  apply (set_state_error_paths_keep_state VFIO_DEVICE_STATE_STOP_COPY
           VFIO_DEVICE_STATE_STOP world_reset _ eq_refl).
  right. repeat split; by_compute.
Defined.


(** A state transition touches neither the transferred-bytes counter nor
    the migration stream, and the first call it makes is the state-set
    request for its target. *)
Lemma set_state_frame (new_state recover_state : vfio_device_mig_state) (w : World) :
  let w' := world_of (vfio_migration_set_state new_state recover_state w) in
  bytes_transferred w' = bytes_transferred w
  /\ stream w' = stream w
  /\ exists rest, calls w' = calls w ++ CallSetState (fd (vbasedev w)) new_state :: rest.
Proof.
  run_step. cbv beta zeta. unfold install_fd.
  destruct (migration (vbasedev w)) as [m |] eqn:Hm;
    repeat first
      [ progress (steps ltac:(rewrite ?Hm, ?length_app))
      | match goal with
        | |- context [k_set_state ?k ?n ?s] => destruct (k_set_state k n s) as [? ? ?]
        | |- context [if ?b then _ else _] => destruct b
        end ];
    repeat split; rewrite <- ?app_assoc; simpl; eauto.
Qed.

(** ** The migration-status notifier *)

(** C7: called with cancelling, cancelled or failed, the notifier sets the
    transferred-bytes counter to zero and then requests the transition to
    RUNNING with recovery state ERROR: it ends as that request does, the
    counter is zero afterwards, and the first call made is the state-set
    request for RUNNING.  Called with any other status it changes
    nothing. *)
Theorem notifier_reaction (s : MigrationStatus) (w : World) (m : VFIOMigration) :
  migration (vbasedev w) = Some m ->
  if abandons s then
    vfio_migration_state_notifier s w
      = discard (vfio_migration_set_state VFIO_DEVICE_STATE_RUNNING VFIO_DEVICE_STATE_ERROR
                   (set_bytes_transferred 0 w))
    /\ bytes_transferred (world_of (vfio_migration_state_notifier s w)) = 0
    /\ exists rest,
         calls (world_of (vfio_migration_state_notifier s w))
           = calls w ++ CallSetState (fd (vbasedev w)) VFIO_DEVICE_STATE_RUNNING :: rest
  else
    vfio_migration_state_notifier s w = Ret tt w.
Proof.
  intros Hm.
  assert (Hrun : abandons s = true ->
            vfio_migration_state_notifier s w
            = discard (vfio_migration_set_state VFIO_DEVICE_STATE_RUNNING
                         VFIO_DEVICE_STATE_ERROR (set_bytes_transferred 0 w))).
  { intros Hs. unfold vfio_migration_state_notifier, bind, get_migration, modify, ret.
    rewrite Hm. destruct s; try discriminate Hs;
      destruct (vfio_migration_set_state _ _ _); reflexivity. }
  destruct (abandons s) eqn:Hs.
  - rewrite (Hrun eq_refl).
    pose proof (set_state_frame VFIO_DEVICE_STATE_RUNNING VFIO_DEVICE_STATE_ERROR
                  (set_bytes_transferred 0 w)) as (Hb & _ & rest & Hc).
    split; [reflexivity |].
    destruct (vfio_migration_set_state _ _ _); simpl in *; eauto.
  - unfold vfio_migration_state_notifier, bind, get_migration, ret.
    rewrite Hm. destruct s; try discriminate Hs; reflexivity.
Qed.

(** C7, the scenario of the specification: cancelled arrives while the
    device is in STOP_COPY; the device is forced to RUNNING and the counter
    is back to zero. *)
Lemma notifier_reaction_witness :
  migration (vbasedev world_stop_copy)
    = Some (mkMigration 1 VFIO_DEVICE_STATE_STOP_COPY 5 (repeat x00 4) 4)
  /\ vfio_migration_state_notifier MIGRATION_STATUS_CANCELLED world_stop_copy
     = Ret tt (mkWorld 0 (example_device VFIO_DEVICE_STATE_RUNNING 5) empty_stream
                 {[ 5 := [] ]} kernel_accepting
                 [CallSetState 7 VFIO_DEVICE_STATE_RUNNING] [])
  /\ vfio_migration_state_notifier MIGRATION_STATUS_ACTIVE world_stop_copy
     = Ret tt world_stop_copy.
Proof.
  split; [reflexivity |]. split.
  - destruct (notifier_reaction MIGRATION_STATUS_CANCELLED world_stop_copy _ eq_refl)
      as (Hrun & _).
    rewrite Hrun. reflexivity.
  - exact (notifier_reaction MIGRATION_STATUS_ACTIVE world_stop_copy _ eq_refl).
Defined.


(** ** Teardown *)

Lemma finalize_returns (w : World) :
  exists w1, vfio_migration_finalize w = Ret tt w1
             /\ migration (vbasedev w1) = None
             /\ migration_blocker (vbasedev w1) = None.
Proof.
  unfold vfio_migration_finalize, vfio_migration_exit, bind, gets, modify, ret,
    get_migration.
  destruct (migration (vbasedev w)) as [m |] eqn:Hm; simpl; rewrite ?Hm; simpl;
    destruct (migration_blocker (vbasedev w)) as [b |] eqn:Hb; simpl;
    eexists; (split; [reflexivity | simpl; auto]).
Qed.

Lemma finalize_nothing_left (w : World) :
  migration (vbasedev w) = None ->
  migration_blocker (vbasedev w) = None ->
  vfio_migration_finalize w = Ret tt w.
Proof.
  intros Hm Hb.
  unfold vfio_migration_finalize, bind, gets, ret. rewrite Hm, Hb. reflexivity.
Qed.

(** C8: [vfio_migration_finalize] always returns, and a second call on the
    world the first one left returns that same world: it makes no call at
    all (no notifier or handler removal, no unregistration, no free, no
    blocker deletion), whatever the device had before the first call. *)
Theorem finalize_idempotent (w : World) :
  exists w1,
    vfio_migration_finalize w = Ret tt w1
    /\ vfio_migration_finalize w1 = Ret tt w1
    /\ calls (world_of (vfio_migration_finalize w1)) = calls w1.
Proof.
  destruct (finalize_returns w) as (w1 & Hrun & Hm & Hb).
  exists w1. rewrite (finalize_nothing_left w1 Hm Hb). auto.
Qed.

(** What the first call releases, for a device that has a migration
    context and no blocker, and that the second call adds nothing. *)
Example finalize_twice :
  let w1 := world_of (vfio_migration_finalize world_stop_copy) in
  calls w1 = [CallRemoveMigrationStateChangeNotifier;
              CallDelVmChangeStateHandler 1;
              CallUnregisterSavevm "vfio";
              CallFreeDataBuffer;
              CallFreeMigration]
  /\ vfio_migration_finalize w1 = Ret tt w1.
Proof. split; reflexivity. Qed.


(** ** Device tree depth *)

Lemma wrap_s32_small (z : Z) : 0 <= z < 2 ^ 31 -> wrap_s32 z = z.
Proof. intros H. unfold wrap_s32. rewrite Z.mod_small; lia. Qed.

Lemma depth_from_hops :
  forall (d : Qdev.DeviceState) (acc : Z),
    0 <= acc ->
    acc + Z.of_nat (length (Qdev.ancestor_buses d)) < 2 ^ 31 ->
    Qdev.depth_from d acc = acc + Z.of_nat (length (Qdev.ancestor_buses d)).
Proof.
  fix IH 1.
  intros [[[[d' |]] |]] acc Hacc Hfit; simpl in *.
  - rewrite wrap_s32_small by lia.
    rewrite IH by lia. lia.
  - rewrite wrap_s32_small by lia. lia.
  - lia.
Qed.

(** C9: for a chain that an [int] can count, the depth is the number of
    hops from the device up (one per bus met), hence not negative; a NULL
    device and a device with no parent bus have depth 0; and the handler
    pair is registered with exactly that depth as its priority. *)
Theorem tree_depth_counts_hops
    (dev : option Qdev.DeviceState) (cb : Z) (pre_change_cb : option Z) (opaque : Z)
    (reg : list Qdev.VMChangeStateEntry) :
  Z.of_nat (Qdev.hops dev) < 2 ^ 31 ->
  Qdev.qdev_get_dev_tree_depth dev = Z.of_nat (Qdev.hops dev)
  /\ 0 <= Qdev.qdev_get_dev_tree_depth dev
  /\ (dev = None \/ dev = Some (Qdev.mkDeviceState None) ->
      Qdev.qdev_get_dev_tree_depth dev = 0)
  /\ Qdev.qdev_add_vm_change_state_handler_full dev cb pre_change_cb opaque reg
     = Qdev.qemu_add_vm_change_state_handler_prio_full cb pre_change_cb opaque
         (Z.of_nat (Qdev.hops dev)) reg
  /\ Qdev.priority
       (fst (Qdev.qdev_add_vm_change_state_handler_full dev cb pre_change_cb opaque reg))
     = Z.of_nat (Qdev.hops dev).
Proof.
  intros Hfit.
  assert (Hd : Qdev.qdev_get_dev_tree_depth dev = Z.of_nat (Qdev.hops dev)).
  { destruct dev as [d |]; simpl in *; [| reflexivity].
    rewrite depth_from_hops by lia. lia. }
  split; [exact Hd |]. split; [lia |]. split.
  - intros [-> | ->]; reflexivity.
  - unfold Qdev.qdev_add_vm_change_state_handler_full. rewrite Hd.
    split; reflexivity.
Qed.

Lemma tree_depth_counts_hops_witness :
  Z.of_nat (Qdev.hops (Some device_two_up)) < 2 ^ 31
  /\ Qdev.qdev_get_dev_tree_depth (Some device_two_up) = 2
  /\ Qdev.qdev_get_dev_tree_depth (Some device_alone) = 0
  /\ Qdev.priority
       (fst (Qdev.qdev_add_vm_change_state_handler_full (Some device_two_up) 100 None 7 []))
     = 2.
Proof.
  assert (Hfit : Z.of_nat (Qdev.hops (Some device_two_up)) < 2 ^ 31) by by_compute.
  destruct (tree_depth_counts_hops (Some device_two_up) 100 None 7 [] Hfit)
    as (Hd & _ & _ & _ & Hp).
  split; [exact Hfit |]. split; [exact Hd |]. split; [reflexivity | exact Hp].
Defined.

(** The registered entry sits in the registry after the entries of lower
    or equal priority and before those of higher priority. *)
Lemma insert_by_priority_In (e : Qdev.VMChangeStateEntry) (reg : list Qdev.VMChangeStateEntry) :
  In e (Qdev.insert_by_priority e reg).
Proof.
  induction reg as [| other rest IH]; simpl; [auto |].
  destruct (Qdev.priority e <? Qdev.priority other); simpl; auto.
Qed.


(** ** The stream *)

Lemma set_error_nonzero (f : QEMUFile) (e : Z) :
  e <> 0 -> last_error (qemu_file_set_error f e) <> 0.
Proof.
  intros He. unfold qemu_file_set_error.
  destruct (last_error f =? 0) eqn:E; simpl; [exact He |].
  apply Z.eqb_neq. exact E.
Qed.

(** Reading [n] bytes takes exactly the first [n] bytes off the stream. *)
Lemma qemu_get_be_rd (n : nat) :
  forall (acc : Z) (f : QEMUFile), rd (snd (qemu_get_be n acc f)) = drop n (rd f).
Proof.
  induction n as [| n IH]; intros acc f; simpl.
  - rewrite drop_0. reflexivity.
  - unfold qemu_get_byte. destruct (rd f) as [| b rest] eqn:E.
    + rewrite IH. unfold qemu_file_set_error.
      destruct (last_error f =? 0); simpl; rewrite E; apply drop_nil.
    + rewrite IH. reflexivity.
Qed.

(** A read of [n] bytes either finds them all and leaves the error code
    alone, or leaves a latched error behind. *)
Lemma qemu_get_be_full_or_error (n : nat) :
  forall (acc : Z) (f : QEMUFile),
    (length (rd f) = (length (rd (snd (qemu_get_be n acc f))) + n)%nat
     /\ last_error (snd (qemu_get_be n acc f)) = last_error f)
    \/ last_error (snd (qemu_get_be n acc f)) <> 0.
Proof.
  induction n as [| n IH]; intros acc f; simpl.
  - left. split; [lia | reflexivity].
  - unfold qemu_get_byte. destruct (rd f) as [| b rest] eqn:E.
    + right.
      destruct (IH (acc * 256 + 0) (qemu_file_set_error f (- EIO))) as [[_ H] | H].
      * rewrite H. apply set_error_nonzero. discriminate.
      * exact H.
    + destruct (IH (acc * 256 + Z_of_byte b) (mkQEMUFile rest (wr f) (last_error f)))
        as [[Hl He] | H].
      * left. simpl in *. split; [lia | exact He].
      * right. exact H.
Qed.

Lemma qemu_get_be64_rd (f : QEMUFile) :
  rd (snd (qemu_get_be64 f)) = drop 8 (rd f).
Proof. apply qemu_get_be_rd. Qed.

(** ** The load path *)

(** C6: when the tag the loop of [vfio_load_state] holds is none of the
    four delimiters, the loop reports the unknown tag and returns -EINVAL,
    leaving the stream untouched and making no other call; so when the
    first tag read by [vfio_load_state] is such a tag, the call returns
    -EINVAL and the stream it leaves is the stream as it was right after
    the eight bytes of that tag. *)
Theorem load_state_unknown_tag (w : World) (tag : Z) (f' : QEMUFile) :
  qemu_get_be64 (stream w) = (tag, f') ->
  tag <> VFIO_MIG_FLAG_END_OF_STATE ->
  tag <> VFIO_MIG_FLAG_DEV_CONFIG_STATE ->
  tag <> VFIO_MIG_FLAG_DEV_SETUP_STATE ->
  tag <> VFIO_MIG_FLAG_DEV_DATA_STATE ->
  (forall (r : Z) (w0 : World),
      load_loop tag r w0
      = Ret (- EINVAL)
          (log_report (name (vbasedev w0) +:+ ": Unknown tag " +:+ HexString.of_Z tag) w0))
  /\ vfio_load_state w
      = Ret (- EINVAL)
          (log_report (name (vbasedev w) +:+ ": Unknown tag " +:+ HexString.of_Z tag)
             (set_stream f' w))
  /\ rd f' = drop 8 (rd (stream w)).
Proof.
  intros Hget He Hc Hs Hd.
  apply Z.eqb_neq in He, Hc, Hs, Hd.
  assert (Hloop : forall r w0, load_loop tag r w0
            = Ret (- EINVAL)
                (log_report (name (vbasedev w0) +:+ ": Unknown tag " +:+ HexString.of_Z tag)
                   w0)).
  { intros r w0. unfold load_loop, bind, gets. cbn [load_sections]. rewrite He.
    unfold bind, gets. simpl. rewrite Hc, Hs, Hd. reflexivity. }
  split; [exact Hloop |]. split.
  - unfold vfio_load_state, get_be64, bind. rewrite Hget.
    exact (Hloop 0 (set_stream f' w)).
  - rewrite <- qemu_get_be64_rd. rewrite Hget. reflexivity.
Qed.

(** C6, the scenario of the specification: the tag 0xdeadbeef at top level
    ends the load with -EINVAL and the three bytes after it are still
    unread. *)
Lemma load_state_unknown_tag_witness :
  (qemu_get_be64 (stream world_bad_tag) = (0xdeadbeef, mkQEMUFile [x01; x02; x03] [] 0)
   /\ 0xdeadbeef <> VFIO_MIG_FLAG_END_OF_STATE
   /\ 0xdeadbeef <> VFIO_MIG_FLAG_DEV_CONFIG_STATE
   /\ 0xdeadbeef <> VFIO_MIG_FLAG_DEV_SETUP_STATE
   /\ 0xdeadbeef <> VFIO_MIG_FLAG_DEV_DATA_STATE)
  /\ vfio_load_state world_bad_tag
      = Ret (-22)
          (mkWorld 0 (example_device VFIO_DEVICE_STATE_RESUMING 5)
             (mkQEMUFile [x01; x02; x03] [] 0) {[ 5 := [] ]} kernel_accepting []
             ["0000:3b:00.0: Unknown tag 0xdeadbeef"]).
Proof.
  split; [repeat split; by_compute |].
  assert (He : 0xdeadbeef <> VFIO_MIG_FLAG_END_OF_STATE) by by_compute.
  assert (Hc : 0xdeadbeef <> VFIO_MIG_FLAG_DEV_CONFIG_STATE) by by_compute.
  assert (Hs : 0xdeadbeef <> VFIO_MIG_FLAG_DEV_SETUP_STATE) by by_compute.
  assert (Hd : 0xdeadbeef <> VFIO_MIG_FLAG_DEV_DATA_STATE) by by_compute.
  destruct (load_state_unknown_tag world_bad_tag 0xdeadbeef
              (mkQEMUFile [x01; x02; x03] [] 0) eq_refl He Hc Hs Hd)
    as (_ & Hrun & _).
  rewrite Hrun. reflexivity.
Defined.


(** Forwarding a data section's bytes never lengthens the stream. *)
Lemma load_buffer_shrinks (data_size : Z) (w w' : World) (r : Z) :
  vfio_load_buffer data_size w = Ret r w' ->
  (length (rd (stream w')) <= length (rd (stream w)))%nat.
Proof.
  unfold vfio_load_buffer, qemu_file_get_to_fd, bind, get_migration.
  destruct (migration (vbasedev w)) as [m |]; [| discriminate].
  destruct (fds w !! data_fd m); [| intros [= _ <-]; lia].
  destruct (data_size <=? _).
  - intros [= _ <-]. simpl. rewrite length_drop. lia.
  - intros [= _ <-]. simpl. unfold qemu_file_set_error. simpl.
    destruct (last_error (stream w) =? 0); simpl; lia.
Qed.

Lemma get_be64_run (w : World) :
  get_be64 w = Ret (fst (qemu_get_be64 (stream w)))
                   (set_stream (snd (qemu_get_be64 (stream w))) w).
Proof. unfold get_be64. destruct (qemu_get_be64 (stream w)); reflexivity. Qed.

(** A data section after which the loop goes on has taken bytes off the
    stream. *)
Lemma data_section_shrinks (r : Z) (w w' : World) (next : Z) :
  data_section r w = Ret (inr next) w' ->
  (length (rd (stream w')) < length (rd (stream w)))%nat.
Proof.
  unfold data_section, bind. rewrite get_be64_run.
  set (size := fst (qemu_get_be64 (stream w))).
  set (w1 := set_stream (snd (qemu_get_be64 (stream w))) w).
  assert (H1 : (length (rd (stream w1)) <= length (rd (stream w)))%nat).
  { subst w1. simpl. rewrite qemu_get_be64_rd, length_drop. lia. }
  assert (Hstage : forall r1 w2,
            (if negb (size =? 0) then vfio_load_buffer size else ret r) w1 = Ret r1 w2 ->
            (length (rd (stream w2)) <= length (rd (stream w1)))%nat).
  { intros r1 w2. destruct (negb (size =? 0)).
    - apply load_buffer_shrinks.
    - intros [= _ <-]. lia. }
  destruct ((if negb (size =? 0) then vfio_load_buffer size else ret r) w1)
    as [r1 w2 | | |] eqn:E; try discriminate.
  specialize (Hstage r1 w2 eq_refl).
  destruct (negb (size =? 0) && (r1 <? 0)); [discriminate |].
  rewrite get_be64_run. unfold file_get_error, gets, ret. simpl.
  destruct (negb (qemu_file_get_error _ =? 0)) eqn:Eerr; [discriminate |].
  intros [= _ <-]. simpl.
  apply negb_false_iff, Z.eqb_eq in Eerr. unfold qemu_file_get_error in Eerr.
  destruct (qemu_get_be_full_or_error 8 0 (stream w2)) as [[Hlen _] | Hne].
  - unfold qemu_get_be64. lia.
  - unfold qemu_get_be64 in Eerr. contradiction.
Qed.

(** One turn of the loop on a data section. *)
Lemma load_sections_data (fuel : nat) (r : Z) (w : World) :
  load_sections (S fuel) VFIO_MIG_FLAG_DEV_DATA_STATE r w
  = match data_section r w with
    | Ret (inl v) w' => Ret v w'
    | Ret (inr next) w' => load_sections fuel next 0 w'
    | HwError msg w' => HwError msg w'
    | NullDeref w' => NullDeref w'
    | OutOfFuel w' => OutOfFuel w'
    end.
Proof.
  cbn [load_sections].
  change (VFIO_MIG_FLAG_DEV_DATA_STATE =? VFIO_MIG_FLAG_END_OF_STATE) with false.
  change (VFIO_MIG_FLAG_DEV_DATA_STATE =? VFIO_MIG_FLAG_DEV_CONFIG_STATE) with false.
  change (VFIO_MIG_FLAG_DEV_DATA_STATE =? VFIO_MIG_FLAG_DEV_SETUP_STATE) with false.
  change (VFIO_MIG_FLAG_DEV_DATA_STATE =? VFIO_MIG_FLAG_DEV_DATA_STATE) with true.
  cbv iota. unfold data_section, bind at 1, gets at 1. unfold bind.
  rewrite get_be64_run.
  destruct ((if negb (_ =? 0) then vfio_load_buffer _ else ret r) _)
    as [r1 w2 | | |]; try reflexivity.
  destruct (negb (_ =? 0) && (r1 <? 0)); [reflexivity |].
  rewrite get_be64_run. unfold file_get_error, gets, ret.
  destruct (negb (qemu_file_get_error _ =? 0)) eqn:Eerr; [reflexivity |].
  apply negb_false_iff, Z.eqb_eq in Eerr. rewrite Eerr. reflexivity.
Qed.

(** Fuel beyond the length of the stream changes nothing. *)
Lemma load_sections_fuel :
  forall (fuel1 fuel2 : nat) (data r : Z) (w : World),
    (length (rd (stream w)) < fuel1)%nat ->
    (length (rd (stream w)) < fuel2)%nat ->
    load_sections fuel1 data r w = load_sections fuel2 data r w.
Proof.
  induction fuel1 as [| fuel1 IH]; intros fuel2 data r w H1 H2; [lia |].
  destruct fuel2 as [| fuel2]; [lia |].
  destruct (Z.eq_dec data VFIO_MIG_FLAG_DEV_DATA_STATE) as [-> | Hnd].
  - rewrite !load_sections_data.
    destruct (data_section r w) as [[v | next] w' | | |] eqn:E; try reflexivity.
    apply data_section_shrinks in E. apply IH; lia.
  - apply Z.eqb_neq in Hnd. cbn [load_sections].
    destruct (data =? VFIO_MIG_FLAG_END_OF_STATE); [reflexivity |].
    unfold bind, gets.
    destruct (data =? VFIO_MIG_FLAG_DEV_CONFIG_STATE); [reflexivity |].
    destruct (data =? VFIO_MIG_FLAG_DEV_SETUP_STATE); [reflexivity |].
    rewrite Hnd. reflexivity.
Qed.

(** The loop never runs out of fuel. *)
Lemma load_sections_total :
  forall (fuel : nat) (data r : Z) (w : World),
    (length (rd (stream w)) < fuel)%nat ->
    forall w', load_sections fuel data r w <> OutOfFuel w'.
Proof.
  induction fuel as [| fuel IH]; intros data r w Hf w'; [lia |].
  destruct (Z.eq_dec data VFIO_MIG_FLAG_DEV_DATA_STATE) as [-> | Hnd].
  - rewrite load_sections_data.
    destruct (data_section r w) as [[v | next] w1 | | |] eqn:E; try discriminate.
    + apply data_section_shrinks in E. apply IH. lia.
    + exfalso. revert E. unfold data_section, bind. rewrite get_be64_run.
      destruct ((if negb (_ =? 0) then vfio_load_buffer _ else ret r) _)
        as [r1 w2 | | |] eqn:E1; try discriminate.
      * destruct (negb (_ =? 0) && (r1 <? 0)); [discriminate |].
        rewrite get_be64_run. unfold file_get_error, gets, ret.
        destruct (negb (qemu_file_get_error _ =? 0)); discriminate.
      * intros _. revert E1. destruct (negb (_ =? 0)); [| discriminate].
        unfold vfio_load_buffer, qemu_file_get_to_fd, bind, get_migration. simpl.
        destruct (migration (vbasedev w)) as [m |]; simpl; [| discriminate].
        destruct (fds w !! data_fd m); simpl; [| discriminate].
        match goal with |- context [if ?b then _ else _] => destruct b end;
          discriminate.
  - apply Z.eqb_neq in Hnd. cbn [load_sections].
    destruct (data =? VFIO_MIG_FLAG_END_OF_STATE); [discriminate |].
    unfold bind, gets.
    destruct (data =? VFIO_MIG_FLAG_DEV_CONFIG_STATE).
    + unfold vfio_load_device_config_state, bind, gets, error_report, modify, ret,
        file_get_error, gets.
      destruct (ops (vbasedev w)) as [[sv [ld |]] |]; simpl;
        try destruct (ld (stream w)) as [rl fl]; simpl;
        repeat match goal with
               | |- context [if ?b then _ else _] => destruct b; simpl
               | |- context [get_be64 ?x] => rewrite (get_be64_run x); simpl
               end; discriminate.
    + destruct (data =? VFIO_MIG_FLAG_DEV_SETUP_STATE).
      * rewrite get_be64_run. destruct (_ =? VFIO_MIG_FLAG_END_OF_STATE); discriminate.
      * rewrite Hnd. discriminate.
Qed.

Lemma load_total (w w' : World) : vfio_load_state w <> OutOfFuel w'.
Proof.
  unfold vfio_load_state, load_loop, bind, gets. rewrite get_be64_run.
  apply load_sections_total. lia.
Qed.


Lemma load_loop_data (r : Z) (w : World) :
  load_loop VFIO_MIG_FLAG_DEV_DATA_STATE r w
  = (x <- data_section r;;
     match x with
     | inl v => ret v
     | inr next => load_loop next 0
     end) w.
Proof.
  unfold load_loop at 1. unfold bind at 1, gets. rewrite load_sections_data.
  unfold bind.
  destruct (data_section r w) as [[v | next] w' | | |] eqn:E; try reflexivity.
  unfold load_loop, bind, gets.
  apply data_section_shrinks in E.
  apply load_sections_fuel; lia.
Qed.



(** Two data sections and the end marker: both payloads are forwarded to
    the data channel in order, the call returns 0, and what follows the end
    marker is left unread. *)
Example load_state_two_sections :
  vfio_load_state world_two_sections
  = Ret 0 (mkWorld 0 (example_device VFIO_DEVICE_STATE_RESUMING 5)
             (mkQEMUFile (be64 VFIO_MIG_FLAG_DEV_CONFIG_STATE) [] 0)
             {[ 5 := [] ]} kernel_accepting
             [CallWrite 5 [x0a; x0b]; CallWrite 5 [x0c]] []).
Proof. vm_compute. reflexivity. Qed.


(** ** The save path *)

Ltac run_save :=
  unfold vfio_save_block, sys_read, store_data_buffer, put_be64, put_buffer,
    file_get_error, put_migration, get_migration, bind, gets, modify, ret.

Lemma same_device_trans (w1 w2 w3 : World) :
  same_device w1 w2 -> same_device w2 w3 -> same_device w1 w3.
Proof.
  intros (Hk & Hn & Hf & m1 & m2 & Hm1 & Hm2 & Hs & Hd & Hz)
         (Hk' & Hn' & Hf' & m2' & m3 & Hm2' & Hm3 & Hs' & Hd' & Hz').
  rewrite Hm2 in Hm2'. injection Hm2' as <-.
  unfold same_device. repeat split; try congruence.
  exists m1, m3. repeat split; congruence.
Qed.

(** One call of [vfio_save_block] on a stream that has no error: it makes
    one [read] on the data channel and returns -1, or 1, or 0 after
    writing one data section for the non-empty block it read and adding
    its size to the counter. *)
Lemma save_block_step (w : World) (m : VFIOMigration) :
  migration (vbasedev w) = Some m ->
  last_error (stream w) = 0 ->
  exists r w',
    vfio_save_block w = Ret r w'
    /\ same_device w w'
    /\ calls w' = calls w ++ [CallRead (data_fd m) (data_buffer_size m)]
    /\ rd (stream w') = rd (stream w)
    /\ last_error (stream w') = 0
    /\ ((r = -1 /\ wr (stream w') = wr (stream w)
         /\ bytes_transferred w' = bytes_transferred w)
        \/ (r = 1 /\ wr (stream w') = wr (stream w)
            /\ bytes_transferred w' = bytes_transferred w)
        \/ (r = 0 /\ exists bs,
              bs <> []
              /\ wr (stream w') = wr (stream w) ++ data_frame bs
              /\ bytes_transferred w'
                 = wrap_s64 (bytes_transferred w + Z.of_nat (length bs)))).
Proof.
  intros Hm He.
  assert (Hsame : forall (buf : list byte) (w1 : World),
            kernel w1 = kernel w -> vbasedev w1 = vbasedev w ->
            same_device w
              (with_migration
                 (mkMigration (vm_state m) (device_state m) (data_fd m) buf
                    (data_buffer_size m)) w1)).
  { intros buf w1 Hk Hv. unfold same_device, with_migration. simpl.
    rewrite Hv. repeat split; auto. exists m. eexists. repeat split; eauto. }
  run_save. rewrite Hm.
  destruct (fds w !! data_fd m) as [[| [bs |] rest] |] eqn:Hch; simpl; rewrite ?Hm; simpl.
  - (* end of stream *)
    do 2 eexists. split; [reflexivity |]. simpl.
    split; [apply (Hsame _ (log_call _ w)); reflexivity |].
    repeat split; auto.
  - (* some bytes *)
    destruct (Z.of_nat (length bs) <=? data_buffer_size m) eqn:Hfit; simpl; rewrite ?Hm; simpl.
    + destruct bs as [| b bs]; simpl.
      * do 2 eexists. split; [reflexivity |]. simpl.
        split; [apply (Hsame _ (set_fds _ (log_call _ w))); reflexivity |].
        repeat split; auto.
      * replace (Z.pos (Pos.of_succ_nat (length bs)) <? 0) with false
          by (symmetry; apply Z.ltb_ge; lia).
        replace (Z.pos (Pos.of_succ_nat (length bs)) =? 0) with false
          by (symmetry; apply Z.eqb_neq; lia).
        simpl. rewrite ?Hm. simpl. unfold qemu_put_be64, qemu_put_buffer. simpl.
        rewrite He. simpl.
        do 2 eexists. split; [reflexivity |]. simpl.
        split; [apply (Hsame _ (set_fds _ (log_call _ w))); reflexivity |].
        repeat split; auto.
        right; right. split; [reflexivity |]. exists (b :: bs).
        split; [discriminate |]. split.
        -- unfold data_frame. rewrite <- !app_assoc. rewrite Nat2Z.id.
           do 3 f_equal. apply (take_app_length (b :: bs)).
        -- reflexivity.
    + (* more bytes than the buffer holds: a buffer-full is handed over *)
      apply Z.leb_gt in Hfit.
      set (n := Z.to_nat (data_buffer_size m)).
      destruct (Z.of_nat n <? 0) eqn:Hneg; [apply Z.ltb_lt in Hneg; lia |].
      destruct (Z.of_nat n =? 0) eqn:Hzero; simpl; rewrite ?Hm; simpl.
      * do 2 eexists. split; [reflexivity |]. simpl.
        split; [apply (Hsame _ (set_fds _ (log_call _ w))); reflexivity |].
        repeat split; auto.
      * apply Z.eqb_neq in Hzero.
        unfold qemu_put_be64, qemu_put_buffer. simpl. rewrite He. simpl.
        do 2 eexists. split; [reflexivity |]. simpl.
        split; [apply (Hsame _ (set_fds _ (log_call _ w))); reflexivity |].
        repeat split; auto.
        right; right. split; [reflexivity |]. exists (take n bs).
        assert (Hlen : length (take n bs) = n) by (rewrite length_take; lia).
        split; [intros Hnil; rewrite Hnil in Hlen; simpl in Hlen; lia |]. split.
        -- unfold data_frame. rewrite <- !app_assoc. rewrite Hlen. do 3 f_equal.
           rewrite Nat2Z.id. rewrite <- Hlen at 1. rewrite take_app_length. reflexivity.
        -- rewrite Hlen. reflexivity.
  - (* the read fails *)
    do 2 eexists. split; [reflexivity |]. simpl.
    split; [apply (Hsame _ (set_fds _ (log_call _ w))); reflexivity |].
    repeat split; auto.
  - (* the descriptor is not open *)
    do 2 eexists. split; [reflexivity |]. simpl.
    split; [apply (Hsame _ (log_call _ w)); reflexivity |].
    repeat split; auto.
Qed.


Lemma save_block_data (w : World) (m : VFIOMigration)
    (bs : list byte) (rest : list read_outcome) :
  migration (vbasedev w) = Some m ->
  last_error (stream w) = 0 ->
  fds w !! data_fd m = Some (RdData bs :: rest) ->
  bs <> [] ->
  Z.of_nat (length bs) <= data_buffer_size m ->
  vfio_save_block w = Ret 0 (after_block bs rest m w).
Proof.
  intros Hm He Hch Hne Hfit. run_save. rewrite Hm, Hch.
  assert (Hpos : 0 < Z.of_nat (length bs)) by (destruct bs; [congruence | simpl; lia]).
  apply Z.leb_le in Hfit. rewrite Hfit. simpl. rewrite Hm. simpl.
  replace (Z.of_nat (length bs) <? 0) with false by (symmetry; apply Z.ltb_ge; lia).
  replace (Z.of_nat (length bs) =? 0) with false by (symmetry; apply Z.eqb_neq; lia).
  simpl. rewrite ?Hm. simpl. unfold qemu_put_be64, qemu_put_buffer. simpl.
  rewrite He. simpl.
  unfold after_block, data_frame, set_bytes_transferred, set_stream, set_vbasedev,
    set_fds, log_call. simpl.
  rewrite He, Nat2Z.id, take_app_length, <- !app_assoc. reflexivity.
Qed.

Lemma save_block_eof (w : World) (m : VFIOMigration) :
  migration (vbasedev w) = Some m ->
  fds w !! data_fd m = Some [] ->
  vfio_save_block w = Ret 1 (after_empty_read (fds w) m w).
Proof.
  intros Hm Hch. run_save. rewrite Hm, Hch. simpl. rewrite Hm. reflexivity.
Qed.

Lemma save_block_error (w : World) (m : VFIOMigration) (rest : list read_outcome) :
  migration (vbasedev w) = Some m ->
  fds w !! data_fd m = Some (RdError :: rest) ->
  vfio_save_block w = Ret (-1) (after_empty_read (<[data_fd m := rest]> (fds w)) m w).
Proof.
  intros Hm Hch. run_save. rewrite Hm, Hch. simpl. rewrite Hm. reflexivity.
Qed.

Lemma wrap_s64_idem_add (a b : Z) : wrap_s64 (wrap_s64 a + b) = wrap_s64 (a + b).
Proof.
  unfold wrap_s64. f_equal.
  replace ((a + 2 ^ 63) mod 2 ^ 64 - 2 ^ 63 + b + 2 ^ 63)
    with ((a + 2 ^ 63) mod 2 ^ 64 + b) by lia.
  rewrite Zplus_mod_idemp_l. f_equal. lia.
Qed.

Lemma wrap_s64_small (z : Z) : - 2 ^ 63 <= z < 2 ^ 63 -> wrap_s64 z = z.
Proof. intros H. unfold wrap_s64. rewrite Z.mod_small; lia. Qed.

Lemma total_size_nonneg (blocks : list (list byte)) : 0 <= total_size blocks.
Proof. induction blocks as [| bs blocks IH]; simpl; lia. Qed.

(** Without overflow the counter grows by the sum of the block sizes. *)
Lemma count_blocks_exact (blocks : list (list byte)) :
  forall start : Z,
    - 2 ^ 63 <= start ->
    start + total_size blocks < 2 ^ 63 ->
    count_blocks start blocks = start + total_size blocks.
Proof.
  induction blocks as [| bs blocks IH]; intros start Hlo Hhi; simpl in *; [lia |].
  pose proof (total_size_nonneg blocks).
  rewrite wrap_s64_small by lia.
  rewrite IH by lia. lia.
Qed.

(** In general it is the sum, wrapped to 64 bits. *)
Lemma count_blocks_wraps (blocks : list (list byte)) :
  forall start : Z,
    - 2 ^ 63 <= start < 2 ^ 63 ->
    count_blocks start blocks = wrap_s64 (start + total_size blocks).
Proof.
  induction blocks as [| bs blocks IH]; intros start Hs; simpl.
  - rewrite Z.add_0_r. symmetry. apply wrap_s64_small. exact Hs.
  - rewrite IH.
    + rewrite wrap_s64_idem_add. f_equal. lia.
    + unfold wrap_s64.
      pose proof (Z.mod_pos_bound (start + Z.of_nat (length bs) + 2 ^ 63) (2 ^ 64)
                    ltac:(lia)).
      lia.
Qed.

Lemma chan_weight_blocks (blocks : list (list byte)) (tail : list read_outcome) :
  (length blocks <= chan_weight (map RdData blocks ++ tail))%nat.
Proof. induction blocks as [| bs blocks IH]; simpl; lia. Qed.

Lemma repeat_snoc {A} (x : A) (n : nat) : repeat x n ++ [x] = x :: repeat x n.
Proof. induction n as [| n IH]; simpl; [reflexivity | rewrite IH; reflexivity]. Qed.

Lemma repeat_mid {A} (x : A) (n : nat) (l : list A) :
  repeat x n ++ x :: l = x :: repeat x n ++ l.
Proof. induction n as [| n IH]; simpl; [reflexivity | rewrite IH; reflexivity]. Qed.

(** The loop on a channel that starts with blocks that fit the buffer:
    each is written as one data section and counted, and the loop goes on
    with what comes after them. *)
Lemma save_blocks_prefix (blocks : list (list byte)) :
  forall (fuel : nat) (w : World) (m : VFIOMigration) (tail : list read_outcome),
    migration (vbasedev w) = Some m ->
    last_error (stream w) = 0 ->
    fds w !! data_fd m = Some (map RdData blocks ++ tail) ->
    Forall (fun bs => bs <> [] /\ Z.of_nat (length bs) <= data_buffer_size m) blocks ->
    (length blocks <= fuel)%nat ->
    exists (w1 : World) (m1 : VFIOMigration),
      save_blocks fuel w = save_blocks (fuel - length blocks) w1
      /\ migration (vbasedev w1) = Some m1
      /\ vm_state m1 = vm_state m /\ device_state m1 = device_state m
      /\ data_fd m1 = data_fd m /\ data_buffer_size m1 = data_buffer_size m
      /\ name (vbasedev w1) = name (vbasedev w) /\ fd (vbasedev w1) = fd (vbasedev w)
      /\ kernel w1 = kernel w /\ reports w1 = reports w
      /\ stream w1 = mkQEMUFile (rd (stream w)) (wr (stream w) ++ data_frames blocks) 0
      /\ bytes_transferred w1 = count_blocks (bytes_transferred w) blocks
      /\ calls w1 = calls w ++ repeat (CallRead (data_fd m) (data_buffer_size m))
                                      (length blocks)
      /\ fds w1 !! data_fd m = Some tail
      /\ (forall d, d <> data_fd m -> fds w1 !! d = fds w !! d).
Proof.
  induction blocks as [| bs blocks IH]; intros fuel w m tail Hm He Hch Hall Hfuel.
  - exists w, m. simpl. rewrite Nat.sub_0_r, !app_nil_r.
    repeat split; auto. destruct (stream w); simpl in *; subst; reflexivity.
  - apply Forall_cons in Hall as [[Hne Hfit] Hall].
    destruct fuel as [| fuel]; [simpl in Hfuel; lia |].
    simpl in Hch.
    pose proof (save_block_data w m bs _ Hm He Hch Hne Hfit) as Hstep.
    set (w0 := after_block bs (map RdData blocks ++ tail) m w) in *.
    set (m0 := mkMigration (vm_state m) (device_state m) (data_fd m)
                 (bs ++ drop (length bs) (data_buffer m)) (data_buffer_size m)).
    destruct (IH fuel w0 m0 tail) as
      (w1 & m1 & Hrun & Hm1 & Hv & Hs & Hd & Hz & Hn & Hf & Hk & Hr & Hst & Hb & Hc & Hfd & Hoth).
    + reflexivity.
    + exact He.
    + subst w0. simpl. apply lookup_insert_eq.
    + exact Hall.
    + simpl in Hfuel. lia.
    + exists w1, m1.
      split.
      { change (save_blocks (S fuel) w) with
          ((r <- vfio_save_block;;
            if r <? 0 then ret r else if r =? 0 then save_blocks fuel else ret r) w).
        unfold bind at 1. rewrite Hstep. simpl. exact Hrun. }
      repeat split; auto.
      * rewrite Hst. subst w0. simpl. unfold data_frames. simpl.
        rewrite <- app_assoc. reflexivity.
      * rewrite Hc. subst w0. simpl. rewrite <- app_assoc. reflexivity.
      * intros d Hd'. rewrite Hoth by exact Hd'. subst w0. simpl.
        apply lookup_insert_ne. congruence.
Qed.


Lemma save_blocks_unfold (fuel : nat) (w : World) :
  save_blocks (S fuel) w
  = match vfio_save_block w with
    | Ret r w' => if r <? 0 then Ret r w'
                  else if r =? 0 then save_blocks fuel w' else Ret r w'
    | HwError msg w' => HwError msg w'
    | NullDeref w' => NullDeref w'
    | OutOfFuel w' => OutOfFuel w'
    end.
Proof.
  cbn [save_blocks]. unfold bind.
  destruct (vfio_save_block w) as [r w' | | |]; try reflexivity.
  destruct (r <? 0); [reflexivity |]. destruct (r =? 0); reflexivity.
Qed.

(** What a successful state transition leaves behind. *)
Lemma set_state_success (new_state recover_state : vfio_device_mig_state)
    (w w1 : World) (m : VFIOMigration) :
  migration (vbasedev w) = Some m ->
  vfio_migration_set_state new_state recover_state w = Ret 0 w1 ->
  io_ret (reply_target w new_state) = 0
  /\ calls w1 = calls w ++ [CallSetState (fd (vbasedev w)) new_state]
  /\ stream w1 = stream w
  /\ bytes_transferred w1 = bytes_transferred w
  /\ kernel w1 = kernel w
  /\ name (vbasedev w1) = name (vbasedev w)
  /\ fd (vbasedev w1) = fd (vbasedev w)
  /\ exists m1, migration (vbasedev w1) = Some m1
                /\ device_state m1 = new_state
                /\ data_buffer_size m1 = data_buffer_size m.
Proof.
  intros Hm.
  destruct (Z.eq_dec (io_ret (reply_target w new_state)) 0) as [Ha | Hrej].
  - destruct (Z.eq_dec (io_data_fd (reply_target w new_state)) (-1)) as [Hno | Hnew].
    + rewrite (set_state_accepted _ _ _ _ Hm Ha Hno). intros [= <-].
      simpl. repeat split; auto. eexists; repeat split; reflexivity.
    + destruct (Z.eq_dec (data_fd m) (-1)) as [Hclosed | Hopen].
      * rewrite (set_state_accepted_fd _ _ _ _ Hm Ha Hnew Hclosed). intros [= <-].
        simpl. repeat split; auto. eexists; repeat split; reflexivity.
      * rewrite (set_state_desync _ _ _ _ Hm Ha Hnew Hopen). discriminate.
  - destruct (Z.eq_dec (io_ret (reply_recover w recover_state)) 0) as [Hrec | Hrej2].
    + rewrite (set_state_recovered _ _ _ _ Hm Hrej Hrec). discriminate.
    + destruct (Z.eq_dec (reply_reset w) 0) as [Hok | Hbad].
      * rewrite (set_state_reset _ _ _ Hrej Hrej2 Hok). discriminate.
      * rewrite (set_state_fatal _ _ _ Hrej Hrej2 Hbad). discriminate.
Qed.

(** The precopy completion on a device whose kernel accepts STOP_COPY and
    hands back a data channel that starts with the given blocks. *)
Lemma precopy_reaches_tail (w : World) (m : VFIOMigration)
    (blocks : list (list byte)) (d : Z) (tail : list read_outcome) :
  migration (vbasedev w) = Some m ->
  data_fd m = -1 ->
  last_error (stream w) = 0 ->
  reply_target w VFIO_DEVICE_STATE_STOP_COPY = mkReply 0 d (map RdData blocks ++ tail) ->
  d <> -1 ->
  Forall (fun bs => bs <> [] /\ Z.of_nat (length bs) <= data_buffer_size m) blocks ->
  exists (fuel : nat) (w1 : World) (m1 : VFIOMigration),
    vfio_save_complete_precopy w
    = (r <- save_blocks (S fuel);;
       if r <? 0 then ret r
       else
         put_be64 VFIO_MIG_FLAG_END_OF_STATE;;
         r <- file_get_error;;
         if negb (r =? 0) then ret r
         else vfio_migration_set_state VFIO_DEVICE_STATE_STOP VFIO_DEVICE_STATE_ERROR) w1
    /\ migration (vbasedev w1) = Some m1
    /\ device_state m1 = VFIO_DEVICE_STATE_STOP_COPY
    /\ data_fd m1 = d /\ data_buffer_size m1 = data_buffer_size m
    /\ name (vbasedev w1) = name (vbasedev w) /\ fd (vbasedev w1) = fd (vbasedev w)
    /\ kernel w1 = kernel w
    /\ stream w1 = mkQEMUFile (rd (stream w)) (wr (stream w) ++ data_frames blocks) 0
    /\ bytes_transferred w1 = count_blocks (bytes_transferred w) blocks
    /\ calls w1 = calls w ++ CallSetState (fd (vbasedev w)) VFIO_DEVICE_STATE_STOP_COPY
                             :: repeat (CallRead d (data_buffer_size m)) (length blocks)
    /\ fds w1 !! d = Some tail.
Proof.
  intros Hm Hclosed He Hreply Hd Hall.
  assert (Ha : io_ret (reply_target w VFIO_DEVICE_STATE_STOP_COPY) = 0)
    by (rewrite Hreply; reflexivity).
  assert (Hnew : io_data_fd (reply_target w VFIO_DEVICE_STATE_STOP_COPY) <> -1)
    by (rewrite Hreply; exact Hd).
  pose proof (set_state_accepted_fd VFIO_DEVICE_STATE_STOP_COPY VFIO_DEVICE_STATE_STOP
                w m Hm Ha Hnew Hclosed) as Hset.
  cbv zeta in Hset. rewrite Hreply in Hset. simpl in Hset.
  set (m0 := with_device_state VFIO_DEVICE_STATE_STOP_COPY (with_data_fd d m)) in *.
  set (w0 := with_migration m0 _) in Hset.
  assert (Hch : fds w0 !! data_fd m0 = Some (map RdData blocks ++ tail))
    by (subst w0 m0; simpl; apply lookup_insert_eq).
  pose proof (chan_weight_blocks blocks tail) as Hw.
  destruct (save_blocks_prefix blocks (S (chan_weight (map RdData blocks ++ tail)))
              w0 m0 tail eq_refl He Hch Hall ltac:(lia))
    as (w1 & m1 & Hrun & Hm1 & Hv & Hs & Hfd & Hz & Hn & Hf & Hk & Hr & Hst & Hb & Hc
        & Hleft & _).
  exists (chan_weight (map RdData blocks ++ tail) - length blocks)%nat, w1, m1.
  split.
  { unfold vfio_save_complete_precopy. unfold bind at 1. rewrite Hset. simpl.
    unfold bind at 1, gets. unfold save_fuel.
    change (migration (vbasedev w0)) with (Some m0). cbv iota beta. rewrite Hch.
    unfold bind at 1. rewrite Hrun.
    replace (S (chan_weight (map RdData blocks ++ tail)) - length blocks)%nat
      with (S (chan_weight (map RdData blocks ++ tail) - length blocks)) by lia.
    reflexivity. }
  subst w0 m0. simpl in *.
  repeat split; auto.
  rewrite Hc. rewrite <- app_assoc. reflexivity.
Qed.


(** N blocks and then the end of the channel: N data sections and the end
    marker are written, the device goes back to STOP. *)
Lemma precopy_blocks_then_eof (w : World) (m : VFIOMigration)
    (blocks : list (list byte)) (d : Z) :
  migration (vbasedev w) = Some m ->
  data_fd m = -1 ->
  last_error (stream w) = 0 ->
  reply_target w VFIO_DEVICE_STATE_STOP_COPY = mkReply 0 d (map RdData blocks) ->
  d <> -1 ->
  Forall (fun bs => bs <> [] /\ Z.of_nat (length bs) <= data_buffer_size m) blocks ->
  k_set_state (kernel w) (length (calls w) + length blocks + 2) VFIO_DEVICE_STATE_STOP
    = mkReply 0 (-1) [] ->
  exists (w' : World) (m' : VFIOMigration),
    vfio_save_complete_precopy w = Ret 0 w'
    /\ migration (vbasedev w') = Some m'
    /\ device_state m' = VFIO_DEVICE_STATE_STOP
    /\ data_fd m' = d
    /\ stream w' = mkQEMUFile (rd (stream w))
                     (wr (stream w) ++ data_frames blocks
                        ++ be64 VFIO_MIG_FLAG_END_OF_STATE) 0
    /\ bytes_transferred w' = count_blocks (bytes_transferred w) blocks
    /\ calls w' = calls w
                  ++ CallSetState (fd (vbasedev w)) VFIO_DEVICE_STATE_STOP_COPY
                  :: repeat (CallRead d (data_buffer_size m)) (S (length blocks))
                  ++ [CallSetState (fd (vbasedev w)) VFIO_DEVICE_STATE_STOP].
Proof.
  intros Hm Hclosed He Hreply Hd Hall Hstop.
  rewrite <- (app_nil_r (map RdData blocks)) in Hreply.
  destruct (precopy_reaches_tail w m blocks d [] Hm Hclosed He Hreply Hd Hall)
    as (fuel & w1 & m1 & Hrun & Hm1 & Hs1 & Hd1 & Hz1 & Hn1 & Hf1 & Hk1 & Hst1 & Hb1
        & Hc1 & Hch1).
  rewrite <- Hd1 in Hch1.
  rewrite Hrun. unfold bind at 1. rewrite save_blocks_unfold.
  rewrite (save_block_eof w1 m1 Hm1 Hch1). simpl.
  set (w2 := after_empty_read (fds w1) m1 w1).
  unfold bind at 1, put_be64, modify. unfold bind at 1, file_get_error, gets.
  simpl. rewrite Hst1. unfold qemu_put_be64, qemu_put_buffer. simpl.
  set (w3 := set_stream _ w2).
  set (m2 := mkMigration (vm_state m1) (device_state m1) (data_fd m1)
               (drop 0 (data_buffer m1)) (data_buffer_size m1)).
  assert (Hc3 : calls w3 = calls w
                  ++ CallSetState (fd (vbasedev w)) VFIO_DEVICE_STATE_STOP_COPY
                  :: repeat (CallRead d (data_buffer_size m)) (S (length blocks))).
  { subst w3 w2. simpl. rewrite Hc1, Hd1, Hz1, <- app_assoc. simpl.
    rewrite repeat_snoc. reflexivity. }
  assert (Hr3 : reply_target w3 VFIO_DEVICE_STATE_STOP = mkReply 0 (-1) []).
  { unfold reply_target. rewrite Hc3. subst w3 w2. simpl. rewrite Hk1.
    rewrite length_app. simpl. rewrite repeat_length.
    replace (length (calls w) + S (S (length blocks)))%nat
      with (length (calls w) + length blocks + 2)%nat by lia.
    exact Hstop. }
  rewrite (set_state_accepted VFIO_DEVICE_STATE_STOP VFIO_DEVICE_STATE_ERROR w3 m2
             eq_refl ltac:(rewrite Hr3; reflexivity) ltac:(rewrite Hr3; reflexivity)).
  do 2 eexists. split; [reflexivity |]. simpl.
  repeat split; auto.
  - rewrite <- app_assoc. reflexivity.
  - rewrite Hc1, Hd1, Hz1, Hf1, <- !app_assoc. simpl.
    rewrite repeat_mid. reflexivity.
Qed.

(** A read that fails after N blocks: the call returns -1 at once; no end
    marker is written and the device is left in STOP_COPY. *)
Lemma precopy_read_failure (w : World) (m : VFIOMigration)
    (blocks : list (list byte)) (d : Z) (rest : list read_outcome) :
  migration (vbasedev w) = Some m ->
  data_fd m = -1 ->
  last_error (stream w) = 0 ->
  reply_target w VFIO_DEVICE_STATE_STOP_COPY
    = mkReply 0 d (map RdData blocks ++ RdError :: rest) ->
  d <> -1 ->
  Forall (fun bs => bs <> [] /\ Z.of_nat (length bs) <= data_buffer_size m) blocks ->
  exists (w' : World) (m' : VFIOMigration),
    vfio_save_complete_precopy w = Ret (-1) w'
    /\ migration (vbasedev w') = Some m'
    /\ device_state m' = VFIO_DEVICE_STATE_STOP_COPY
    /\ stream w' = mkQEMUFile (rd (stream w)) (wr (stream w) ++ data_frames blocks) 0
    /\ calls w' = calls w
                  ++ CallSetState (fd (vbasedev w)) VFIO_DEVICE_STATE_STOP_COPY
                  :: repeat (CallRead d (data_buffer_size m)) (S (length blocks)).
Proof.
  intros Hm Hclosed He Hreply Hd Hall.
  destruct (precopy_reaches_tail w m blocks d (RdError :: rest)
              Hm Hclosed He Hreply Hd Hall)
    as (fuel & w1 & m1 & Hrun & Hm1 & Hs1 & Hd1 & Hz1 & Hn1 & Hf1 & Hk1 & Hst1 & Hb1
        & Hc1 & Hch1).
  rewrite <- Hd1 in Hch1.
  rewrite Hrun. unfold bind at 1. rewrite save_blocks_unfold.
  rewrite (save_block_error w1 m1 rest Hm1 Hch1). simpl.
  do 2 eexists. split; [reflexivity |]. simpl.
  repeat split; auto.
  rewrite Hc1, Hd1, Hz1, <- app_assoc. simpl. rewrite repeat_snoc. reflexivity.
Qed.


Lemma put_buffer_last_error (f : QEMUFile) (buf : list byte) :
  last_error (qemu_put_buffer f buf) = last_error f.
Proof. unfold qemu_put_buffer. destruct (last_error f =? 0); reflexivity. Qed.

Lemma put_be64_last_error (f : QEMUFile) (v : Z) :
  last_error (qemu_put_be64 f v) = last_error f.
Proof. apply put_buffer_last_error. Qed.

(** The save loop never changes the error code of the stream. *)
Lemma save_block_last_error (w : World) :
  last_error (stream (world_of (vfio_save_block w))) = last_error (stream w).
Proof.
  run_save.
  destruct (migration (vbasedev w)) as [m |] eqn:Hm; [| reflexivity].
  destruct (fds w !! data_fd m) as [[| [bs |] rest] |]; simpl; rewrite ?Hm; simpl;
    try reflexivity.
  destruct (Z.of_nat (length bs) <=? data_buffer_size m); simpl; rewrite ?Hm; simpl;
    repeat match goal with
           | |- context [if ?b then _ else _] => destruct b; simpl; rewrite ?Hm; simpl
           end;
    rewrite ?put_buffer_last_error, ?put_be64_last_error; reflexivity.
Qed.

Lemma save_blocks_last_error (fuel : nat) :
  forall w : World,
    last_error (stream (world_of (save_blocks fuel w))) = last_error (stream w).
Proof.
  induction fuel as [| fuel IH]; intros w; [reflexivity |].
  rewrite save_blocks_unfold.
  pose proof (save_block_last_error w) as Hstep.
  destruct (vfio_save_block w) as [r w' | | |]; simpl in *; try exact Hstep.
  destruct (r <? 0); [exact Hstep |].
  destruct (r =? 0); [| exact Hstep].
  rewrite IH. exact Hstep.
Qed.

(** A loop that ends without a negative result has read some non-empty
    blocks and then the end of the channel; each block became one data
    section and was counted. *)
Lemma save_blocks_shape (fuel : nat) :
  forall (w w' : World) (m : VFIOMigration) (r : Z),
    migration (vbasedev w) = Some m ->
    last_error (stream w) = 0 ->
    save_blocks fuel w = Ret r w' ->
    0 <= r ->
    r = 1
    /\ exists blocks : list (list byte),
         Forall (fun bs => bs <> []) blocks
         /\ same_device w w'
         /\ rd (stream w') = rd (stream w)
         /\ last_error (stream w') = 0
         /\ wr (stream w') = wr (stream w) ++ data_frames blocks
         /\ bytes_transferred w' = count_blocks (bytes_transferred w) blocks
         /\ calls w' = calls w ++ repeat (CallRead (data_fd m) (data_buffer_size m))
                                         (S (length blocks)).
Proof.
  induction fuel as [| fuel IH]; intros w w' m r Hm He Hrun Hr; [discriminate |].
  rewrite save_blocks_unfold in Hrun.
  destruct (save_block_step w m Hm He)
    as (r0 & w0 & Hstep & Hsame & Hc & Hrd & He0 & Hcase).
  rewrite Hstep in Hrun.
  destruct Hcase as [(-> & Hwr & Hb) | [(-> & Hwr & Hb) | (-> & bs & Hne & Hwr & Hb)]];
    simpl in Hrun.
  - injection Hrun as <- <-. lia.
  - injection Hrun as <- <-. split; [reflexivity |].
    exists []. simpl. unfold data_frames. simpl. rewrite app_nil_r.
    split; [constructor |]. split; [exact Hsame |]. repeat split; auto.
  - pose proof Hsame as (Hk & Hn & Hf & mm & m0 & Hmm & Hm0 & Hs & Hd & Hz).
    rewrite Hm in Hmm. injection Hmm as <-.
    destruct (IH w0 w' m0 r Hm0 He0 Hrun Hr)
      as (-> & blocks & Hall & Hsame' & Hrd' & He' & Hwr' & Hb' & Hc').
    split; [reflexivity |].
    exists (bs :: blocks).
    split; [constructor; assumption |].
    split; [exact (same_device_trans _ _ _ Hsame Hsame') |].
    split; [congruence |].
    split; [exact He' |].
    split; [| split].
    + rewrite Hwr', Hwr. unfold data_frames. simpl. rewrite <- app_assoc. reflexivity.
    + rewrite Hb', Hb. reflexivity.
    + rewrite Hc', Hc, Hd, Hz, <- app_assoc. reflexivity.
Qed.

(** Every run of the precopy completion that returns 0 has this shape:
    one state-set request for STOP_COPY, reads on one descriptor that yield
    non-empty blocks and then the end of the channel, one data section per
    block followed by one end marker on the stream, each block counted,
    and one state-set request for STOP, which is the state recorded at the
    end. *)
Lemma precopy_success_shape (w w' : World) (m : VFIOMigration) :
  migration (vbasedev w) = Some m ->
  vfio_save_complete_precopy w = Ret 0 w' ->
  exists (blocks : list (list byte)) (d : Z) (m' : VFIOMigration),
    Forall (fun bs => bs <> []) blocks
    /\ migration (vbasedev w') = Some m'
    /\ device_state m' = VFIO_DEVICE_STATE_STOP
    /\ rd (stream w') = rd (stream w)
    /\ wr (stream w') = wr (stream w) ++ data_frames blocks
                           ++ be64 VFIO_MIG_FLAG_END_OF_STATE
    /\ last_error (stream w') = 0
    /\ bytes_transferred w' = count_blocks (bytes_transferred w) blocks
    /\ calls w' = calls w
                  ++ CallSetState (fd (vbasedev w)) VFIO_DEVICE_STATE_STOP_COPY
                  :: repeat (CallRead d (data_buffer_size m)) (S (length blocks))
                  ++ [CallSetState (fd (vbasedev w)) VFIO_DEVICE_STATE_STOP].
Proof.
  intros Hm. unfold vfio_save_complete_precopy. unfold bind at 1.
  destruct (vfio_migration_set_state VFIO_DEVICE_STATE_STOP_COPY VFIO_DEVICE_STATE_STOP w)
    as [r1 w1 | | |] eqn:E1; try discriminate.
  destruct (r1 =? 0) eqn:Hr1; simpl.
  2: { intros [= -> _]. discriminate. }
  apply Z.eqb_eq in Hr1. subst r1.
  destruct (set_state_success _ _ _ _ _ Hm E1)
    as (_ & Hc1 & Hst1 & Hb1 & Hk1 & Hn1 & Hf1 & m1 & Hm1 & Hs1 & Hz1).
  unfold bind at 1, gets. unfold bind at 1.
  destruct (save_blocks (save_fuel w1) w1) as [r2 w2 | | |] eqn:E2; try discriminate.
  destruct (r2 <? 0) eqn:Hr2.
  { intros [= -> _]. discriminate. }
  apply Z.ltb_ge in Hr2.
  unfold bind at 1, put_be64, modify. unfold bind at 1, file_get_error, gets.
  set (w3 := set_stream (qemu_put_be64 (stream w2) VFIO_MIG_FLAG_END_OF_STATE) w2).
  destruct (qemu_file_get_error (stream w3) =? 0) eqn:He3; simpl.
  2: { intros [= H _]. apply Z.eqb_neq in He3. destruct (He3 H). }
  apply Z.eqb_eq in He3.
  assert (He2 : last_error (stream w2) = 0).
  { rewrite <- (put_be64_last_error (stream w2) VFIO_MIG_FLAG_END_OF_STATE).
    exact He3. }
  assert (He1 : last_error (stream w1) = 0).
  { pose proof (save_blocks_last_error (save_fuel w1) w1) as H.
    rewrite E2 in H. simpl in H. congruence. }
  destruct (save_blocks_shape _ _ _ _ _ Hm1 He1 E2 Hr2)
    as (_ & blocks & Hall & Hsame & Hrd2 & _ & Hwr2 & Hb2 & Hc2).
  destruct Hsame as (Hk2 & Hn2 & Hf2 & mm & m2 & Hmm & Hm2 & Hs2 & Hd2 & Hz2).
  rewrite Hm1 in Hmm. injection Hmm as <-.
  intros E3.
  assert (Hm3 : migration (vbasedev w3) = Some m2) by exact Hm2.
  destruct (set_state_success _ _ _ _ _ Hm3 E3)
    as (_ & Hc3 & Hst3 & Hb3 & _ & _ & _ & m' & Hm' & Hs' & _).
  exists blocks, (data_fd m1), m'.
  repeat split; auto.
  - rewrite Hst3. subst w3. unfold qemu_put_be64, qemu_put_buffer. simpl.
    rewrite He2. simpl. congruence.
  - rewrite Hst3. subst w3. unfold qemu_put_be64, qemu_put_buffer. simpl.
    rewrite He2. simpl. rewrite Hwr2, Hst1, <- app_assoc. reflexivity.
  - rewrite Hst3. exact He3.
  - rewrite Hb3. subst w3. simpl. rewrite Hb2, Hb1. reflexivity.
  - rewrite Hc3. subst w3. simpl. rewrite Hc2, Hc1, Hf2, Hf1, Hz1, <- !app_assoc.
    reflexivity.
Qed.


(** A block that lets the loop go on has taken something off the channel. *)
Lemma save_block_decreases (w w' : World) :
  vfio_save_block w = Ret 0 w' -> (save_fuel w' < save_fuel w)%nat.
Proof.
  run_save. unfold save_fuel.
  destruct (migration (vbasedev w)) as [m |] eqn:Hm; [| discriminate].
  destruct (fds w !! data_fd m) as [[| [bs |] rest] |] eqn:Hch; simpl; rewrite ?Hm; simpl;
    try discriminate.
  destruct (Z.of_nat (length bs) <=? data_buffer_size m) eqn:Hfit; simpl; rewrite ?Hm; simpl.
  - destruct (Z.of_nat (length bs) <? 0); [discriminate |].
    destruct (Z.of_nat (length bs) =? 0); [discriminate |].
    simpl. rewrite ?Hm. simpl. intros [= _ <-]. simpl.
    rewrite lookup_insert_eq. lia.
  - apply Z.leb_gt in Hfit.
    destruct (Z.of_nat (Z.to_nat (data_buffer_size m)) <? 0); [discriminate |].
    destruct (Z.of_nat (Z.to_nat (data_buffer_size m)) =? 0) eqn:Hz; [discriminate |].
    apply Z.eqb_neq in Hz.
    simpl. rewrite ?Hm. simpl. intros [= _ <-]. simpl.
    rewrite lookup_insert_eq. simpl. rewrite length_drop. lia.
Qed.

Lemma save_block_not_out_of_fuel (w w' : World) : vfio_save_block w <> OutOfFuel w'.
Proof.
  run_save.
  destruct (migration (vbasedev w)) as [m |] eqn:Hm; [| discriminate].
  destruct (fds w !! data_fd m) as [[| [bs |] rest] |]; simpl; rewrite ?Hm; simpl;
    try discriminate.
  destruct (Z.of_nat (length bs) <=? data_buffer_size m); simpl; rewrite ?Hm; simpl;
    repeat match goal with
           | |- context [if ?b then _ else _] => destruct b; simpl; rewrite ?Hm; simpl
           end; discriminate.
Qed.

Lemma save_blocks_total (fuel : nat) :
  forall w w' : World, (save_fuel w <= fuel)%nat -> save_blocks fuel w <> OutOfFuel w'.
Proof.
  induction fuel as [| fuel IH]; intros w w' Hf.
  - unfold save_fuel in Hf.
    destruct (migration (vbasedev w)); [destruct (fds w !! _) |]; lia.
  - rewrite save_blocks_unfold.
    destruct (vfio_save_block w) as [r w0 | | |] eqn:E; try discriminate.
    + destruct (r <? 0); [discriminate |].
      destruct (r =? 0) eqn:Hr; [| discriminate].
      apply Z.eqb_eq in Hr. subst r.
      apply save_block_decreases in E. apply IH. lia.
    + exfalso. exact (save_block_not_out_of_fuel _ _ E).
Qed.

Lemma set_state_not_out_of_fuel (new_state recover_state : vfio_device_mig_state)
    (w w' : World) :
  vfio_migration_set_state new_state recover_state w <> OutOfFuel w'.
Proof.
  run_step. cbv beta zeta. unfold install_fd.
  destruct (migration (vbasedev w)) as [m |] eqn:Hm;
    repeat first
      [ progress (steps ltac:(rewrite ?Hm, ?length_app))
      | match goal with
        | |- context [k_set_state ?k ?n ?s] => destruct (k_set_state k n s) as [? ? ?]
        | |- context [if ?b then _ else _] => destruct b
        end ];
    discriminate.
Qed.

(** The precopy completion never runs out of fuel. *)
Lemma save_total (w w' : World) : vfio_save_complete_precopy w <> OutOfFuel w'.
Proof.
  unfold vfio_save_complete_precopy. unfold bind at 1.
  destruct (vfio_migration_set_state _ _ w) as [r1 w1 | | |] eqn:E1; try discriminate.
  2: { exfalso. exact (set_state_not_out_of_fuel _ _ _ _ E1). }
  destruct (negb (r1 =? 0)); [discriminate |].
  unfold bind at 1, gets. unfold bind at 1.
  destruct (save_blocks (save_fuel w1) w1) as [r2 w2 | | |] eqn:E2; try discriminate.
  2: { exfalso. exact (save_blocks_total _ _ _ (Nat.le_refl _) E2). }
  destruct (r2 <? 0); [discriminate |].
  unfold bind at 1, put_be64, modify. unfold bind at 1, file_get_error, gets.
  destruct (negb (_ =? 0)); [discriminate |].
  apply set_state_not_out_of_fuel.
Qed.


(** With N blocks on the channel and then its end, the run gets as far as
    the final request, for STOP with recovery state ERROR, and by then the
    end marker is on the stream. *)
Lemma precopy_reaches_final_request (w : World) (m : VFIOMigration)
    (blocks : list (list byte)) (d : Z) :
  migration (vbasedev w) = Some m ->
  data_fd m = -1 ->
  last_error (stream w) = 0 ->
  reply_target w VFIO_DEVICE_STATE_STOP_COPY = mkReply 0 d (map RdData blocks) ->
  d <> -1 ->
  Forall (fun bs => bs <> [] /\ Z.of_nat (length bs) <= data_buffer_size m) blocks ->
  exists (w3 : World) (m3 : VFIOMigration),
    vfio_save_complete_precopy w
    = vfio_migration_set_state VFIO_DEVICE_STATE_STOP VFIO_DEVICE_STATE_ERROR w3
    /\ migration (vbasedev w3) = Some m3
    /\ kernel w3 = kernel w
    /\ fd (vbasedev w3) = fd (vbasedev w)
    /\ stream w3 = mkQEMUFile (rd (stream w))
                     (wr (stream w) ++ data_frames blocks
                        ++ be64 VFIO_MIG_FLAG_END_OF_STATE) 0
    /\ calls w3 = calls w
                  ++ CallSetState (fd (vbasedev w)) VFIO_DEVICE_STATE_STOP_COPY
                  :: repeat (CallRead d (data_buffer_size m)) (S (length blocks)).
Proof.
  intros Hm Hclosed He Hreply Hd Hall.
  rewrite <- (app_nil_r (map RdData blocks)) in Hreply.
  destruct (precopy_reaches_tail w m blocks d [] Hm Hclosed He Hreply Hd Hall)
    as (fuel & w1 & m1 & Hrun & Hm1 & Hs1 & Hd1 & Hz1 & Hn1 & Hf1 & Hk1 & Hst1 & Hb1
        & Hc1 & Hch1).
  rewrite <- Hd1 in Hch1.
  do 2 eexists. split.
  { rewrite Hrun. unfold bind at 1. rewrite save_blocks_unfold.
    rewrite (save_block_eof w1 m1 Hm1 Hch1). simpl.
    unfold bind at 1, put_be64, modify. unfold bind at 1, file_get_error, gets.
    simpl. rewrite Hst1. unfold qemu_put_be64, qemu_put_buffer. simpl.
    reflexivity. }
  simpl. split; [reflexivity |]. split; [exact Hk1 |]. split; [exact Hf1 |].
  split; [rewrite <- app_assoc; reflexivity |].
  rewrite Hc1, Hd1, Hz1, <- app_assoc. simpl. rewrite repeat_snoc. reflexivity.
Qed.

(** C4: [vfio_save_complete_precopy] entered with the device recorded in
    STOP.

    (1) Every run that returns 0 has made, in this order, one state-set
    request for STOP_COPY, reads on the data channel that yielded some
    non-empty blocks and then a zero-length read, and one state-set request
    for STOP; the stream has gained one data section per block, in order,
    and then one end marker; STOP is the state recorded at the end; the
    counter has had each block size added (in 64-bit arithmetic, so by
    their sum when that does not overflow).

    (2) When the kernel accepts STOP_COPY and hands back a channel that
    holds N non-empty blocks, each within the buffer size, and then ends,
    and accepts STOP afterwards, the run returns 0 with exactly those N
    data sections and one end marker written, STOP recorded, and the
    counter increased by the sum of the block sizes.

    (3) When a read fails after N such blocks the run returns -1 at once:
    no end marker is written and no further request is made.

    (4) The recovery state of the first transition is STOP: when the
    kernel refuses STOP_COPY and accepts the recovery, the run returns -1
    having requested STOP_COPY and then STOP, with STOP recorded and
    nothing read, written or counted.

    (5) The end marker is emitted before the terminal transition, whose
    recovery state is ERROR: when the kernel refuses STOP after the N
    blocks, the data sections and the end marker are on the stream however
    the run ends (a return, or the abort in [hw_error]), the request for
    STOP is followed by one for ERROR, and when that one is accepted the
    run returns -1 with ERROR recorded. *)
Theorem save_complete_precopy_run (w : World) (m : VFIOMigration) :
  migration (vbasedev w) = Some m ->
  device_state m = VFIO_DEVICE_STATE_STOP ->
  (forall w' : World,
      vfio_save_complete_precopy w = Ret 0 w' ->
      exists (blocks : list (list byte)) (d : Z) (m' : VFIOMigration),
        Forall (fun bs => bs <> []) blocks
        /\ calls w' = calls w
                      ++ CallSetState (fd (vbasedev w)) VFIO_DEVICE_STATE_STOP_COPY
                      :: repeat (CallRead d (data_buffer_size m)) (S (length blocks))
                      ++ [CallSetState (fd (vbasedev w)) VFIO_DEVICE_STATE_STOP]
        /\ wr (stream w') = wr (stream w) ++ data_frames blocks
                               ++ be64 VFIO_MIG_FLAG_END_OF_STATE
        /\ migration (vbasedev w') = Some m'
        /\ device_state m' = VFIO_DEVICE_STATE_STOP
        /\ bytes_transferred w' = count_blocks (bytes_transferred w) blocks
        /\ (- 2 ^ 63 <= bytes_transferred w ->
            bytes_transferred w + total_size blocks < 2 ^ 63 ->
            bytes_transferred w' = bytes_transferred w + total_size blocks))
  /\ (forall (blocks : list (list byte)) (d : Z),
         data_fd m = -1 ->
         last_error (stream w) = 0 ->
         reply_target w VFIO_DEVICE_STATE_STOP_COPY = mkReply 0 d (map RdData blocks) ->
         d <> -1 ->
         Forall (fun bs => bs <> [] /\ Z.of_nat (length bs) <= data_buffer_size m) blocks ->
         k_set_state (kernel w) (length (calls w) + length blocks + 2)
           VFIO_DEVICE_STATE_STOP = mkReply 0 (-1) [] ->
         - 2 ^ 63 <= bytes_transferred w ->
         bytes_transferred w + total_size blocks < 2 ^ 63 ->
         exists (w' : World) (m' : VFIOMigration),
           vfio_save_complete_precopy w = Ret 0 w'
           /\ wr (stream w') = wr (stream w) ++ data_frames blocks
                                  ++ be64 VFIO_MIG_FLAG_END_OF_STATE
           /\ migration (vbasedev w') = Some m'
           /\ device_state m' = VFIO_DEVICE_STATE_STOP
           /\ bytes_transferred w' = bytes_transferred w + total_size blocks
           /\ calls w' = calls w
                         ++ CallSetState (fd (vbasedev w)) VFIO_DEVICE_STATE_STOP_COPY
                         :: repeat (CallRead d (data_buffer_size m)) (S (length blocks))
                         ++ [CallSetState (fd (vbasedev w)) VFIO_DEVICE_STATE_STOP])
  /\ (forall (blocks : list (list byte)) (d : Z) (rest : list read_outcome),
         data_fd m = -1 ->
         last_error (stream w) = 0 ->
         reply_target w VFIO_DEVICE_STATE_STOP_COPY
           = mkReply 0 d (map RdData blocks ++ RdError :: rest) ->
         d <> -1 ->
         Forall (fun bs => bs <> [] /\ Z.of_nat (length bs) <= data_buffer_size m) blocks ->
         exists (w' : World) (m' : VFIOMigration),
           vfio_save_complete_precopy w = Ret (-1) w'
           /\ wr (stream w') = wr (stream w) ++ data_frames blocks
           /\ migration (vbasedev w') = Some m'
           /\ device_state m' = VFIO_DEVICE_STATE_STOP_COPY
           /\ calls w' = calls w
                         ++ CallSetState (fd (vbasedev w)) VFIO_DEVICE_STATE_STOP_COPY
                         :: repeat (CallRead d (data_buffer_size m)) (S (length blocks)))
  /\ (io_ret (reply_target w VFIO_DEVICE_STATE_STOP_COPY) <> 0 ->
      io_ret (reply_recover w VFIO_DEVICE_STATE_STOP) = 0 ->
      exists (w' : World) (m' : VFIOMigration),
        vfio_save_complete_precopy w = Ret (-1) w'
        /\ migration (vbasedev w') = Some m'
        /\ device_state m' = VFIO_DEVICE_STATE_STOP
        /\ stream w' = stream w
        /\ bytes_transferred w' = bytes_transferred w
        /\ calls w' = calls w
                      ++ [CallSetState (fd (vbasedev w)) VFIO_DEVICE_STATE_STOP_COPY;
                          CallSetState (fd (vbasedev w)) VFIO_DEVICE_STATE_STOP])
  /\ (forall (blocks : list (list byte)) (d : Z),
         data_fd m = -1 ->
         last_error (stream w) = 0 ->
         reply_target w VFIO_DEVICE_STATE_STOP_COPY = mkReply 0 d (map RdData blocks) ->
         d <> -1 ->
         Forall (fun bs => bs <> [] /\ Z.of_nat (length bs) <= data_buffer_size m) blocks ->
         io_ret (k_set_state (kernel w) (length (calls w) + length blocks + 2)
                   VFIO_DEVICE_STATE_STOP) <> 0 ->
         let res := vfio_save_complete_precopy w in
         wr (stream (world_of res))
         = wr (stream w) ++ data_frames blocks ++ be64 VFIO_MIG_FLAG_END_OF_STATE
         /\ (exists rest : list extcall,
                calls (world_of res)
                = calls w
                    ++ CallSetState (fd (vbasedev w)) VFIO_DEVICE_STATE_STOP_COPY
                    :: repeat (CallRead d (data_buffer_size m)) (S (length blocks))
                    ++ CallSetState (fd (vbasedev w)) VFIO_DEVICE_STATE_STOP
                    :: CallSetState (fd (vbasedev w)) VFIO_DEVICE_STATE_ERROR
                    :: rest)
         /\ (io_ret (k_set_state (kernel w) (length (calls w) + length blocks + 3)
                       VFIO_DEVICE_STATE_ERROR) = 0 ->
             exists (w' : World) (m' : VFIOMigration),
               res = Ret (-1) w'
               /\ migration (vbasedev w') = Some m'
               /\ device_state m' = VFIO_DEVICE_STATE_ERROR
               /\ calls w'
                  = calls w
                      ++ CallSetState (fd (vbasedev w)) VFIO_DEVICE_STATE_STOP_COPY
                      :: repeat (CallRead d (data_buffer_size m)) (S (length blocks))
                      ++ [CallSetState (fd (vbasedev w)) VFIO_DEVICE_STATE_STOP;
                          CallSetState (fd (vbasedev w)) VFIO_DEVICE_STATE_ERROR])).
Proof.
  intros Hm _. split; [| split; [| split; [| split]]].
  - intros w' Hrun.
    destruct (precopy_success_shape w w' m Hm Hrun)
      as (blocks & d & m' & Hall & Hm' & Hs & _ & Hwr & _ & Hb & Hc).
    exists blocks, d, m'. repeat split; auto.
    intros Hlo Hhi. rewrite Hb. apply count_blocks_exact; assumption.
  - intros blocks d Hclosed He Hreply Hd Hall Hstop Hlo Hhi.
    destruct (precopy_blocks_then_eof w m blocks d Hm Hclosed He Hreply Hd Hall Hstop)
      as (w' & m' & Hrun & Hm' & Hs & _ & Hst & Hb & Hc).
    exists w', m'. repeat split; auto.
    + rewrite Hst. reflexivity.
    + rewrite Hb. apply count_blocks_exact; assumption.
  - intros blocks d rest Hclosed He Hreply Hd Hall.
    destruct (precopy_read_failure w m blocks d rest Hm Hclosed He Hreply Hd Hall)
      as (w' & m' & Hrun & Hm' & Hs & Hst & Hc).
    exists w', m'. repeat split; auto.
    rewrite Hst. reflexivity.
  - intros Hrej Hrec.
    unfold vfio_save_complete_precopy. unfold bind at 1.
    rewrite (set_state_recovered _ _ w m Hm Hrej Hrec). cbv zeta.
    change (negb (-1 =? 0)) with true. cbv iota. unfold ret.
    do 2 eexists. split; [reflexivity |].
    unfold install_fd.
    match goal with |- context [if ?b then _ else _] => destruct b end; simpl;
      repeat split; rewrite <- app_assoc; reflexivity.
  - intros blocks d Hclosed He Hreply Hd Hall Hstop res. subst res.
    destruct (precopy_reaches_final_request w m blocks d Hm Hclosed He Hreply Hd Hall)
      as (w3 & m3 & Hrun & Hm3 & Hk3 & Hf3 & Hst3 & Hc3).
    assert (Hlen : length (calls w3) = (length (calls w) + length blocks + 2)%nat).
    { rewrite Hc3, length_app. simpl. rewrite repeat_length. lia. }
    assert (Hr3 : io_ret (reply_target w3 VFIO_DEVICE_STATE_STOP) <> 0).
    { unfold reply_target. rewrite Hlen, Hk3. exact Hstop. }
    assert (Hrec3 : reply_recover w3 VFIO_DEVICE_STATE_ERROR
                    = k_set_state (kernel w) (length (calls w) + length blocks + 3)
                        VFIO_DEVICE_STATE_ERROR).
    { unfold reply_recover. rewrite Hlen, Hk3. f_equal. lia. }
    rewrite Hrun.
    destruct (Z.eq_dec (io_ret (reply_recover w3 VFIO_DEVICE_STATE_ERROR)) 0)
      as [Hrec | Hrej2].
    + rewrite (set_state_recovered _ _ w3 m3 Hm3 Hr3 Hrec). cbv zeta.
      unfold install_fd.
      match goal with |- context [if ?b then _ else _] => destruct b end; simpl;
        rewrite Hst3, Hc3, Hf3; rewrite <- !app_assoc; simpl;
        (split; [reflexivity |]);
        (split; [exists []; reflexivity |]);
        intros _; do 2 eexists; (split; [reflexivity |]); simpl;
        repeat split; rewrite Hc3, ?Hf3, <- !app_assoc; reflexivity.
    + destruct (Z.eq_dec (reply_reset w3) 0) as [Hok | Hbad].
      * rewrite (set_state_reset _ _ w3 Hr3 Hrej2 Hok). simpl.
        rewrite Hst3, Hc3, Hf3. rewrite <- !app_assoc. simpl.
        split; [reflexivity |].
        split; [eexists; reflexivity |].
        intros Hacc. rewrite Hrec3 in Hrej2. destruct (Hrej2 Hacc).
      * rewrite (set_state_fatal _ _ w3 Hr3 Hrej2 Hbad). simpl.
        rewrite Hst3, Hc3, Hf3. rewrite <- !app_assoc. simpl.
        split; [reflexivity |].
        split; [eexists; reflexivity |].
        intros Hacc. rewrite Hrec3 in Hrej2. destruct (Hrej2 Hacc).
Qed.

(** C4, three scenarios.  The one of the specification: three blocks (2, 1
    and 4 bytes) and then the end of the channel, with 10 bytes counted
    before: three data sections and one end marker are written, the device
    is back in STOP and the counter stands at 17.  A kernel that accepts
    only STOP: the run returns -1 after the requests for STOP_COPY and
    STOP.  A kernel that refuses the final STOP: the three sections and
    the end marker are on the stream, and ERROR is requested and
    recorded. *)
Lemma save_complete_precopy_run_witness :
  (migration (vbasedev world_three_blocks)
     = Some (mkMigration 1 VFIO_DEVICE_STATE_STOP (-1) (repeat x00 4) 4)
   /\ device_state (mkMigration 1 VFIO_DEVICE_STATE_STOP (-1) (repeat x00 4) 4)
      = VFIO_DEVICE_STATE_STOP)
  /\ (exists (w' : World) (m' : VFIOMigration),
        vfio_save_complete_precopy world_three_blocks = Ret 0 w'
        /\ wr (stream w') = data_frames three_blocks ++ be64 VFIO_MIG_FLAG_END_OF_STATE
        /\ migration (vbasedev w') = Some m'
        /\ device_state m' = VFIO_DEVICE_STATE_STOP
        /\ bytes_transferred w' = 17
        /\ calls w' = [CallSetState 7 VFIO_DEVICE_STATE_STOP_COPY;
                       CallRead 5 4; CallRead 5 4; CallRead 5 4; CallRead 5 4;
                       CallSetState 7 VFIO_DEVICE_STATE_STOP])
  /\ (exists (w' : World) (m' : VFIOMigration),
        vfio_save_complete_precopy world_stop_only = Ret (-1) w'
        /\ migration (vbasedev w') = Some m'
        /\ device_state m' = VFIO_DEVICE_STATE_STOP
        /\ stream w' = empty_stream
        /\ bytes_transferred w' = 0
        /\ calls w' = [CallSetState 7 VFIO_DEVICE_STATE_STOP_COPY;
                       CallSetState 7 VFIO_DEVICE_STATE_STOP])
  /\ (exists (w' : World) (m' : VFIOMigration),
        vfio_save_complete_precopy world_stop_refused = Ret (-1) w'
        /\ migration (vbasedev w') = Some m'
        /\ device_state m' = VFIO_DEVICE_STATE_ERROR
        /\ calls w' = [CallSetState 7 VFIO_DEVICE_STATE_STOP_COPY;
                       CallRead 5 4; CallRead 5 4; CallRead 5 4; CallRead 5 4;
                       CallSetState 7 VFIO_DEVICE_STATE_STOP;
                       CallSetState 7 VFIO_DEVICE_STATE_ERROR])
  /\ wr (stream (world_of (vfio_save_complete_precopy world_stop_refused)))
     = data_frames three_blocks ++ be64 VFIO_MIG_FLAG_END_OF_STATE.
Proof.
  assert (Hall : Forall (fun bs : list byte => bs <> [] /\ Z.of_nat (length bs) <= 4)
                   three_blocks)
    by (repeat constructor; by_compute).
  split; [split; reflexivity |].
  split; [| split; [| split]].
  - destruct (save_complete_precopy_run world_three_blocks _ eq_refl eq_refl)
      as (_ & Hblocks & _).
    apply (Hblocks three_blocks 5); try reflexivity; try by_compute.
    exact Hall.
  - destruct (save_complete_precopy_run world_stop_only _ eq_refl eq_refl)
      as (_ & _ & _ & Hfirst & _).
    apply Hfirst; by_compute.
  - destruct (save_complete_precopy_run world_stop_refused _ eq_refl eq_refl)
      as (_ & _ & _ & _ & Hlast).
    destruct (Hlast three_blocks 5 eq_refl eq_refl eq_refl ltac:(discriminate) Hall
                ltac:(by_compute))
      as (_ & _ & Hret).
    apply Hret. reflexivity.
  - destruct (save_complete_precopy_run world_stop_refused _ eq_refl eq_refl)
      as (_ & _ & _ & _ & Hlast).
    destruct (Hlast three_blocks 5 eq_refl eq_refl eq_refl ltac:(discriminate) Hall
                ltac:(by_compute))
      as (Hwr & _).
    exact Hwr.
Defined.


(** ** Save, then load *)

Lemma Z_of_byte_of_Z (z : Z) : Z_of_byte (byte_of_Z z) = z mod 256.
Proof.
  unfold Z_of_byte, byte_of_Z.
  assert (H : 0 <= z mod 256 < 256) by (apply Z.mod_pos_bound; lia).
  destruct (Byte.of_N (Z.to_N (z mod 256))) as [b |] eqn:E.
  - apply Byte.to_of_N in E. rewrite E. lia.
  - apply Byte.of_N_None_iff in E. lia.
Qed.

(** The eight bytes of [be64 v], read most significant first, give [v]
    back (as a 64-bit value). *)
Lemma be64_value (v : Z) :
  fold_left (fun a b => a * 256 + Z_of_byte b) (be64 v) 0 = wrap_u64 v.
Proof.
  unfold be64. simpl. rewrite !Z_of_byte_of_Z.
  assert (H : 0 <= wrap_u64 v < 2 ^ 64) by (apply Z.mod_pos_bound; lia).
  generalize dependent (wrap_u64 v). intros x H.
  rewrite !Z.shiftr_div_pow2 by lia.
  change (2 ^ 56) with 72057594037927936.
  change (2 ^ 48) with 281474976710656.
  change (2 ^ 40) with 1099511627776.
  change (2 ^ 32) with 4294967296.
  change (2 ^ 24) with 16777216.
  change (2 ^ 16) with 65536.
  change (2 ^ 8) with 256.
  change (2 ^ 0) with 1.
  change (2 ^ 64) with 18446744073709551616 in H.
  Z.div_mod_to_equations. lia.
Qed.

Lemma qemu_get_be_bytes (bs : list byte) :
  forall (acc : Z) (rest written : list byte) (e : Z),
    qemu_get_be (length bs) acc (mkQEMUFile (bs ++ rest) written e)
    = (fold_left (fun a b => a * 256 + Z_of_byte b) bs acc, mkQEMUFile rest written e).
Proof.
  induction bs as [| b bs IH]; intros acc rest written e; simpl; [reflexivity |].
  unfold qemu_get_byte. simpl. apply IH.
Qed.

(** Reading back a 64-bit value that was written. *)
Lemma get_be64_be64 (v : Z) (rest written : list byte) (e : Z) :
  qemu_get_be64 (mkQEMUFile (be64 v ++ rest) written e)
  = (wrap_u64 v, mkQEMUFile rest written e).
Proof.
  unfold qemu_get_be64.
  change 8%nat with (length (be64 v)).
  rewrite qemu_get_be_bytes, be64_value. reflexivity.
Qed.

Lemma data_frames_cons (bs : list byte) (blocks : list (list byte)) :
  data_frames (bs :: blocks) = data_frame bs ++ data_frames blocks.
Proof. reflexivity. Qed.

Lemma data_frames_head (blocks : list (list byte)) (rest : list byte) :
  exists (t : Z) (rest' : list byte),
    data_frames blocks ++ be64 VFIO_MIG_FLAG_END_OF_STATE ++ rest = be64 t ++ rest'.
Proof.
  destruct blocks as [| bs blocks].
  - eexists _, _. reflexivity.
  - rewrite data_frames_cons. unfold data_frame. rewrite <- !app_assoc.
    eexists _, _. reflexivity.
Qed.

Lemma get_be64_read (v : Z) (rest : list byte) (w : World) :
  rd (stream w) = be64 v ++ rest ->
  get_be64 w
  = Ret (wrap_u64 v)
        (set_stream (mkQEMUFile rest (wr (stream w)) (last_error (stream w))) w).
Proof.
  intros Hrd. unfold get_be64.
  destruct (stream w) as [r wrt e] eqn:Hs. cbn [rd wr last_error] in *. subst r.
  rewrite get_be64_be64. reflexivity.
Qed.

(** What [vfio_save_complete_precopy] writes for N blocks, [vfio_load_state]
    reads back: it forwards the same N blocks, in order, to the data
    channel, stops at the end marker and returns 0. *)
Lemma load_state_data_frames (blocks : list (list byte)) :
  forall (w : World) (m : VFIOMigration) (ch : list read_outcome) (rest : list byte),
    migration (vbasedev w) = Some m ->
    fds w !! data_fd m = Some ch ->
    last_error (stream w) = 0 ->
    rd (stream w) = data_frames blocks ++ be64 VFIO_MIG_FLAG_END_OF_STATE ++ rest ->
    Forall (fun bs => bs <> [] /\ Z.of_nat (length bs) < 2 ^ 64) blocks ->
    vfio_load_state w
    = Ret 0 (mkWorld (bytes_transferred w) (vbasedev w)
               (mkQEMUFile rest (wr (stream w)) 0) (fds w) (kernel w)
               (calls w ++ map (CallWrite (data_fd m)) blocks) (reports w)).
Proof.
  induction blocks as [| bs blocks IH]; intros w m ch rest Hm Hch He Hrd Hall.
  - unfold vfio_load_state, bind.
    rewrite (get_be64_read VFIO_MIG_FLAG_END_OF_STATE rest w Hrd).
    change (wrap_u64 VFIO_MIG_FLAG_END_OF_STATE) with VFIO_MIG_FLAG_END_OF_STATE.
    unfold load_loop, bind, gets. cbn [load_sections].
    change (VFIO_MIG_FLAG_END_OF_STATE =? VFIO_MIG_FLAG_END_OF_STATE) with true.
    cbv iota. unfold ret, set_stream. cbn [map]. rewrite app_nil_r, He. reflexivity.
  - apply Forall_cons in Hall as [[Hne Hlen] Hall].
    set (tail := data_frames blocks ++ be64 VFIO_MIG_FLAG_END_OF_STATE ++ rest) in *.
    assert (Hrd1 : rd (stream w)
                   = be64 VFIO_MIG_FLAG_DEV_DATA_STATE
                       ++ (be64 (Z.of_nat (length bs)) ++ bs ++ tail)).
    { rewrite Hrd, data_frames_cons. unfold data_frame, tail.
      rewrite <- !app_assoc. reflexivity. }
    assert (Hw : wrap_u64 (Z.of_nat (length bs)) = Z.of_nat (length bs))
      by (unfold wrap_u64; apply Z.mod_small; lia).
    assert (Hpos : 0 < Z.of_nat (length bs)) by (destruct bs; [congruence | simpl; lia]).
    unfold vfio_load_state. unfold bind at 1. rewrite (get_be64_read _ _ w Hrd1).
    change (wrap_u64 VFIO_MIG_FLAG_DEV_DATA_STATE) with VFIO_MIG_FLAG_DEV_DATA_STATE.
    rewrite He. set (w1 := set_stream _ w).
    rewrite load_loop_data. unfold bind at 1, data_section. unfold bind at 1.
    rewrite (get_be64_read (Z.of_nat (length bs)) (bs ++ tail) w1 eq_refl), Hw.
    set (w2 := set_stream _ w1).
    replace (Z.of_nat (length bs) =? 0) with false by (symmetry; apply Z.eqb_neq; lia).
    cbn [negb]. cbv iota.
    unfold bind at 1, vfio_load_buffer. unfold bind at 1, get_migration.
    change (migration (vbasedev w2)) with (migration (vbasedev w)). rewrite Hm.
    unfold qemu_file_get_to_fd.
    change (fds w2) with (fds w). rewrite Hch.
    change (rd (stream w2)) with (bs ++ tail).
    replace (Z.of_nat (length bs) <=? Z.of_nat (length (bs ++ tail))) with true
      by (symmetry; apply Z.leb_le; rewrite length_app; lia).
    rewrite Nat2Z.id, take_app_length, drop_app_length. cbn [andb]. cbv iota.
    set (w3 := log_call (CallWrite (data_fd m) bs) _).
    specialize (IH w3 m ch rest Hm Hch eq_refl eq_refl Hall).
    destruct (data_frames_head blocks rest) as (tg & rest' & Hhead).
    fold tail in Hhead.
    assert (Hrd3 : rd (stream w3) = be64 tg ++ rest') by exact Hhead.
    revert IH. unfold vfio_load_state. unfold bind at 1.
    rewrite (get_be64_read tg rest' w3 Hrd3). intros IH.
    change (0 <? 0) with false. cbv iota.
    unfold bind at 1. rewrite (get_be64_read tg rest' w3 Hrd3).
    unfold bind at 1, file_get_error, gets. cbn [negb]. cbv iota.
    change (qemu_file_get_error _ =? 0) with true. cbn [negb]. cbv iota.
    unfold ret. rewrite IH.
    subst w3 w2 w1. unfold log_call, set_stream. cbn.
    rewrite <- app_assoc. reflexivity.
Qed.


(** * Further properties of the code *)

(** ** The state machine, beyond the claims *)

(** X1: when the kernel accepts the target and hands back a descriptor
    while no data channel is open, the call returns 0, records the target
    state and adopts the descriptor: it becomes [migration->data_fd], it is
    open with what the kernel put behind it, nothing is closed, and every
    other descriptor of the process is untouched. *)
Theorem set_state_adopts_descriptor
    (new_state recover_state : vfio_device_mig_state) (w : World) (m : VFIOMigration) :
  migration (vbasedev w) = Some m ->
  io_ret (reply_target w new_state) = 0 ->
  io_data_fd (reply_target w new_state) <> -1 ->
  data_fd m = -1 ->
  exists (w' : World) (m' : VFIOMigration),
    vfio_migration_set_state new_state recover_state w = Ret 0 w'
    /\ migration (vbasedev w') = Some m'
    /\ device_state m' = new_state
    /\ data_fd m' = io_data_fd (reply_target w new_state)
    /\ fds w' !! data_fd m' = Some (io_chan (reply_target w new_state))
    /\ (forall d, d <> data_fd m' -> fds w' !! d = fds w !! d)
    /\ calls w' = calls w ++ [CallSetState (fd (vbasedev w)) new_state].
Proof.
  intros Hm Ha Hnew Hclosed.
  rewrite (set_state_accepted_fd _ _ _ _ Hm Ha Hnew Hclosed).
  do 2 eexists. split; [reflexivity |]. simpl.
  repeat split.
  - apply lookup_insert_eq.
  - intros d Hd. apply lookup_insert_ne. intros E. apply Hd. symmetry. exact E.
Qed.

Lemma set_state_adopts_descriptor_witness :
  (migration (vbasedev world_three_blocks)
     = Some (mkMigration 1 VFIO_DEVICE_STATE_STOP (-1) (repeat x00 4) 4)
   /\ io_ret (reply_target world_three_blocks VFIO_DEVICE_STATE_STOP_COPY) = 0
   /\ io_data_fd (reply_target world_three_blocks VFIO_DEVICE_STATE_STOP_COPY) <> -1)
  /\ exists (w' : World) (m' : VFIOMigration),
       vfio_migration_set_state VFIO_DEVICE_STATE_STOP_COPY VFIO_DEVICE_STATE_STOP
         world_three_blocks = Ret 0 w'
       /\ migration (vbasedev w') = Some m'
       /\ device_state m' = VFIO_DEVICE_STATE_STOP_COPY
       /\ data_fd m' = 5
       /\ fds w' !! data_fd m' = Some (map RdData three_blocks).
Proof.
  split; [repeat split; by_compute |].
  assert (Hnew : io_data_fd (reply_target world_three_blocks VFIO_DEVICE_STATE_STOP_COPY)
                 <> -1) by by_compute.
  destruct (set_state_adopts_descriptor VFIO_DEVICE_STATE_STOP_COPY VFIO_DEVICE_STATE_STOP
              world_three_blocks _ eq_refl eq_refl Hnew eq_refl)
    as (w' & m' & Hrun & Hm' & Hs & Hd & Hch & _).
  exists w', m'. repeat split; assumption.
Defined.

(** X2: a descriptor that comes back with the accepted recovery request is
    neither adopted nor closed: the call returns -1 with the recovery state
    recorded, [migration->data_fd] is what it was, the only calls made are
    the two state-set requests, and the descriptor stays open in the
    process. *)
Theorem set_state_recovery_descriptor_left_open
    (new_state recover_state : vfio_device_mig_state) (w : World) (m : VFIOMigration) :
  migration (vbasedev w) = Some m ->
  io_ret (reply_target w new_state) <> 0 ->
  io_ret (reply_recover w recover_state) = 0 ->
  io_data_fd (reply_recover w recover_state) <> -1 ->
  exists (w' : World) (m' : VFIOMigration),
    vfio_migration_set_state new_state recover_state w = Ret (-1) w'
    /\ migration (vbasedev w') = Some m'
    /\ device_state m' = recover_state
    /\ data_fd m' = data_fd m
    /\ fds w' !! io_data_fd (reply_recover w recover_state)
       = Some (io_chan (reply_recover w recover_state))
    /\ calls w' = calls w ++ [CallSetState (fd (vbasedev w)) new_state;
                              CallSetState (fd (vbasedev w)) recover_state].
Proof.
  intros Hm Hrej Hrec Hfd.
  rewrite (set_state_recovered _ _ _ _ Hm Hrej Hrec).
  do 2 eexists. split; [reflexivity |].
  unfold install_fd. rewrite Hrec. apply Z.eqb_neq in Hfd. rewrite Hfd. simpl.
  repeat split.
  - apply lookup_insert_eq.
  - rewrite <- app_assoc. reflexivity.
Qed.

Lemma set_state_recovery_descriptor_left_open_witness :
  (migration (vbasedev world_recovery_fd)
     = Some (mkMigration 1 VFIO_DEVICE_STATE_STOP (-1) (repeat x00 4) 4)
   /\ io_ret (reply_target world_recovery_fd VFIO_DEVICE_STATE_STOP_COPY) <> 0
   /\ io_ret (reply_recover world_recovery_fd VFIO_DEVICE_STATE_STOP) = 0
   /\ io_data_fd (reply_recover world_recovery_fd VFIO_DEVICE_STATE_STOP) <> -1)
  /\ exists (w' : World) (m' : VFIOMigration),
       vfio_migration_set_state VFIO_DEVICE_STATE_STOP_COPY VFIO_DEVICE_STATE_STOP
         world_recovery_fd = Ret (-1) w'
       /\ migration (vbasedev w') = Some m'
       /\ data_fd m' = -1
       /\ fds w' !! (11 : Z) = Some [RdData [x55]].
Proof.
  split; [repeat split; by_compute |].
  assert (Hrej : io_ret (reply_target world_recovery_fd VFIO_DEVICE_STATE_STOP_COPY) <> 0)
    by by_compute.
  assert (Hfd : io_data_fd (reply_recover world_recovery_fd VFIO_DEVICE_STATE_STOP) <> -1)
    by by_compute.
  destruct (set_state_recovery_descriptor_left_open VFIO_DEVICE_STATE_STOP_COPY
              VFIO_DEVICE_STATE_STOP world_recovery_fd _ eq_refl Hrej eq_refl Hfd)
    as (w' & m' & Hrun & Hm' & _ & Hd & Hch & _).
  exists w', m'. repeat split; assumption.
Defined.

(** X3: whatever the kernel answers, one [vfio_migration_set_state] makes
    one of four sequences of calls -- the request alone; the request and a
    [close]; the request and the recovery request; those two and a reset --
    and touches neither the transferred-bytes counter nor the migration
    stream nor the identity of the device. *)
Theorem set_state_footprint
    (new_state recover_state : vfio_device_mig_state) (w : World) :
  let w' := world_of (vfio_migration_set_state new_state recover_state w) in
  bytes_transferred w' = bytes_transferred w
  /\ stream w' = stream w
  /\ kernel w' = kernel w
  /\ name (vbasedev w') = name (vbasedev w)
  /\ fd (vbasedev w') = fd (vbasedev w)
  /\ migration_blocker (vbasedev w') = migration_blocker (vbasedev w)
  /\ exists l, calls w' = calls w ++ l
               /\ set_state_calls (fd (vbasedev w)) new_state recover_state l.
Proof.
  run_step. cbv beta zeta. unfold install_fd, set_state_calls.
  destruct (migration (vbasedev w)) as [m |] eqn:Hm;
    repeat first
      [ progress (steps ltac:(rewrite ?Hm, ?length_app))
      | match goal with
        | |- context [k_set_state ?k ?n ?s] => destruct (k_set_state k n s) as [? ? ?]
        | |- context [if ?b then _ else _] => destruct b
        end ];
    repeat split; rewrite <- ?app_assoc; simpl; eauto 10.
Qed.


(** ** Cleanup and load setup *)

Lemma cleanup_run (w : World) (m : VFIOMigration) :
  migration (vbasedev w) = Some m ->
  vfio_migration_cleanup w
  = Ret tt (with_migration (with_data_fd (-1) m)
              (set_fds (delete (data_fd m) (fds w)) (log_call (CallClose (data_fd m)) w))).
Proof.
  intros Hm.
  unfold vfio_migration_cleanup, sys_close, set_data_fd, put_migration, get_migration,
    bind, modify.
  rewrite Hm. simpl. rewrite Hm. reflexivity.
Qed.

(** X4: after [vfio_migration_cleanup] (so after [vfio_save_cleanup] and
    [vfio_load_cleanup]) the recorded descriptor is -1 and the descriptor
    that was recorded is no longer open; the recorded device state is
    untouched; and a following state transition that the kernel accepts
    always returns 0 with the target recorded, adopting the descriptor the
    kernel hands back if there is one: the out-of-sync failure cannot occur
    right after a cleanup. *)
Theorem cleanup_then_transition
    (new_state recover_state : vfio_device_mig_state) (w : World) (m : VFIOMigration) :
  migration (vbasedev w) = Some m ->
  exists (w1 : World) (m1 : VFIOMigration),
    vfio_migration_cleanup w = Ret tt w1
    /\ vfio_load_cleanup w = Ret 0 w1
    /\ migration (vbasedev w1) = Some m1
    /\ data_fd m1 = -1
    /\ device_state m1 = device_state m
    /\ fds w1 !! data_fd m = None
    /\ calls w1 = calls w ++ [CallClose (data_fd m)]
    /\ (io_ret (reply_target w1 new_state) = 0 ->
        exists (w2 : World) (m2 : VFIOMigration),
          vfio_migration_set_state new_state recover_state w1 = Ret 0 w2
          /\ migration (vbasedev w2) = Some m2
          /\ device_state m2 = new_state
          /\ data_fd m2 = io_data_fd (reply_target w1 new_state)).
Proof.
  intros Hm. pose proof (cleanup_run w m Hm) as Hrun.
  set (w1 := with_migration _ _) in Hrun.
  exists w1, (with_data_fd (-1) m).
  split; [exact Hrun |].
  split; [unfold vfio_load_cleanup, bind; rewrite Hrun; reflexivity |].
  split; [reflexivity |]. split; [reflexivity |]. split; [reflexivity |].
  split; [subst w1; simpl; apply lookup_delete_eq |].
  split; [reflexivity |].
  intros Ha.
  assert (Hm1 : migration (vbasedev w1) = Some (with_data_fd (-1) m)) by reflexivity.
  destruct (Z.eq_dec (io_data_fd (reply_target w1 new_state)) (-1)) as [Hno | Hnew].
  - rewrite (set_state_accepted _ recover_state _ _ Hm1 Ha Hno).
    do 2 eexists. split; [reflexivity |]. simpl. repeat split. symmetry. exact Hno.
  - rewrite (set_state_accepted_fd _ recover_state _ _ Hm1 Ha Hnew eq_refl).
    do 2 eexists. split; [reflexivity |]. simpl. repeat split.
Qed.

Lemma cleanup_then_transition_witness :
  migration (vbasedev world_desync)
    = Some (mkMigration 1 VFIO_DEVICE_STATE_STOP 5 (repeat x00 4) 4)
  /\ exists (w1 : World) (m1 : VFIOMigration),
       vfio_migration_cleanup world_desync = Ret tt w1
       /\ migration (vbasedev w1) = Some m1
       /\ data_fd m1 = -1
       /\ fds w1 !! (5 : Z) = None
       /\ exists (w2 : World) (m2 : VFIOMigration),
            vfio_migration_set_state VFIO_DEVICE_STATE_STOP_COPY VFIO_DEVICE_STATE_STOP w1
              = Ret 0 w2
            /\ migration (vbasedev w2) = Some m2
            /\ device_state m2 = VFIO_DEVICE_STATE_STOP_COPY.
Proof.
  split; [reflexivity |].
  destruct (cleanup_then_transition VFIO_DEVICE_STATE_STOP_COPY VFIO_DEVICE_STATE_STOP
              world_desync _ eq_refl)
    as (w1 & m1 & Hrun & _ & Hm1 & Hd1 & _ & Hclosed & Hc1 & Hnext).
  exists w1, m1. repeat split; try assumption.
  assert (Ha : io_ret (reply_target w1 VFIO_DEVICE_STATE_STOP_COPY) = 0).
  { unfold reply_target. rewrite Hc1.
    injection Hrun as <-. reflexivity. }
  destruct (Hnext Ha) as (w2 & m2 & Hrun2 & Hm2 & Hs2 & _).
  exists w2, m2. repeat split; assumption.
Defined.

(** X5: a second cleanup in a row calls [close(-1)] and changes nothing
    else: the migration context and the descriptors of the process are
    what the first cleanup left. *)
Theorem cleanup_twice (w : World) (m : VFIOMigration) :
  migration (vbasedev w) = Some m ->
  fds w !! (-1) = None ->
  exists w1 w2 : World,
    vfio_migration_cleanup w = Ret tt w1
    /\ vfio_migration_cleanup w1 = Ret tt w2
    /\ vbasedev w2 = vbasedev w1
    /\ fds w2 = fds w1
    /\ calls w2 = calls w1 ++ [CallClose (-1)].
Proof.
  intros Hm Hnone. pose proof (cleanup_run w m Hm) as Hrun.
  set (w1 := with_migration _ _) in Hrun.
  assert (Hm1 : migration (vbasedev w1) = Some (with_data_fd (-1) m)) by reflexivity.
  pose proof (cleanup_run w1 _ Hm1) as Hrun2.
  do 2 eexists. split; [exact Hrun |]. split; [exact Hrun2 |].
  simpl. repeat split.
  apply delete_id. destruct (decide (data_fd m = -1)) as [-> | Hne].
  - apply lookup_delete_eq.
  - rewrite lookup_delete_ne by exact Hne. exact Hnone.
Qed.

Lemma cleanup_twice_witness :
  (migration (vbasedev world_desync)
     = Some (mkMigration 1 VFIO_DEVICE_STATE_STOP 5 (repeat x00 4) 4)
   /\ fds world_desync !! (-1) = None)
  /\ exists w1 w2 : World,
       vfio_migration_cleanup world_desync = Ret tt w1
       /\ vfio_migration_cleanup w1 = Ret tt w2
       /\ vbasedev w2 = vbasedev w1
       /\ fds w2 = fds w1
       /\ calls w2 = calls w1 ++ [CallClose (-1)].
Proof.
  split; [split; reflexivity |].
  exact (cleanup_twice world_desync _ eq_refl eq_refl).
Defined.

(** X6: [vfio_load_setup] asks for RESUMING with the state recorded at that
    moment as recovery state, so whenever it returns the recorded state is
    RESUMING (and the result 0) or exactly what it was before (and the
    result -1); otherwise it ended in [hw_error]. *)
Theorem load_setup_state (w : World) (m : VFIOMigration) :
  migration (vbasedev w) = Some m ->
  match vfio_load_setup w with
  | Ret r w' =>
      exists m', migration (vbasedev w') = Some m'
                 /\ ((r = 0 /\ device_state m' = VFIO_DEVICE_STATE_RESUMING)
                     \/ (r = -1 /\ device_state m' = device_state m))
  | HwError _ _ => reply_reset w <> 0
  | NullDeref _ | OutOfFuel _ => False
  end.
Proof.
  intros Hm. unfold vfio_load_setup, bind, get_migration. rewrite Hm.
  set (new_state := VFIO_DEVICE_STATE_RESUMING). set (recover_state := device_state m).
  destruct (Z.eq_dec (io_ret (reply_target w new_state)) 0) as [Ha | Hrej].
  - destruct (Z.eq_dec (io_data_fd (reply_target w new_state)) (-1)) as [Hno | Hnew].
    + rewrite (set_state_accepted _ recover_state _ _ Hm Ha Hno).
      eexists; split; [reflexivity | left; auto].
    + destruct (Z.eq_dec (data_fd m) (-1)) as [Hclosed | Hopen].
      * rewrite (set_state_accepted_fd _ recover_state _ _ Hm Ha Hnew Hclosed).
        eexists; split; [reflexivity | left; auto].
      * rewrite (set_state_desync _ recover_state _ _ Hm Ha Hnew Hopen).
        exists m; split; [exact Hm | right; auto].
  - destruct (Z.eq_dec (io_ret (reply_recover w recover_state)) 0) as [Hrec | Hrej2].
    + rewrite (set_state_recovered _ _ _ _ Hm Hrej Hrec).
      eexists; split; [reflexivity | right; auto].
    + destruct (Z.eq_dec (reply_reset w) 0) as [Hok | Hbad].
      * rewrite (set_state_reset _ _ _ Hrej Hrej2 Hok).
        exists m; split; [exact Hm | right; auto].
      * rewrite (set_state_fatal _ _ _ Hrej Hrej2 Hbad). exact Hbad.
Qed.

Lemma load_setup_state_witness :
  migration (vbasedev world_reset)
    = Some (mkMigration 1 VFIO_DEVICE_STATE_RUNNING (-1) (repeat x00 4) 4)
  /\ exists (w' : World) (m' : VFIOMigration),
       vfio_load_setup world_reset = Ret (-1) w'
       /\ migration (vbasedev w') = Some m'
       /\ device_state m' = VFIO_DEVICE_STATE_RUNNING.
Proof.
  split; [reflexivity |].
  pose proof (load_setup_state world_reset _ eq_refl) as H.
  destruct (vfio_load_setup world_reset) as [r w' | | |] eqn:E;
    try discriminate E.
  destruct H as (m' & Hm' & [[Hr _] | [Hr Hs]]).
  - exfalso. injection E as E _. rewrite Hr in E. discriminate E.
  - injection E as E Hw. exists w', m'. rewrite <- E. repeat split; assumption.
Defined.


(** ** The stream protocol, written and read back *)

Lemma load_loop_setup (r : Z) (w : World) :
  load_loop VFIO_MIG_FLAG_DEV_SETUP_STATE r w = setup_section r w.
Proof. reflexivity. Qed.

Lemma load_loop_config (r : Z) (w : World) :
  load_loop VFIO_MIG_FLAG_DEV_CONFIG_STATE r w = vfio_load_device_config_state w.
Proof. reflexivity. Qed.

(** X7: on a stream without error [vfio_save_setup] returns 0 and appends
    exactly the setup tag and the end marker; and [vfio_load_state] on any
    stream that starts with those sixteen bytes returns 0 having consumed
    exactly them, whatever follows and whatever the stream's error code. *)
Theorem save_setup_round_trip (src : World) :
  last_error (stream src) = 0 ->
  let sent := be64 VFIO_MIG_FLAG_DEV_SETUP_STATE ++ be64 VFIO_MIG_FLAG_END_OF_STATE in
  vfio_save_setup src
  = Ret 0 (set_stream (mkQEMUFile (rd (stream src)) (wr (stream src) ++ sent) 0) src)
  /\ forall (dst : World) (rest : list byte),
       rd (stream dst) = sent ++ rest ->
       vfio_load_state dst
       = Ret 0 (set_stream (mkQEMUFile rest (wr (stream dst)) (last_error (stream dst))) dst).
Proof.
  intros He sent. split.
  - unfold vfio_save_setup, put_be64, file_get_error, bind, modify, gets.
    unfold qemu_put_be64, qemu_put_buffer, qemu_file_get_error. simpl.
    rewrite He. simpl. unfold set_stream. simpl. subst sent.
    rewrite <- app_assoc. reflexivity.
  - intros dst rest Hrd. subst sent. rewrite <- app_assoc in Hrd.
    unfold vfio_load_state. unfold bind at 1.
    rewrite (get_be64_read _ _ dst Hrd).
    change (wrap_u64 VFIO_MIG_FLAG_DEV_SETUP_STATE) with VFIO_MIG_FLAG_DEV_SETUP_STATE.
    rewrite load_loop_setup. unfold setup_section, bind at 1, gets. unfold bind at 1.
    set (w1 := set_stream _ dst).
    rewrite (get_be64_read VFIO_MIG_FLAG_END_OF_STATE rest w1 eq_refl).
    change (wrap_u64 VFIO_MIG_FLAG_END_OF_STATE =? VFIO_MIG_FLAG_END_OF_STATE) with true.
    cbv iota. reflexivity.
Qed.

Lemma save_setup_round_trip_witness :
  last_error (stream world_stop_only) = 0
  /\ exists src' : World,
       vfio_save_setup world_stop_only = Ret 0 src'
       /\ vfio_load_state (world_loading (wr (stream src') ++ [x07]))
          = Ret 0 (world_loading [x07]).
Proof.
  split; [reflexivity |].
  destruct (save_setup_round_trip world_stop_only eq_refl) as [Hsave Hload].
  eexists. split; [exact Hsave |].
  exact (Hload (world_loading (wr (stream world_stop_only)
                                 ++ (be64 VFIO_MIG_FLAG_DEV_SETUP_STATE
                                       ++ be64 VFIO_MIG_FLAG_END_OF_STATE) ++ [x07]))
           [x07] eq_refl).
Defined.

(** X8: the config section.  When the device's save hook appends some
    bytes to an error-free stream, [vfio_save_state] leaves on the stream
    the config tag, those bytes and the end marker, and reports nothing;
    and when the device's load hook consumes those bytes and returns 0,
    [vfio_load_state] on an error-free stream that starts with that section
    returns 0 having consumed exactly the section. *)
Theorem config_round_trip
    (src dst : World) (payload rest : list byte)
    (save_config : QEMUFile -> QEMUFile) (load_config : QEMUFile -> Z * QEMUFile)
    (other_load : option (QEMUFile -> Z * QEMUFile))
    (other_save : option (QEMUFile -> QEMUFile)) :
  ops (vbasedev src) = Some (mkOps (Some save_config) other_load) ->
  ops (vbasedev dst) = Some (mkOps other_save (Some load_config)) ->
  last_error (stream src) = 0 ->
  save_config (qemu_put_be64 (stream src) VFIO_MIG_FLAG_DEV_CONFIG_STATE)
    = mkQEMUFile (rd (stream src))
        (wr (stream src) ++ be64 VFIO_MIG_FLAG_DEV_CONFIG_STATE ++ payload) 0 ->
  last_error (stream dst) = 0 ->
  rd (stream dst) = be64 VFIO_MIG_FLAG_DEV_CONFIG_STATE ++ payload
                      ++ be64 VFIO_MIG_FLAG_END_OF_STATE ++ rest ->
  load_config (mkQEMUFile (payload ++ be64 VFIO_MIG_FLAG_END_OF_STATE ++ rest)
                 (wr (stream dst)) 0)
    = (0, mkQEMUFile (be64 VFIO_MIG_FLAG_END_OF_STATE ++ rest) (wr (stream dst)) 0) ->
  vfio_save_state src
  = Ret tt (set_stream
              (mkQEMUFile (rd (stream src))
                 (wr (stream src) ++ be64 VFIO_MIG_FLAG_DEV_CONFIG_STATE ++ payload
                    ++ be64 VFIO_MIG_FLAG_END_OF_STATE) 0) src)
  /\ vfio_load_state dst
     = Ret 0 (set_stream (mkQEMUFile rest (wr (stream dst)) 0) dst).
Proof.
  intros Hops Hopd Hes Hsave Hed Hrd Hload. split.
  - unfold vfio_save_state, vfio_save_device_config_state, put_be64, file_get_error,
      bind, modify, gets, ret.
    simpl. rewrite Hops. simpl. rewrite Hsave.
    unfold qemu_put_be64, qemu_put_buffer, qemu_file_get_error. simpl.
    unfold set_stream. simpl. rewrite <- !app_assoc. reflexivity.
  - unfold vfio_load_state. unfold bind at 1.
    rewrite (get_be64_read _ _ dst Hrd).
    change (wrap_u64 VFIO_MIG_FLAG_DEV_CONFIG_STATE) with VFIO_MIG_FLAG_DEV_CONFIG_STATE.
    rewrite load_loop_config, Hed.
    set (w1 := set_stream _ dst).
    unfold vfio_load_device_config_state, bind at 1, gets. unfold bind at 1.
    change (ops (vbasedev w1)) with (ops (vbasedev dst)). rewrite Hopd.
    unfold bind at 1.
    change (stream w1)
      with (mkQEMUFile (payload ++ be64 VFIO_MIG_FLAG_END_OF_STATE ++ rest)
              (wr (stream dst)) 0).
    rewrite Hload. cbn [negb Z.eqb]. cbv iota.
    set (w2 := set_stream _ w1).
    unfold bind at 1.
    rewrite (get_be64_read VFIO_MIG_FLAG_END_OF_STATE rest w2 eq_refl).
    change (wrap_u64 VFIO_MIG_FLAG_END_OF_STATE =? VFIO_MIG_FLAG_END_OF_STATE) with true.
    cbn [negb]. cbv iota. reflexivity.
Qed.

Lemma config_round_trip_witness :
  exists src' : World,
    vfio_save_state world_config_save = Ret tt src'
    /\ wr (stream src') = be64 VFIO_MIG_FLAG_DEV_CONFIG_STATE ++ [x10; x20]
                            ++ be64 VFIO_MIG_FLAG_END_OF_STATE
    /\ vfio_load_state (world_config_load (wr (stream src') ++ [x07]))
       = Ret 0 (world_config_load [x07]).
Proof.
  destruct (config_round_trip world_config_save
              (world_config_load
                 (be64 VFIO_MIG_FLAG_DEV_CONFIG_STATE ++ [x10; x20]
                    ++ be64 VFIO_MIG_FLAG_END_OF_STATE ++ [x07]))
              [x10; x20] [x07] _ _ _ _
              eq_refl eq_refl eq_refl eq_refl eq_refl eq_refl eq_refl)
    as [Hsave Hload].
  eexists. split; [exact Hsave |]. split; [reflexivity |].
  exact Hload.
Defined.

(** X9: a data section of length zero is legal and forwards nothing: on an
    error-free stream, [vfio_load_state] started at such a section does
    exactly what it does when started right after it. *)
Theorem load_skips_empty_data_section (w : World) (t : Z) (rest : list byte) :
  last_error (stream w) = 0 ->
  rd (stream w) = be64 VFIO_MIG_FLAG_DEV_DATA_STATE ++ be64 0 ++ be64 t ++ rest ->
  vfio_load_state w
  = vfio_load_state (set_stream (mkQEMUFile (be64 t ++ rest) (wr (stream w)) 0) w).
Proof.
  intros He Hrd.
  unfold vfio_load_state. unfold bind at 1.
  rewrite (get_be64_read _ _ w Hrd).
  change (wrap_u64 VFIO_MIG_FLAG_DEV_DATA_STATE) with VFIO_MIG_FLAG_DEV_DATA_STATE.
  rewrite He. set (w1 := set_stream _ w).
  rewrite load_loop_data. unfold bind at 1, data_section. unfold bind at 1.
  rewrite (get_be64_read 0 (be64 t ++ rest) w1 eq_refl).
  change (wrap_u64 0) with 0. cbn [Z.eqb negb andb]. cbv iota.
  set (w2 := set_stream _ w1).
  unfold bind at 1, ret. unfold bind at 1.
  rewrite (get_be64_read t rest w2 eq_refl).
  unfold bind at 1, file_get_error, gets.
  change (qemu_file_get_error _ =? 0) with true. cbn [negb]. cbv iota.
  set (w0 := set_stream (mkQEMUFile (be64 t ++ rest) (wr (stream w)) 0) w).
  unfold bind at 1. rewrite (get_be64_read t rest w0 eq_refl).
  reflexivity.
Qed.

Lemma load_skips_empty_data_section_witness :
  (last_error (stream (world_loading
                 (be64 VFIO_MIG_FLAG_DEV_DATA_STATE ++ be64 0
                    ++ be64 VFIO_MIG_FLAG_END_OF_STATE ++ [x07]))) = 0)
  /\ vfio_load_state (world_loading
                        (be64 VFIO_MIG_FLAG_DEV_DATA_STATE ++ be64 0
                           ++ be64 VFIO_MIG_FLAG_END_OF_STATE ++ [x07]))
     = Ret 0 (world_loading [x07]).
Proof.
  split; [reflexivity |].
  rewrite (load_skips_empty_data_section
             (world_loading
                (be64 VFIO_MIG_FLAG_DEV_DATA_STATE ++ be64 0
                   ++ be64 VFIO_MIG_FLAG_END_OF_STATE ++ [x07]))
             VFIO_MIG_FLAG_END_OF_STATE [x07] eq_refl eq_refl).
  reflexivity.
Defined.


(** ** The precopy completion, end to end and at its edges *)

(** X10: what the source writes, the destination replays.  When
    [vfio_save_complete_precopy] reads N non-empty blocks from the data
    channel, the bytes it appends to the stream make [vfio_load_state], on
    an error-free stream that starts with them, forward exactly those N
    blocks, in order, to the destination's data channel, stop right after
    the end marker and return 0. *)
Theorem precopy_load_round_trip
    (src dst : World) (m md : VFIOMigration) (blocks : list (list byte)) (d : Z)
    (chd : list read_outcome) :
  migration (vbasedev src) = Some m ->
  data_fd m = -1 ->
  last_error (stream src) = 0 ->
  reply_target src VFIO_DEVICE_STATE_STOP_COPY = mkReply 0 d (map RdData blocks) ->
  d <> -1 ->
  Forall (fun bs => bs <> [] /\ Z.of_nat (length bs) <= data_buffer_size m) blocks ->
  data_buffer_size m < 2 ^ 64 ->
  k_set_state (kernel src) (length (calls src) + length blocks + 2) VFIO_DEVICE_STATE_STOP
    = mkReply 0 (-1) [] ->
  migration (vbasedev dst) = Some md ->
  fds dst !! data_fd md = Some chd ->
  last_error (stream dst) = 0 ->
  exists (src' : World) (sent : list byte),
    vfio_save_complete_precopy src = Ret 0 src'
    /\ wr (stream src') = wr (stream src) ++ sent
    /\ forall rest : list byte,
         rd (stream dst) = sent ++ rest ->
         vfio_load_state dst
         = Ret 0 (mkWorld (bytes_transferred dst) (vbasedev dst)
                    (mkQEMUFile rest (wr (stream dst)) 0) (fds dst) (kernel dst)
                    (calls dst ++ map (CallWrite (data_fd md)) blocks) (reports dst)).
Proof.
  intros Hm Hclosed He Hreply Hd Hall Hsize Hstop Hmd Hch Hed.
  destruct (precopy_blocks_then_eof src m blocks d Hm Hclosed He Hreply Hd Hall Hstop)
    as (src' & m' & Hrun & _ & _ & _ & Hst & _ & _).
  exists src', (data_frames blocks ++ be64 VFIO_MIG_FLAG_END_OF_STATE).
  split; [exact Hrun |]. split; [rewrite Hst; reflexivity |].
  intros rest Hrd. rewrite <- app_assoc in Hrd.
  apply (load_state_data_frames blocks dst md chd rest Hmd Hch Hed Hrd).
  eapply Forall_impl; [exact Hall |].
  intros bs [Hne Hlen]. split; [exact Hne | lia].
Qed.

Lemma precopy_load_round_trip_witness :
  exists (src' : World) (sent : list byte),
    vfio_save_complete_precopy world_three_blocks = Ret 0 src'
    /\ wr (stream src') = wr (stream world_three_blocks) ++ sent
    /\ (rd (stream (world_loading
                      (data_frames three_blocks ++ be64 VFIO_MIG_FLAG_END_OF_STATE
                         ++ [x07])))
        = sent ++ [x07] ->
        vfio_load_state
          (world_loading
             (data_frames three_blocks ++ be64 VFIO_MIG_FLAG_END_OF_STATE ++ [x07]))
        = Ret 0 (mkWorld 0 (example_device VFIO_DEVICE_STATE_RESUMING 5)
                   (mkQEMUFile [x07] [] 0) {[ 5 := [] ]} kernel_accepting
                   (map (CallWrite 5) three_blocks) [])).
Proof.
  assert (Hall : Forall (fun bs : list byte => bs <> [] /\ Z.of_nat (length bs) <= 4)
                   three_blocks)
    by (repeat constructor; by_compute).
  destruct (precopy_load_round_trip world_three_blocks
              (world_loading
                 (data_frames three_blocks ++ be64 VFIO_MIG_FLAG_END_OF_STATE ++ [x07]))
              (mkMigration 1 VFIO_DEVICE_STATE_STOP (-1) (repeat x00 4) 4)
              (mkMigration 1 VFIO_DEVICE_STATE_RESUMING 5 (repeat x00 4) 4)
              three_blocks 5 []
              eq_refl eq_refl eq_refl eq_refl ltac:(discriminate) Hall
              ltac:(reflexivity) eq_refl eq_refl eq_refl eq_refl)
    as (src' & sent & Hrun & Hwr & Hload).
  exists src', sent. split; [exact Hrun |]. split; [exact Hwr |].
  intros Hrd. exact (Hload [x07] Hrd).
Defined.

(** X11: when the kernel refuses STOP_COPY, or answers it with a new
    descriptor while a data channel is still open, the precopy completion
    ends with the failed transition: it returns -1 (or the process aborts
    in [hw_error]), nothing is read from any data channel, nothing is
    written to the stream and the byte counter stays as it was. *)
Theorem precopy_refused (w : World) (m : VFIOMigration) :
  migration (vbasedev w) = Some m ->
  io_ret (reply_target w VFIO_DEVICE_STATE_STOP_COPY) <> 0
  \/ (io_data_fd (reply_target w VFIO_DEVICE_STATE_STOP_COPY) <> -1 /\ data_fd m <> -1) ->
  let res := vfio_save_complete_precopy w in
  ((exists w', res = Ret (-1) w') \/ (exists msg w', res = HwError msg w'))
  /\ stream (world_of res) = stream w
  /\ bytes_transferred (world_of res) = bytes_transferred w
  /\ exists l, calls (world_of res) = calls w ++ l
               /\ set_state_calls (fd (vbasedev w))
                    VFIO_DEVICE_STATE_STOP_COPY VFIO_DEVICE_STATE_STOP l.
Proof.
  intros Hm Hfail res. subst res. unfold set_state_calls.
  assert (Hpre : forall r w1,
             vfio_migration_set_state VFIO_DEVICE_STATE_STOP_COPY VFIO_DEVICE_STATE_STOP w
             = Ret r w1 ->
             r <> 0 -> vfio_save_complete_precopy w = Ret r w1).
  { intros r w1 H Hr. unfold vfio_save_complete_precopy. unfold bind at 1.
    rewrite H. apply Z.eqb_neq in Hr. rewrite Hr. reflexivity. }
  assert (Hpre' : forall msg w1,
             vfio_migration_set_state VFIO_DEVICE_STATE_STOP_COPY VFIO_DEVICE_STATE_STOP w
             = HwError msg w1 ->
             vfio_save_complete_precopy w = HwError msg w1).
  { intros msg w1 H. unfold vfio_save_complete_precopy. unfold bind at 1.
    rewrite H. reflexivity. }
  destruct (Z.eq_dec (io_ret (reply_target w VFIO_DEVICE_STATE_STOP_COPY)) 0)
    as [Hacc | Hrej].
  - destruct Hfail as [Hrej | [Hnew Hopen]]; [destruct (Hrej Hacc) |].
    rewrite (Hpre _ _ (set_state_desync _ _ w m Hm Hacc Hnew Hopen)) by discriminate.
    simpl. split; [left; eexists; reflexivity |].
    repeat split. eexists. rewrite <- app_assoc. split; [reflexivity |].
    right. left. eexists. reflexivity.
  - destruct (Z.eq_dec (io_ret (reply_recover w VFIO_DEVICE_STATE_STOP)) 0)
      as [Hrec | Hrej2].
    + rewrite (Hpre _ _ (set_state_recovered _ _ w m Hm Hrej Hrec)) by discriminate.
      unfold install_fd.
      match goal with |- context [if ?b then _ else _] => destruct b end; simpl;
        (split; [left; eexists; reflexivity |]);
        repeat split; eexists; rewrite <- app_assoc;
        (split; [reflexivity |]); right; right; left; reflexivity.
    + destruct (Z.eq_dec (reply_reset w) 0) as [Hok | Hbad].
      * rewrite (Hpre _ _ (set_state_reset _ _ w Hrej Hrej2 Hok)) by discriminate.
        simpl. split; [left; eexists; reflexivity |].
        repeat split. eexists. rewrite <- !app_assoc. split; [reflexivity |].
        right. right. right. reflexivity.
      * rewrite (Hpre' _ _ (set_state_fatal _ _ w Hrej Hrej2 Hbad)).
        simpl. split; [right; do 2 eexists; reflexivity |].
        repeat split. eexists. rewrite <- !app_assoc. split; [reflexivity |].
        right. right. right. reflexivity.
Qed.

Lemma precopy_refused_witness :
  vfio_save_complete_precopy world_desync
  = vfio_migration_set_state VFIO_DEVICE_STATE_STOP_COPY VFIO_DEVICE_STATE_STOP
      world_desync
  /\ stream (world_of (vfio_save_complete_precopy world_desync)) = empty_stream
  /\ bytes_transferred (world_of (vfio_save_complete_precopy world_desync)) = 0.
Proof.
  split; [reflexivity |].
  destruct (precopy_refused world_desync
              (mkMigration 1 VFIO_DEVICE_STATE_STOP 5 (repeat x00 4) 4) eq_refl)
    as (_ & Hs & Hb & _).
  - right. split; by_compute.
  - split; [exact Hs | exact Hb].
Defined.


(** X12: a precopy completion that fails at its very last step has already
    sent a complete stream.  When the N blocks were read and written and
    the kernel then refuses STOP but accepts ERROR, the call returns -1
    with ERROR recorded, while the stream holds all N data sections and the
    end marker and the counter includes all N blocks. *)
Theorem precopy_final_stop_refused
    (w : World) (m : VFIOMigration) (blocks : list (list byte)) (d : Z) :
  migration (vbasedev w) = Some m ->
  data_fd m = -1 ->
  last_error (stream w) = 0 ->
  reply_target w VFIO_DEVICE_STATE_STOP_COPY = mkReply 0 d (map RdData blocks) ->
  d <> -1 ->
  Forall (fun bs => bs <> [] /\ Z.of_nat (length bs) <= data_buffer_size m) blocks ->
  io_ret (k_set_state (kernel w) (length (calls w) + length blocks + 2)
            VFIO_DEVICE_STATE_STOP) <> 0 ->
  io_ret (k_set_state (kernel w) (length (calls w) + length blocks + 3)
            VFIO_DEVICE_STATE_ERROR) = 0 ->
  exists (w' : World) (m' : VFIOMigration),
    vfio_save_complete_precopy w = Ret (-1) w'
    /\ migration (vbasedev w') = Some m'
    /\ device_state m' = VFIO_DEVICE_STATE_ERROR
    /\ data_fd m' = d
    /\ wr (stream w') = wr (stream w) ++ data_frames blocks
                           ++ be64 VFIO_MIG_FLAG_END_OF_STATE
    /\ last_error (stream w') = 0
    /\ bytes_transferred w' = count_blocks (bytes_transferred w) blocks
    /\ calls w' = calls w
                  ++ CallSetState (fd (vbasedev w)) VFIO_DEVICE_STATE_STOP_COPY
                  :: repeat (CallRead d (data_buffer_size m)) (S (length blocks))
                  ++ [CallSetState (fd (vbasedev w)) VFIO_DEVICE_STATE_STOP;
                      CallSetState (fd (vbasedev w)) VFIO_DEVICE_STATE_ERROR].
Proof.
  intros Hm Hclosed He Hreply Hd Hall Hstop Herr.
  rewrite <- (app_nil_r (map RdData blocks)) in Hreply.
  destruct (precopy_reaches_tail w m blocks d [] Hm Hclosed He Hreply Hd Hall)
    as (fuel & w1 & m1 & Hrun & Hm1 & Hs1 & Hd1 & Hz1 & Hn1 & Hf1 & Hk1 & Hst1 & Hb1
        & Hc1 & Hch1).
  rewrite <- Hd1 in Hch1.
  rewrite Hrun. unfold bind at 1. rewrite save_blocks_unfold.
  rewrite (save_block_eof w1 m1 Hm1 Hch1). simpl.
  set (w2 := after_empty_read (fds w1) m1 w1).
  unfold bind at 1, put_be64, modify. unfold bind at 1, file_get_error, gets.
  simpl. rewrite Hst1. unfold qemu_put_be64, qemu_put_buffer. simpl.
  set (w3 := set_stream _ w2).
  set (m2 := mkMigration (vm_state m1) (device_state m1) (data_fd m1)
               (drop 0 (data_buffer m1)) (data_buffer_size m1)).
  assert (Hc3 : calls w3 = calls w
                  ++ CallSetState (fd (vbasedev w)) VFIO_DEVICE_STATE_STOP_COPY
                  :: repeat (CallRead d (data_buffer_size m)) (S (length blocks))).
  { subst w3 w2. simpl. rewrite Hc1, Hd1, Hz1, <- app_assoc. simpl.
    rewrite repeat_snoc. reflexivity. }
  assert (Hlen : length (calls w3) = (length (calls w) + length blocks + 2)%nat).
  { rewrite Hc3, length_app. simpl. rewrite repeat_length. lia. }
  assert (Hk3 : kernel w3 = kernel w) by (subst w3 w2; simpl; exact Hk1).
  assert (Hr3 : io_ret (reply_target w3 VFIO_DEVICE_STATE_STOP) <> 0).
  { unfold reply_target. rewrite Hlen, Hk3. exact Hstop. }
  assert (Hr4 : io_ret (reply_recover w3 VFIO_DEVICE_STATE_ERROR) = 0).
  { unfold reply_recover. rewrite Hlen, Hk3.
    replace (S (length (calls w) + length blocks + 2))
      with (length (calls w) + length blocks + 3)%nat by lia.
    exact Herr. }
  rewrite (set_state_recovered VFIO_DEVICE_STATE_STOP VFIO_DEVICE_STATE_ERROR w3 m2
             eq_refl Hr3 Hr4).
  cbv zeta. do 2 eexists. split; [reflexivity |].
  unfold install_fd.
  match goal with |- context [if ?b then _ else _] => destruct b end; simpl;
    repeat split; auto;
    try (rewrite <- app_assoc; reflexivity);
    rewrite Hc1, Hd1, Hz1, Hf1, <- !app_assoc; simpl;
    rewrite repeat_mid; reflexivity.
Qed.

Lemma precopy_final_stop_refused_witness :
  exists (w' : World) (m' : VFIOMigration),
    vfio_save_complete_precopy world_stop_refused = Ret (-1) w'
    /\ migration (vbasedev w') = Some m'
    /\ device_state m' = VFIO_DEVICE_STATE_ERROR
    /\ data_fd m' = 5
    /\ wr (stream w') = wr (stream world_stop_refused) ++ data_frames three_blocks
                           ++ be64 VFIO_MIG_FLAG_END_OF_STATE
    /\ last_error (stream w') = 0
    /\ bytes_transferred w' = count_blocks 10 three_blocks
    /\ calls w' = [] ++ CallSetState 7 VFIO_DEVICE_STATE_STOP_COPY
                  :: repeat (CallRead 5 4) 4
                  ++ [CallSetState 7 VFIO_DEVICE_STATE_STOP;
                      CallSetState 7 VFIO_DEVICE_STATE_ERROR].
Proof.
  assert (Hall : Forall (fun bs : list byte => bs <> [] /\ Z.of_nat (length bs) <= 4)
                   three_blocks)
    by (repeat constructor; by_compute).
  apply (precopy_final_stop_refused world_stop_refused
           (mkMigration 1 VFIO_DEVICE_STATE_STOP (-1) (repeat x00 4) 4)
           three_blocks 5 eq_refl eq_refl eq_refl eq_refl);
    [discriminate | exact Hall | by_compute | by_compute].
Defined.


(** ** Without a load hook, the load path touches the stream and the data
       channel only *)

Lemma load_frame_refl (w : World) : load_frame w w.
Proof.
  unfold load_frame. repeat split; try reflexivity.
  exists []. rewrite app_nil_r. split; [reflexivity | constructor].
Qed.

Lemma load_frame_trans (w1 w2 w3 : World) :
  load_frame w1 w2 -> load_frame w2 w3 -> load_frame w1 w3.
Proof.
  unfold load_frame, forwards_only.
  intros (Hb & Hv & Hf & Hk & l & Hc & Hl) (Hb' & Hv' & Hf' & Hk' & l' & Hc' & Hl').
  repeat split; try congruence.
  exists (l ++ l'). split; [rewrite Hc', Hc, app_assoc; reflexivity |].
  apply Forall_app. split; [exact Hl |]. rewrite Hv in Hl'. exact Hl'.
Qed.

Lemma load_frame_quiet (w w' : World) :
  bytes_transferred w' = bytes_transferred w ->
  vbasedev w' = vbasedev w ->
  fds w' = fds w ->
  kernel w' = kernel w ->
  calls w' = calls w ->
  load_frame w w'.
Proof.
  intros Hb Hv Hf Hk Hc. unfold load_frame. repeat split; try assumption.
  exists []. rewrite app_nil_r. split; [exact Hc | constructor].
Qed.

Lemma no_load_hook_frame (w w' : World) :
  load_frame w w' -> no_load_hook w -> no_load_hook w'.
Proof.
  intros (_ & Hv & _) Hw o ld. rewrite Hv. apply Hw.
Qed.

Lemma keeps_bind {A B} (m : M A) (k : A -> M B) :
  keeps m -> (forall a, keeps (k a)) -> keeps (bind m k).
Proof.
  intros Hm Hk w Hw. unfold bind. specialize (Hm w Hw).
  destruct (m w) as [a w1 | msg w1 | w1 | w1]; simpl in *; try exact Hm.
  exact (load_frame_trans _ _ _ Hm (Hk a w1 (no_load_hook_frame _ _ Hm Hw))).
Qed.

Lemma keeps_ret {A} (a : A) : keeps (ret a).
Proof. intros w _. apply load_frame_refl. Qed.

Lemma keeps_gets {A} (g : World -> A) : keeps (gets g).
Proof. intros w _. apply load_frame_refl. Qed.

Lemma keeps_error_report (msg : string) : keeps (error_report msg).
Proof. intros w _. apply load_frame_quiet; reflexivity. Qed.

Lemma keeps_get_be64 : keeps get_be64.
Proof.
  intros w _. unfold get_be64. destruct (qemu_get_be64 (stream w)) as [v f'].
  apply load_frame_quiet; reflexivity.
Qed.

Lemma keeps_load_buffer (data_size : Z) : keeps (vfio_load_buffer data_size).
Proof.
  intros w _. unfold vfio_load_buffer, bind, get_migration, qemu_file_get_to_fd.
  destruct (migration (vbasedev w)) as [m |] eqn:Hm; [| apply load_frame_refl].
  destruct (fds w !! data_fd m); [| apply load_frame_refl].
  destruct (data_size <=? _); simpl; unfold load_frame, forwards_only; simpl;
    repeat split; eexists; (split; [reflexivity |]);
    repeat constructor; eauto.
Qed.

(** The config section of a device without load hook: the hook is not
    called, the end marker is read and checked. *)
Lemma keeps_load_config : keeps vfio_load_device_config_state.
Proof.
  intros w Hw.
  assert (Hrest : keeps (data <- get_be64;;
                         if negb (data =? VFIO_MIG_FLAG_END_OF_STATE) then
                           error_report
                             (name (vbasedev w)
                                +:+ ": Failed loading device config space, end flag incorrect "
                                +:+ HexString.of_Z data);;
                           ret (- EINVAL)
                         else file_get_error)).
  { apply keeps_bind; [apply keeps_get_be64 | intros data].
    destruct (negb (data =? _)).
    - apply keeps_bind; [apply keeps_error_report | intros _; apply keeps_ret].
    - apply keeps_gets. }
  unfold vfio_load_device_config_state. unfold bind at 1, gets. unfold bind at 1.
  destruct (ops (vbasedev w)) as [[sv [ld |]] |] eqn:Hops.
  - destruct (Hw _ ld Hops eq_refl).
  - unfold bind at 1, ret. change (negb (0 =? 0)) with false. cbv iota.
    exact (Hrest w Hw).
  - unfold bind at 1, ret. change (negb (0 =? 0)) with false. cbv iota.
    exact (Hrest w Hw).
Qed.

Lemma keeps_load_sections (fuel : nat) :
  forall data r, keeps (load_sections fuel data r).
Proof.
  induction fuel as [| fuel IH]; intros data r; simpl.
  - destruct (data =? VFIO_MIG_FLAG_END_OF_STATE); [apply keeps_ret |].
    intros w _. apply load_frame_refl.
  - destruct (data =? VFIO_MIG_FLAG_END_OF_STATE); [apply keeps_ret |].
    apply keeps_bind; [apply keeps_gets | intros nm].
    destruct (data =? VFIO_MIG_FLAG_DEV_CONFIG_STATE); [apply keeps_load_config |].
    destruct (data =? VFIO_MIG_FLAG_DEV_SETUP_STATE).
    { apply keeps_bind; [apply keeps_get_be64 | intros data'].
      destruct (data' =? _); [apply keeps_ret |].
      apply keeps_bind; [apply keeps_error_report | intros _; apply keeps_ret]. }
    destruct (data =? VFIO_MIG_FLAG_DEV_DATA_STATE).
    { apply keeps_bind; [apply keeps_get_be64 | intros data_size].
      apply keeps_bind.
      { destruct (negb (data_size =? 0)); [apply keeps_load_buffer | apply keeps_ret]. }
      intros r1. destruct (negb (data_size =? 0) && (r1 <? 0)); [apply keeps_ret |].
      apply keeps_bind; [apply keeps_get_be64 | intros data'].
      apply keeps_bind; [apply keeps_gets | intros r2].
      destruct (negb (r2 =? 0)); [apply keeps_ret | apply IH]. }
    apply keeps_bind; [apply keeps_error_report | intros _; apply keeps_ret].
Qed.

(** X13: for a device without a [vfio_load_config] hook (that hook is
    external code that is handed the device), however [vfio_load_state]
    ends (any return value, any stream contents, with or without a
    migration context), it has left the byte counter, the device record (so
    the recorded device state and the data descriptor), the open
    descriptors and the kernel as they were, and the only calls it has made
    are writes to the device's data channel. *)
Theorem load_state_frame (w : World) :
  (forall o ld, ops (vbasedev w) = Some o -> vfio_load_config o <> Some ld) ->
  let w' := world_of (vfio_load_state w) in
  bytes_transferred w' = bytes_transferred w
  /\ vbasedev w' = vbasedev w
  /\ fds w' = fds w
  /\ kernel w' = kernel w
  /\ exists l, calls w' = calls w ++ l
               /\ Forall (fun c => exists m bs, migration (vbasedev w) = Some m
                                                /\ c = CallWrite (data_fd m) bs) l.
Proof.
  intros Hw.
  assert (H : keeps vfio_load_state).
  { unfold vfio_load_state, load_loop.
    apply keeps_bind; [apply keeps_get_be64 | intros data].
    apply keeps_bind; [apply keeps_gets | intros fuel].
    apply keeps_load_sections. }
  exact (H w Hw).
Qed.

(** X13 on two data sections followed by a config section: the two blocks
    are forwarded to descriptor 5 and nothing else has changed. *)
Lemma load_state_frame_witness :
  (forall o ld, ops (vbasedev world_two_sections) = Some o ->
                vfio_load_config o <> Some ld)
  /\ bytes_transferred (world_of (vfio_load_state world_two_sections)) = 0
  /\ vbasedev (world_of (vfio_load_state world_two_sections))
     = example_device VFIO_DEVICE_STATE_RESUMING 5
  /\ fds (world_of (vfio_load_state world_two_sections)) = {[ 5 := [] ]}
  /\ calls (world_of (vfio_load_state world_two_sections))
     = [CallWrite 5 [x0a; x0b]; CallWrite 5 [x0c]].
Proof.
  assert (Hw : forall o ld, ops (vbasedev world_two_sections) = Some o ->
                            vfio_load_config o <> Some ld)
    by (intros o ld H; discriminate H).
  destruct (load_state_frame world_two_sections Hw) as (Hb & Hv & Hf & _).
  split; [exact Hw |]. split; [exact Hb |]. split; [exact Hv |].
  split; [exact Hf | reflexivity].
Defined.

(** ** The run-state handler *)

(** X14: a run-state change the kernel refuses cannot be reported to the
    caller, so it is latched on the outgoing stream.  Unless the process
    aborts in [hw_error] (refused recovery and failed reset), the handler
    returns with -1 latched on the outgoing stream when there is one (a
    code latched earlier is kept), and with the stream untouched when there
    is none; the recorded state is ERROR when the kernel accepted the
    recovery, and is left as it was when the device had to be reset.  On
    a stream that was free of error a later [vfio_save_setup] then writes
    nothing and returns -1. *)
Theorem vmstate_change_refused
    (running to_dst_file : bool) (w : World) (m : VFIOMigration) :
  migration (vbasedev w) = Some m ->
  io_ret (reply_target w (run_state_target running)) <> 0 ->
  (exists (w' : World) (m' : VFIOMigration),
      vfio_vmstate_change running to_dst_file w = Ret tt w'
      /\ stream w' = (if to_dst_file then qemu_file_set_error (stream w) (-1)
                      else stream w)
      /\ migration (vbasedev w') = Some m'
      /\ ((io_ret (reply_recover w VFIO_DEVICE_STATE_ERROR) = 0
           /\ device_state m' = VFIO_DEVICE_STATE_ERROR)
          \/ (io_ret (reply_recover w VFIO_DEVICE_STATE_ERROR) <> 0
              /\ device_state m' = device_state m))
      /\ (to_dst_file = true -> last_error (stream w) = 0 ->
          exists w2, vfio_save_setup w' = Ret (-1) w2 /\ stream w2 = stream w'))
  \/ (exists (msg : string) (w' : World),
         vfio_vmstate_change running to_dst_file w = HwError msg w'
         /\ io_ret (reply_recover w VFIO_DEVICE_STATE_ERROR) <> 0
         /\ reply_reset w <> 0).
Proof.
  intros Hm Hrej. unfold vfio_vmstate_change. fold (run_state_target running).
  assert (Hsetup : forall w1 : World,
             stream w1 = qemu_file_set_error (stream w) (-1) ->
             last_error (stream w) = 0 ->
             exists w2, vfio_save_setup w1 = Ret (-1) w2 /\ stream w2 = stream w1).
  { intros w1 Hs He. unfold qemu_file_set_error in Hs. rewrite He in Hs. simpl in Hs.
    unfold vfio_save_setup, put_be64, file_get_error, bind, modify, gets.
    unfold qemu_put_be64, qemu_put_buffer, qemu_file_get_error. simpl.
    rewrite Hs. simpl. eexists. split; reflexivity. }
  destruct (Z.eq_dec (io_ret (reply_recover w VFIO_DEVICE_STATE_ERROR)) 0)
    as [Hrec | Hrej2].
  - left. unfold bind at 1.
    rewrite (set_state_recovered _ _ w m Hm Hrej Hrec). cbv zeta.
    change (negb (-1 =? 0)) with true. cbv iota.
    destruct to_dst_file; unfold modify, ret;
      do 2 eexists; (split; [reflexivity |]);
      unfold install_fd;
      match goal with |- context [if ?b then _ else _] => destruct b end; simpl;
      (split; [reflexivity |]); (split; [reflexivity |]);
      (split; [left; split; [exact Hrec | reflexivity] |]);
      intros Hd He; try discriminate Hd; (apply Hsetup; [reflexivity | exact He]).
  - destruct (Z.eq_dec (reply_reset w) 0) as [Hok | Hbad].
    + left. unfold bind at 1.
      rewrite (set_state_reset _ _ w Hrej Hrej2 Hok).
      change (negb (-1 =? 0)) with true. cbv iota.
      destruct to_dst_file; unfold modify, ret;
        eexists; exists m;
        (split; [reflexivity |]); simpl;
        (split; [reflexivity |]); (split; [exact Hm |]);
        (split; [right; split; [exact Hrej2 | reflexivity] |]);
        intros Hd He; try discriminate Hd; (apply Hsetup; [reflexivity | exact He]).
    + right. unfold bind at 1.
      rewrite (set_state_fatal _ _ w Hrej Hrej2 Hbad).
      do 2 eexists. split; [reflexivity |]. split; assumption.
Qed.

Lemma vmstate_change_refused_witness :
  exists (w' : World),
    vfio_vmstate_change false true world_reset = Ret tt w'
    /\ last_error (stream w') = -1.
Proof.
  destruct (vmstate_change_refused false true world_reset
              (mkMigration 1 VFIO_DEVICE_STATE_RUNNING (-1) (repeat x00 4) 4)
              eq_refl ltac:(by_compute))
    as [(w' & m' & Hrun & Hs & _) | (msg & w' & Hrun & _ & Hbad)].
  - exists w'. split; [exact Hrun |]. rewrite Hs. reflexivity.
  - exfalso. apply Hbad. reflexivity.
Defined.


(** ** Handlers run in tree order *)

Lemma insert_split (e : Qdev.VMChangeStateEntry) (reg : list Qdev.VMChangeStateEntry) :
  exists a b, Qdev.insert_by_priority e reg = a ++ e :: b
              /\ Forall (fun o => Qdev.priority o <= Qdev.priority e) a.
Proof.
  induction reg as [| other rest (a & b & IH & Ha)]; simpl.
  - exists [], []. split; [reflexivity | constructor].
  - destruct (Qdev.priority e <? Qdev.priority other) eqn:E.
    + exists [], (other :: rest). split; [reflexivity | constructor].
    + exists (other :: a), b. rewrite IH. split; [reflexivity |].
      constructor; [apply Z.ltb_ge in E; exact E | exact Ha].
Qed.

Lemma insert_after (e x : Qdev.VMChangeStateEntry) (a b : list Qdev.VMChangeStateEntry) :
  Forall (fun o => Qdev.priority o <= Qdev.priority e) a ->
  Qdev.priority x <= Qdev.priority e ->
  Qdev.insert_by_priority e (a ++ x :: b) = a ++ x :: Qdev.insert_by_priority e b.
Proof.
  intros Ha Hx. induction Ha as [| o a Ho Ha IH]; simpl.
  - replace (Qdev.priority e <? Qdev.priority x) with false
      by (symmetry; apply Z.ltb_ge; exact Hx).
    reflexivity.
  - replace (Qdev.priority e <? Qdev.priority o) with false
      by (symmetry; apply Z.ltb_ge; exact Ho).
    rewrite IH. reflexivity.
Qed.

Lemma insert_before (e x : Qdev.VMChangeStateEntry) (a b : list Qdev.VMChangeStateEntry) :
  Qdev.priority e < Qdev.priority x ->
  exists l1 l2, Qdev.insert_by_priority e (a ++ x :: b) = l1 ++ e :: l2 ++ x :: b.
Proof.
  intros Hx. induction a as [| o a (l1 & l2 & IH)]; simpl.
  - replace (Qdev.priority e <? Qdev.priority x) with true
      by (symmetry; apply Z.ltb_lt; exact Hx).
    exists [], []. reflexivity.
  - destruct (Qdev.priority e <? Qdev.priority o).
    + exists [], (o :: a). reflexivity.
    + exists (o :: l1), l2. rewrite IH. reflexivity.
Qed.

(** X15: a device's handler is registered one priority level above the
    handler of the device its bus hangs off, and so, whatever the registry
    held before and whichever of the two is registered first, the parent's
    entry ends up in front of the child's.  (The tree must be shallow
    enough for the depth to fit the C [int].) *)
Theorem parent_handler_before_child
    (parent : Qdev.DeviceState) (cb_p opaque_p cb_c opaque_c : Z)
    (reg : list Qdev.VMChangeStateEntry) :
  Z.of_nat (Qdev.hops (Some (child_of parent))) < 2 ^ 31 ->
  Qdev.qdev_get_dev_tree_depth (Some (child_of parent))
  = Qdev.qdev_get_dev_tree_depth (Some parent) + 1
  /\ (let rp := Qdev.qdev_add_vm_change_state_handler (Some parent) cb_p opaque_p reg in
      let rc := Qdev.qdev_add_vm_change_state_handler
                  (Some (child_of parent)) cb_c opaque_c (snd rp) in
      exists l1 l2 l3, snd rc = l1 ++ fst rp :: l2 ++ fst rc :: l3)
  /\ (let rc := Qdev.qdev_add_vm_change_state_handler
                  (Some (child_of parent)) cb_c opaque_c reg in
      let rp := Qdev.qdev_add_vm_change_state_handler (Some parent) cb_p opaque_p (snd rc) in
      exists l1 l2 l3, snd rp = l1 ++ fst rp :: l2 ++ fst rc :: l3).
Proof.
  intros Hfit.
  assert (Hlen : Qdev.hops (Some (child_of parent)) = S (Qdev.hops (Some parent))).
  { simpl. destruct parent as [[[[d |]] |]]; reflexivity. }
  assert (Hn : Z.of_nat (length (Qdev.ancestor_buses parent)) + 1 < 2 ^ 31).
  { rewrite Hlen in Hfit. unfold Qdev.hops in Hfit. lia. }
  assert (Hp : Qdev.qdev_get_dev_tree_depth (Some parent)
               = Z.of_nat (Qdev.hops (Some parent))).
  { unfold Qdev.qdev_get_dev_tree_depth, Qdev.hops.
    rewrite depth_from_hops by lia. lia. }
  assert (Hc : Qdev.qdev_get_dev_tree_depth (Some (child_of parent))
               = Z.of_nat (Qdev.hops (Some parent)) + 1).
  { unfold Qdev.qdev_get_dev_tree_depth.
    unfold Qdev.hops in Hlen, Hfit.
    rewrite depth_from_hops by lia.
    rewrite Hlen. unfold Qdev.hops. lia. }
  split; [rewrite Hc, Hp; reflexivity |].
  unfold Qdev.qdev_add_vm_change_state_handler,
    Qdev.qdev_add_vm_change_state_handler_full,
    Qdev.qemu_add_vm_change_state_handler_prio_full.
  rewrite Hc, Hp. cbv zeta. cbn [fst snd].
  set (ep := Qdev.mkEntry cb_p None opaque_p _).
  set (ec := Qdev.mkEntry cb_c None opaque_c _).
  split.
  - destruct (insert_split ep reg) as (a & b & -> & Ha).
    rewrite insert_after.
    + destruct (insert_split ec b) as (a' & b' & -> & _).
      exists a, a', b'. reflexivity.
    + eapply Forall_impl; [exact Ha |]. subst ep ec. simpl. intros o Ho. lia.
    + subst ep ec. simpl. lia.
  - destruct (insert_split ec reg) as (a & b & -> & _).
    destruct (insert_before ep ec a b) as (l1 & l2 & ->).
    + subst ep ec. simpl. lia.
    + exists l1, l2, b. reflexivity.
Qed.

Lemma parent_handler_before_child_witness :
  Z.of_nat (Qdev.hops (Some (child_of device_two_up))) < 2 ^ 31
  /\ Qdev.qdev_get_dev_tree_depth (Some (child_of device_two_up)) = 3
  /\ exists l1 l2 l3,
       snd (Qdev.qdev_add_vm_change_state_handler (Some device_two_up) 100 7
              (snd (Qdev.qdev_add_vm_change_state_handler
                      (Some (child_of device_two_up)) 200 8 example_registry)))
       = l1 ++ Qdev.mkEntry 100 None 7 2 :: l2 ++ Qdev.mkEntry 200 None 8 3 :: l3.
Proof.
  assert (Hfit : Z.of_nat (Qdev.hops (Some (child_of device_two_up))) < 2 ^ 31)
    by by_compute.
  destruct (parent_handler_before_child device_two_up 100 7 200 8 example_registry Hfit)
    as (Hd & _ & Hcp).
  split; [exact Hfit |]. split; [exact Hd |]. exact Hcp.
Defined.


(** ** What teardown does not do *)

Lemma finalize_calls (w : World) :
  exists w' : World,
    vfio_migration_finalize w = Ret tt w'
    /\ migration (vbasedev w') = None
    /\ fds w' = fds w
    /\ stream w' = stream w
    /\ bytes_transferred w' = bytes_transferred w
    /\ kernel w' = kernel w
    /\ calls w' = calls w
         ++ match migration (vbasedev w) with
            | Some m => [CallRemoveMigrationStateChangeNotifier;
                         CallDelVmChangeStateHandler (vm_state m);
                         CallUnregisterSavevm "vfio";
                         CallFreeDataBuffer;
                         CallFreeMigration]
            | None => []
            end
         ++ match migration_blocker (vbasedev w) with
            | Some reason => [CallMigrateDelBlocker reason; CallErrorFree reason]
            | None => []
            end.
Proof.
  unfold vfio_migration_finalize, vfio_migration_exit, bind, gets, modify, ret,
    get_migration.
  destruct (migration (vbasedev w)) as [m |] eqn:Hm; simpl; rewrite ?Hm; simpl;
    destruct (migration_blocker (vbasedev w)) as [b |] eqn:Hb; simpl;
    eexists; (split; [reflexivity |]); simpl;
    repeat split; rewrite <- ?app_assoc, ?app_nil_r; auto.
Qed.

(** X16: [vfio_migration_finalize] always returns, and its whole effect is
    the unregistrations and frees listed here, in this order.  It makes no
    [close]: a data channel still open when the device is finalized stays
    open, its descriptor lost with the context; and it leaves the stream
    and the process-wide byte counter as they were. *)
Theorem finalize_footprint (w : World) :
  exists w' : World,
    vfio_migration_finalize w = Ret tt w'
    /\ fds w' = fds w
    /\ stream w' = stream w
    /\ bytes_transferred w' = bytes_transferred w
    /\ kernel w' = kernel w
    /\ calls w' = calls w
         ++ match migration (vbasedev w) with
            | Some m => [CallRemoveMigrationStateChangeNotifier;
                         CallDelVmChangeStateHandler (vm_state m);
                         CallUnregisterSavevm "vfio";
                         CallFreeDataBuffer;
                         CallFreeMigration]
            | None => []
            end
         ++ match migration_blocker (vbasedev w) with
            | Some reason => [CallMigrateDelBlocker reason; CallErrorFree reason]
            | None => []
            end.
Proof.
  destruct (finalize_calls w) as (w' & Hrun & _ & Hf & Hs & Hb & Hk & Hc).
  exists w'. repeat split; assumption.
Qed.


(** ** Probing *)

Lemma stop_copy_bit (flags : Z) :
  (Z.land (wrap_u64 flags) VFIO_MIGRATION_STOP_COPY =? 0) = negb (Z.testbit flags 0).
Proof.
  unfold wrap_u64, VFIO_MIGRATION_STOP_COPY.
  change 1 with (Z.ones 1). rewrite Z.land_ones by lia.
  change (2 ^ 1) with 2.
  rewrite Z.mod_mod_divide by (exists (2 ^ 63); reflexivity).
  rewrite Z.bit0_odd, Zmod_odd. destruct (Z.odd flags); reflexivity.
Qed.

(** X17: probing a device that cannot migrate (migration disabled for it,
    no [vfio_get_object] hook or no object behind it, a kernel that fails
    the feature query or reports no stop-copy capability) creates no
    migration context and registers nothing but the blocker.  The value
    returned is the answer of [migrate_add_blocker], so 0 when the blocker
    went in, and not the reason why the device cannot migrate; the blocker
    stays recorded on the device exactly when that answer is not
    negative. *)
Theorem probe_without_support (h : Host) (s : Setup) :
  can_migrate h = false ->
  (enable_migration h = true -> ops (vbasedev (s_world s)) <> None) ->
  migration_blocker (vbasedev (s_world s)) = None ->
  exists (s' : Setup) (queries : list setup_call),
    vfio_migration_probe h s = Done (migrate_add_blocker h) s'
    /\ migration (vbasedev (s_world s')) = migration (vbasedev (s_world s))
    /\ migration_blocker (vbasedev (s_world s'))
       = (if migrate_add_blocker h <? 0 then None else Some blocker_reason)
    /\ s_handlers s' = s_handlers s
    /\ s_calls s' = s_calls s ++ queries
                      ++ CallMigrateAddBlocker blocker_reason
                      :: (if migrate_add_blocker h <? 0
                          then [CallErrorFreeBlocker blocker_reason] else [])
    /\ Forall (fun c => c = CallVfioGetObject
                        \/ c = CallFeatureMigration (fd (vbasedev (s_world s)))) queries.
Proof.
  intros Hcan Hops Hb.
  assert (Hadd : forall s1 : Setup,
             migration_blocker (vbasedev (s_world s1)) = None ->
             exists s',
               add_blocker h s1 = Done (migrate_add_blocker h) s'
               /\ migration (vbasedev (s_world s')) = migration (vbasedev (s_world s1))
               /\ migration_blocker (vbasedev (s_world s'))
                  = (if migrate_add_blocker h <? 0 then None else Some blocker_reason)
               /\ s_handlers s' = s_handlers s1
               /\ s_calls s' = s_calls s1
                                 ++ CallMigrateAddBlocker blocker_reason
                                 :: (if migrate_add_blocker h <? 0
                                     then [CallErrorFreeBlocker blocker_reason] else [])).
  { intros s1 Hb1. unfold add_blocker. rewrite Hb1. cbv zeta.
    destruct (migrate_add_blocker h <? 0); eexists; (split; [reflexivity |]);
      cbn; repeat split; rewrite <- ?app_assoc; reflexivity. }
  unfold vfio_migration_probe, can_migrate in *.
  destruct (enable_migration h); cbn [negb andb] in *.
  2: { destruct (Hadd s Hb) as (s' & Hrun & Hm & Hbl & Hh & Hc).
       exists s', []. rewrite Hrun. repeat split; auto. }
  unfold vfio_migration_init, vfio_migration_query_flags.
  destruct (ops (vbasedev (s_world s))) as [o |]; [| destruct (Hops eq_refl eq_refl)].
  destruct (vfio_get_object h) as [[oid |] |].
  - destruct (fst (feature_migration h) =? 0) eqn:Hret; cbn [negb andb] in *;
      cbv zeta; rewrite ?stop_copy_bit, ?Hcan; cbn [negb];
      change (negb (- EOPNOTSUPP =? 0)) with true; cbv iota;
      match goal with
      | |- context [add_blocker h ?x] =>
          destruct (Hadd x Hb) as (s' & Hrun & Hm & Hbl & Hh & Hc)
      end;
      exists s', [CallVfioGetObject; CallFeatureMigration (fd (vbasedev (s_world s)))];
      rewrite Hrun; repeat split; auto;
      rewrite Hc; cbn; rewrite <- !app_assoc; reflexivity.
  - cbv zeta. change (negb (- EINVAL =? 0)) with true. cbv iota.
    match goal with
    | |- context [add_blocker h ?x] =>
        destruct (Hadd x Hb) as (s' & Hrun & Hm & Hbl & Hh & Hc)
    end.
    exists s', [CallVfioGetObject].
    rewrite Hrun. repeat split; auto.
    rewrite Hc. cbn. rewrite <- !app_assoc. reflexivity.
  - destruct (Hadd s Hb) as (s' & Hrun & Hm & Hbl & Hh & Hc).
    exists s', [].
    change (negb (- EINVAL =? 0)) with true. cbv iota. rewrite Hrun.
    repeat split; auto.
Qed.

Lemma probe_without_support_witness :
  exists (s' : Setup),
    vfio_migration_probe host_no_feature setup_unprobed = Done 0 s'
    /\ migration (vbasedev (s_world s')) = None
    /\ migration_blocker (vbasedev (s_world s')) = Some blocker_reason.
Proof.
  destruct (probe_without_support host_no_feature setup_unprobed eq_refl)
    as (s' & queries & Hrun & Hm & Hb & _).
  - discriminate.
  - reflexivity.
  - exists s'. split; [exact Hrun |]. split; [exact Hm | exact Hb].
Defined.


(** X18: probing a device that can migrate returns 0 and leaves a fresh
    migration context: no data channel open ([data_fd] is -1), a transfer
    buffer of 1 MiB, and in [vm_state] the run-state entry just
    registered, at the priority given by the device's depth in the tree.
    The handlers are registered once, under the object's id followed by
    "/vfio" (or plain "vfio"), no blocker is added, and a later
    [vfio_migration_finalize] hands that same entry back for removal.
    (The registration name must fit the 256-byte id buffer with its
    terminator.) *)
Theorem probe_with_support (h : Host) (s : Setup) (o : VFIODeviceOps) :
  can_migrate h = true ->
  ops (vbasedev (s_world s)) = Some o ->
  Z.of_nat (String.length (savevm_id h)) < 256 ->
  exists (s' : Setup) (m : VFIOMigration),
    vfio_migration_probe h s = Done 0 s'
    /\ migration (vbasedev (s_world s')) = Some m
    /\ data_fd m = -1
    /\ data_buffer_size m = 1048576
    /\ Z.of_nat (length (data_buffer m)) = 1048576
    /\ vm_state m = entry_address h
    /\ migration_blocker (vbasedev (s_world s'))
       = migration_blocker (vbasedev (s_world s))
    /\ s_handlers s'
       = Qdev.insert_by_priority
           (Qdev.mkEntry (vmstate_change_cb h) None (vbasedev_opaque h)
              (Qdev.qdev_get_dev_tree_depth (host_dev h)))
           (s_handlers s)
    /\ s_calls s' = s_calls s
                      ++ [CallVfioGetObject;
                          CallFeatureMigration (fd (vbasedev (s_world s)));
                          CallRegisterSavevmLive (savevm_id h) 1;
                          CallAddMigrationStateChangeNotifier]
    /\ exists (w' : World) (rest : list extcall),
         vfio_migration_finalize (s_world s') = Ret tt w'
         /\ migration (vbasedev w') = None
         /\ calls w' = calls (s_world s)
                         ++ [CallRemoveMigrationStateChangeNotifier;
                             CallDelVmChangeStateHandler (entry_address h);
                             CallUnregisterSavevm "vfio";
                             CallFreeDataBuffer;
                             CallFreeMigration] ++ rest.
Proof.
  intros Hcan Hops Hid.
  unfold vfio_migration_probe, vfio_migration_init, vfio_migration_query_flags.
  unfold can_migrate in Hcan. unfold savevm_id in *.
  destruct (enable_migration h); [| discriminate]. cbn [negb andb] in Hcan |- *.
  rewrite Hops.
  destruct (vfio_get_object h) as [[oid |] |]; try discriminate.
  apply andb_true_iff in Hcan as [Hret Hbit].
  rewrite Hret. cbn [negb]. cbv zeta. rewrite stop_copy_bit, Hbit. cbn [negb].
  set (path := match oid with Some o0 => o0 +:+ "/vfio" | None => "vfio" end) in *.
  replace (256 <=? Z.of_nat (String.length path)) with false
    by (symmetry; apply Z.leb_gt; exact Hid).
  unfold Qdev.qdev_add_vm_change_state_handler,
    Qdev.qdev_add_vm_change_state_handler_full,
    Qdev.qemu_add_vm_change_state_handler_prio_full.
  cbv zeta. change (negb (0 =? 0)) with false. cbv iota.
  remember (repeat x00 (Z.to_nat VFIO_MIG_DATA_BUFFER_SIZE)) as buf eqn:Hbuf.
  do 2 eexists. split; [reflexivity |].
  cbn -[Z.to_nat repeat VFIO_MIG_DATA_BUFFER_SIZE Qdev.insert_by_priority
        Qdev.qdev_get_dev_tree_depth String.length vfio_migration_finalize].
  split; [reflexivity |].
  cbn -[Z.to_nat repeat VFIO_MIG_DATA_BUFFER_SIZE Qdev.insert_by_priority
        Qdev.qdev_get_dev_tree_depth String.length vfio_migration_finalize].
  split; [reflexivity |]. split; [reflexivity |].
  split; [rewrite Hbuf, repeat_length, Z2Nat.id
            by (unfold VFIO_MIG_DATA_BUFFER_SIZE; lia);
          reflexivity |].
  split; [reflexivity |]. split; [reflexivity |]. split; [reflexivity |].
  split; [rewrite <- !app_assoc; reflexivity |].
  match goal with
  | |- context [vfio_migration_finalize ?w0] =>
      destruct (finalize_calls w0) as (w' & Hrun & Hnone & _ & _ & _ & _ & Hc)
  end.
  exists w'. eexists. split; [exact Hrun |]. split; [exact Hnone |].
  rewrite Hc. reflexivity.
Qed.

Lemma probe_with_support_witness :
  exists (s' : Setup) (m : VFIOMigration),
    vfio_migration_probe host_capable setup_unprobed = Done 0 s'
    /\ migration (vbasedev (s_world s')) = Some m
    /\ data_fd m = -1
    /\ data_buffer_size m = 1048576
    /\ vm_state m = 12288
    /\ s_handlers s'
       = Qdev.insert_by_priority (Qdev.mkEntry 4096 None 8192 2) example_registry
    /\ s_calls s' = [CallVfioGetObject; CallFeatureMigration 7;
                     CallRegisterSavevmLive "0000:3b:00.0/vfio" 1;
                     CallAddMigrationStateChangeNotifier].
Proof.
  destruct (probe_with_support host_capable setup_unprobed example_ops
              eq_refl eq_refl ltac:(by_compute))
    as (s' & m & Hrun & Hm & Hd & Hz & _ & Hv & _ & Hh & Hc & _).
  exists s', m. repeat split; assumption.
Defined.


(** ** One block, one save cycle *)

(** X19: one [vfio_save_block] on an error-free stream, whatever the data
    channel holds: it makes one [read] for the buffer size and returns -1,
    0 or 1.  When it returns 0 it has appended exactly one data section,
    of at least one byte and at most the buffer size, and added that
    length to the byte counter (in 64-bit arithmetic); when it returns 1
    (end of the channel) or -1 (failed read, or no open channel) it has
    written and counted nothing. *)
Theorem save_block_outcomes (w : World) (m : VFIOMigration) :
  migration (vbasedev w) = Some m ->
  last_error (stream w) = 0 ->
  exists (r : Z) (w' : World),
    vfio_save_block w = Ret r w'
    /\ calls w' = calls w ++ [CallRead (data_fd m) (data_buffer_size m)]
    /\ ((r = -1 /\ stream w' = stream w /\ bytes_transferred w' = bytes_transferred w
         /\ (fds w !! data_fd m = None
             \/ exists rest, fds w !! data_fd m = Some (RdError :: rest)))
        \/ (r = 1 /\ stream w' = stream w /\ bytes_transferred w' = bytes_transferred w)
        \/ (r = 0 /\ exists bs,
              0 < Z.of_nat (length bs) <= data_buffer_size m
              /\ stream w' = mkQEMUFile (rd (stream w)) (wr (stream w) ++ data_frame bs) 0
              /\ bytes_transferred w'
                 = wrap_s64 (bytes_transferred w + Z.of_nat (length bs)))).
Proof.
  intros Hm He.
  run_save. rewrite Hm.
  destruct (fds w !! data_fd m) as [[| [bs |] rest] |] eqn:Hch; simpl; rewrite ?Hm; simpl.
  - do 2 eexists. split; [reflexivity |]. simpl. split; [reflexivity |].
    right; left. repeat split.
  - destruct (Z.of_nat (length bs) <=? data_buffer_size m) eqn:Hfit; simpl;
      rewrite ?Hm; simpl.
    + destruct bs as [| b bs]; simpl.
      * do 2 eexists. split; [reflexivity |]. simpl. split; [reflexivity |].
        right; left. repeat split.
      * replace (Z.pos (Pos.of_succ_nat (length bs)) <? 0) with false
          by (symmetry; apply Z.ltb_ge; lia).
        replace (Z.pos (Pos.of_succ_nat (length bs)) =? 0) with false
          by (symmetry; apply Z.eqb_neq; lia).
        simpl. rewrite ?Hm. simpl. unfold qemu_put_be64, qemu_put_buffer. simpl.
        rewrite He. simpl.
        do 2 eexists. split; [reflexivity |]. simpl. split; [reflexivity |].
        right; right. split; [reflexivity |]. exists (b :: bs).
        apply Z.leb_le in Hfit. split; [simpl length in *; lia |]. split.
        -- unfold data_frame. rewrite <- !app_assoc. rewrite Nat2Z.id.
           do 4 f_equal. apply (take_app_length (b :: bs)).
        -- reflexivity.
    + apply Z.leb_gt in Hfit.
      set (n := Z.to_nat (data_buffer_size m)).
      destruct (Z.of_nat n <? 0) eqn:Hneg; [apply Z.ltb_lt in Hneg; lia |].
      destruct (Z.of_nat n =? 0) eqn:Hzero; simpl; rewrite ?Hm; simpl.
      * do 2 eexists. split; [reflexivity |]. simpl. split; [reflexivity |].
        right; left. repeat split.
      * apply Z.eqb_neq in Hzero.
        unfold qemu_put_be64, qemu_put_buffer. simpl. rewrite He. simpl.
        do 2 eexists. split; [reflexivity |]. simpl. split; [reflexivity |].
        right; right. split; [reflexivity |]. exists (take n bs).
        assert (Hlen : length (take n bs) = n) by (rewrite length_take; lia).
        split; [rewrite Hlen; subst n; lia |]. split.
        -- unfold data_frame. rewrite <- !app_assoc. rewrite Hlen. do 4 f_equal.
           rewrite Nat2Z.id. rewrite <- Hlen at 1. rewrite take_app_length. reflexivity.
        -- rewrite Hlen. reflexivity.
  - do 2 eexists. split; [reflexivity |]. simpl. split; [reflexivity |].
    left. repeat split. right. eexists. reflexivity.
  - do 2 eexists. split; [reflexivity |]. simpl. split; [reflexivity |].
    left. repeat split. left. reflexivity.
Qed.

Lemma save_block_outcomes_witness :
  exists (r : Z) (w' : World),
    vfio_save_block world_desync = Ret r w'
    /\ calls w' = [CallRead 5 4].
Proof.
  destruct (save_block_outcomes world_desync
              (mkMigration 1 VFIO_DEVICE_STATE_STOP 5 (repeat x00 4) 4) eq_refl eq_refl)
    as (r & w' & Hrun & Hc & _).
  exists r, w'. split; [exact Hrun | exact Hc].
Defined.

(** X20: a whole save cycle uses the data channel once and gives it back.
    When [vfio_save_complete_precopy] has succeeded, the descriptor the
    kernel handed out for STOP_COPY is still the recorded [data_fd]; the
    [vfio_save_cleanup] that follows closes that descriptor, records -1,
    and leaves the device state at STOP. *)
Theorem save_cycle_closes_channel
    (w : World) (m : VFIOMigration) (blocks : list (list byte)) (d : Z) :
  migration (vbasedev w) = Some m ->
  data_fd m = -1 ->
  last_error (stream w) = 0 ->
  reply_target w VFIO_DEVICE_STATE_STOP_COPY = mkReply 0 d (map RdData blocks) ->
  d <> -1 ->
  Forall (fun bs => bs <> [] /\ Z.of_nat (length bs) <= data_buffer_size m) blocks ->
  k_set_state (kernel w) (length (calls w) + length blocks + 2) VFIO_DEVICE_STATE_STOP
    = mkReply 0 (-1) [] ->
  exists (w1 w2 : World) (m1 m2 : VFIOMigration),
    vfio_save_complete_precopy w = Ret 0 w1
    /\ migration (vbasedev w1) = Some m1
    /\ data_fd m1 = d
    /\ vfio_save_cleanup w1 = Ret tt w2
    /\ migration (vbasedev w2) = Some m2
    /\ data_fd m2 = -1
    /\ device_state m2 = VFIO_DEVICE_STATE_STOP
    /\ fds w2 !! d = None
    /\ calls w2 = calls w1 ++ [CallClose d]
    /\ stream w2 = stream w1.
Proof.
  intros Hm Hclosed He Hreply Hd Hall Hstop.
  destruct (precopy_blocks_then_eof w m blocks d Hm Hclosed He Hreply Hd Hall Hstop)
    as (w1 & m1 & Hrun & Hm1 & Hs1 & Hd1 & _).
  exists w1. eexists. exists m1. eexists.
  split; [exact Hrun |]. split; [exact Hm1 |]. split; [exact Hd1 |].
  unfold vfio_save_cleanup. rewrite (cleanup_run w1 m1 Hm1).
  split; [reflexivity |]. simpl.
  split; [reflexivity |]. split; [reflexivity |]. split; [exact Hs1 |].
  rewrite Hd1. split; [apply lookup_delete_eq |]. split; reflexivity.
Qed.

Lemma save_cycle_closes_channel_witness :
  exists (w1 w2 : World),
    vfio_save_complete_precopy world_three_blocks = Ret 0 w1
    /\ vfio_save_cleanup w1 = Ret tt w2
    /\ fds w2 !! 5 = None.
Proof.
  assert (Hall : Forall (fun bs : list byte => bs <> [] /\ Z.of_nat (length bs) <= 4)
                   three_blocks)
    by (repeat constructor; by_compute).
  destruct (save_cycle_closes_channel world_three_blocks
              (mkMigration 1 VFIO_DEVICE_STATE_STOP (-1) (repeat x00 4) 4)
              three_blocks 5 eq_refl eq_refl eq_refl eq_refl ltac:(discriminate) Hall
              eq_refl)
    as (w1 & w2 & m1 & m2 & Hrun & _ & _ & Hclean & _ & _ & _ & Hfd & _).
  exists w1, w2. split; [exact Hrun |]. split; [exact Hclean | exact Hfd].
Defined.
